(** * Claim coordination: conflict detection, staleness and the ownership guard

    A shallow embedding of the claim/lock coordination code of
    [scripts/check_claims.py] and [scripts/safe_worktree_remove.py].

    Conventions of the embedding.
    - A Python dict with a fixed set of optional keys is a record with
      [option] fields, [None] for a missing key.  A key read with
      [dict.get(key)] behaves the same when it holds the value [None].  The
      key [cc_id] is also read with a default, [claim.get("cc_id",
      "unknown")], which tells the two apart: there [None] is the missing
      key, and a ledger entry written as [cc_id: null] is not represented.
    - Instants are integers, microseconds since the epoch (the resolution
      of [datetime]); a duration is a difference of instants.
    - The file system, git, the process table and the clock are read-only
      inputs of the functions: they are variables of the sections below.
    - [print] calls are not modelled. *)

From Stdlib Require Import String Ascii ZArith Bool List Lia.
Import ListNotations.

Local Open Scope string_scope.
Local Open Scope Z_scope.
Local Open Scope list_scope.

(** ** Python idioms *)

Module Py.

(** Truthiness of an optional integer: [None] and [0] are falsy. *)
Definition truthy_int (x : option Z) : bool :=
  match x with
  | Some n => negb (Z.eqb n 0)
  | None => false
  end.

(** Truthiness of an optional string: [None] and the empty string are falsy. *)
Definition truthy_str (x : option string) : bool :=
  match x with
  | Some s => negb (String.eqb s "")
  | None => false
  end.

(** [x == y] on optional integers and strings. *)
Definition eq_int (x y : option Z) : bool :=
  match x, y with
  | Some a, Some b => Z.eqb a b
  | None, None => true
  | _, _ => false
  end.

Definition eq_str (x y : option string) : bool :=
  match x, y with
  | Some a, Some b => String.eqb a b
  | None, None => true
  | _, _ => false
  end.

(** [d.get(key, default)]. *)
Definition get_or {A : Type} (x : option A) (default : A) : A :=
  match x with
  | Some a => a
  | None => default
  end.

(** The slice [l[-n:]] for a positive literal [n]: the last [n] elements,
    the whole list when it is shorter. *)
Definition last_n {A : Type} (n : nat) (l : list A) : list A :=
  skipn (length l - n) l.

(** [s.startswith(p)]. *)
Definition startswith (s p : string) : bool := String.prefix p s.

Definition microseconds_per_minute : Z := 60 * 1000000.
Definition microseconds_per_hour : Z := 3600 * 1000000.

End Py.

(** ** Data model *)

(** A timestamp as the code writes it: [strftime("%Y-%m-%dT%H:%M:%SZ")]
    or [isoformat()], both of [datetime.now(timezone.utc)]. *)
Inductive TimeText : Type :=
| Strftime (t : Z)
| Isoformat (t : Z).

(** A claim, as stored in the ledger and in a worktree's claim file. *)
Record Claim : Type := mkClaim {
  claim_cc_id : option string;
  claim_plan : option Z;
  claim_feature : option string;
  claim_task : option string;
  claim_claimed_at : option TimeText;
  claim_session_id : option string;
  claim_worktree_path : option string;
  claim_files : list string;   (* empty when the key is missing *)
}.

(** An entry of the completed history. *)
Record Completion : Type := mkCompletion {
  comp_cc_id : string;
  comp_plan : option Z;
  comp_task : option string;
  completed_at : TimeText;
  comp_commit : option string;
  auto_completed : bool;
  reason : option string;
}.

(** The ledger dict: [{"claims": [...], "completed": [...]}]. *)
Record Data : Type := mkData {
  claims : list Claim;
  completed : list Completion;
}.

Definition claim_eq_dec (a b : Claim) : {a = b} + {a <> b}.
Proof.
  repeat decide equality.
Defined.

(** ** ConflictResolver: [check_scope_conflict] *)

Module ConflictResolver.

Definition shared : string := "shared".

(** The test of the first [if] of the loop body: exact plan match. *)
Definition plan_match (new_plan : option Z) (claim : Claim) : bool :=
  Py.truthy_int new_plan && Py.truthy_int (claim_plan claim)
  && Py.eq_int new_plan (claim_plan claim).

(** The test of the second [if]: exact feature match. *)
Definition feature_match (new_feature : option string) (claim : Claim) : bool :=
  Py.truthy_str new_feature && Py.truthy_str (claim_feature claim)
  && Py.eq_str new_feature (claim_feature claim).

(** The [for] loop, with the list [conflicts] it appends to. *)
Fixpoint scope_loop (new_plan : option Z) (new_feature : option string)
    (existing_claims conflicts : list Claim) : list Claim :=
  match existing_claims with
  | [] => conflicts
  | claim :: rest =>
      if plan_match new_plan claim then
        scope_loop new_plan new_feature rest (conflicts ++ [claim])
      else if feature_match new_feature claim then
        if negb (Py.eq_str (claim_feature claim) (Some shared)) then
          scope_loop new_plan new_feature rest (conflicts ++ [claim])
        else scope_loop new_plan new_feature rest conflicts
      else scope_loop new_plan new_feature rest conflicts
  end.

Definition check_scope_conflict (new_plan : option Z)
    (new_feature : option string) (existing_claims : list Claim) : list Claim :=
  if Py.eq_str new_feature (Some shared) then []
  else scope_loop new_plan new_feature existing_claims [].

(** What one loop iteration decides for a claim. *)
Definition collides (new_plan : option Z) (new_feature : option string)
    (claim : Claim) : bool :=
  plan_match new_plan claim
  || (feature_match new_feature claim
      && negb (Py.eq_str (claim_feature claim) (Some shared))).

(** The rule in the words of the specification, reading "set" as "present":
    the new plan is set and equals the claim's plan, or the new feature is
    set, equals the claim's feature, and that feature is not "shared". *)
Definition conflict_as_specified (new_plan : option Z)
    (new_feature : option string) (claim : Claim) : Prop :=
  (exists p, new_plan = Some p /\ claim_plan claim = Some p)
  \/ (exists f, new_feature = Some f /\ claim_feature claim = Some f
                /\ f <> shared).

End ConflictResolver.

(** ** Persisted state and effects

    What the scripts write: the shared ledger file
    ([.claude/active-work.yaml], written whole by [save_yaml]) and the claim
    file of each worktree ([.claim.yaml], written by
    [save_claim_to_worktree]).  The session files are a third store: the
    directory is read by [is_session_stale], and the file of the running
    process is rewritten by [get_or_create_session], which
    [get_session_id()] calls; that file is carried beside the disk where a
    function's writes to it are followed ([get_or_create_session],
    [update_session_heartbeat], [release_claim_in_session]). *)

Record Disk : Type := mkDisk {
  ledger_file : option Data;
  worktree_claim_files : list (string * Claim);
}.

(** A computation that may write to the disk. *)
Definition Eff (A : Type) : Type := Disk -> A * Disk.

Definition ret {A : Type} (a : A) : Eff A := fun d => (a, d).

Definition bind {A B : Type} (m : Eff A) (k : A -> Eff B) : Eff B :=
  fun d => let (a, d') := m d in k a d'.

Notation "x <- m ;; k" := (bind m (fun x => k))
  (at level 61, m at next level, right associativity).
Notation "m ;;; k" := (bind m (fun _ => k))
  (at level 61, right associativity).

(** [save_yaml(data)]: the ledger file is replaced by [data]. *)
Definition save_yaml (data : Data) : Eff unit :=
  fun d => (tt, mkDisk (Some data) (worktree_claim_files d)).

(** ** SessionRegistry: [is_session_stale] *)

Record Session : Type := mkSession {
  s_session_id : option string;
  s_hostname : option string;
  s_pid : option Z;
  s_started_at : option string;
  s_last_activity : option string;
  s_working_on : option string;
}.

(** The result of [datetime.fromisoformat]: the wall-clock reading in
    microseconds and the UTC offset when the text carries one. *)
Record IsoTime : Type := mkIsoTime {
  wall : Z;
  utcoffset : option Z;
}.

(** The instant denoted, after [replace(tzinfo=timezone.utc)] on a naive
    reading. *)
Definition as_utc (t : IsoTime) : Z :=
  match utcoffset t with
  | Some off => wall t - off
  | None => wall t
  end.

Definition STALENESS_MINUTES : Z := 30.

Section SessionRegistry.

(** [datetime.now(timezone.utc)]. *)
Variable now : Z.
(** [datetime.fromisoformat]; [None] when it raises [ValueError]. *)
Variable fromisoformat : string -> option IsoTime.
(** [SESSIONS_DIR]: [None] when the directory does not exist, otherwise the
    result of [load_session] on each [*.session] file, in glob order
    ([None] for a file that cannot be read or parsed). *)
Variable sessions_dir : option (list (option Session)).

(** The verdict on the record found. *)
Definition session_verdict (staleness_minutes : Z) (session : Session)
    : bool * option Session :=
  if negb (Py.truthy_str (s_last_activity session)) then (true, Some session)
  else
    match fromisoformat (Py.get_or (s_last_activity session) "") with
    | Some last_time =>
        let age := now - as_utc last_time in
        if age >? staleness_minutes * Py.microseconds_per_minute
        then (true, Some session)
        else (false, Some session)
    | None => (true, Some session)
    end.

(** The scan of the session files.  A record that loads as the empty dict
    has no [session_id], so the test [session and ...] is the comparison
    of the ids. *)
Fixpoint scan_sessions (session_id : string) (staleness_minutes : Z)
    (session_files : list (option Session)) : bool * option Session :=
  match session_files with
  | [] => (true, None)
  | Some session :: rest =>
      if Py.eq_str (s_session_id session) (Some session_id)
      then session_verdict staleness_minutes session
      else scan_sessions session_id staleness_minutes rest
  | None :: rest => scan_sessions session_id staleness_minutes rest
  end.

Definition is_session_stale (session_id : string) (staleness_minutes : Z)
    : bool * option Session :=
  match sessions_dir with
  | None => (true, None)
  | Some session_files =>
      scan_sessions session_id staleness_minutes session_files
  end.

(** The call with the default threshold. *)
Definition is_session_stale_default (session_id : string)
    : bool * option Session :=
  is_session_stale session_id STALENESS_MINUTES.

(** The first record with the given id, if any. *)
Definition matches (session_id : string) (f : option Session) : bool :=
  match f with
  | Some session => Py.eq_str (s_session_id session) (Some session_id)
  | None => false
  end.

Definition find_session (session_id : string) : option Session :=
  match sessions_dir with
  | None => None
  | Some session_files =>
      match find (matches session_id) session_files with
      | Some f => f
      | None => None
      end
  end.

End SessionRegistry.

(** ** StalenessDetector *)

(** One path yielded by [rglob("*")]. *)
Record FileEntry : Type := mkFileEntry {
  fe_name : string;
  fe_is_file : bool;
  fe_mtime : option Z;   (* [None]: [stat] raises [OSError] *)
}.

(** The git index of a worktree, after the lookup of [.git/index] and, when
    [.git] is a file starting with [gitdir:], of the index it points to. *)
Inductive GitIndex : Type :=
| IndexMissing
| IndexFound (mtime : option Z).

(** What an existing path looks like to [get_worktree_last_modified]. *)
Record Worktree : Type := mkWorktree {
  wt_is_dir : bool;
  wt_git_index : GitIndex;
  wt_subtree : string -> option (list FileEntry);  (* [None]: no such dir *)
  wt_root_mtime : option Z;
}.

(** The reason text of [is_claim_stale]; durations in microseconds. *)
Inductive StaleReason : Type :=
| NoWorktreePath
| WorktreeDoesNotExist (path : string)
| ActivityUnknown
| Inactive (since : Z) (max_hours : Z)
| Active (since : Z).

Definition source_dirs : list string := ["src"; "scripts"; "tests"; "docs"].
Definition max_files : nat := 100.

(** [claim.get("cc_id", "unknown")] of a claim whose [cc_id] is a string or
    is missing.  (For a key present with the value [None] the code gets
    [None], not "unknown"; such claims are not represented.) *)
Definition cc_id_or_unknown (claim : Claim) : string :=
  Py.get_or (claim_cc_id claim) "unknown".

Section StalenessDetector.

Variable now : Z.
(** The file system: [None] when the path does not exist. *)
Variable fs : string -> option Worktree.

Definition path_exists (p : string) : bool :=
  match fs p with
  | Some _ => true
  | None => false
  end.

(** [if most_recent is None or mtime > most_recent: most_recent = mtime]. *)
Definition newer (most_recent : option Z) (mtime : Z) : option Z :=
  match most_recent with
  | None => Some mtime
  | Some m => if mtime >? m then Some mtime else Some m
  end.

(** The inner loop over the files of one source directory. *)
Fixpoint scan_files (entries : list FileEntry) (most_recent : option Z)
    (checked_files : nat) : option Z * nat :=
  match entries with
  | [] => (most_recent, checked_files)
  | e :: rest =>
      if Nat.leb max_files checked_files then (most_recent, checked_files)
      else if fe_is_file e && negb (Py.startswith (fe_name e) ".") then
        match fe_mtime e with
        | Some mtime => scan_files rest (newer most_recent mtime) (S checked_files)
        | None => scan_files rest most_recent checked_files
        end
      else scan_files rest most_recent checked_files
  end.

(** The outer loop over [source_dirs]. *)
Fixpoint scan_dirs (wt : Worktree) (dirs : list string)
    (most_recent : option Z) (checked_files : nat) : option Z :=
  match dirs with
  | [] => most_recent
  | src_dir :: rest =>
      match wt_subtree wt src_dir with
      | None => scan_dirs wt rest most_recent checked_files
      | Some entries =>
          let (m, c) := scan_files entries most_recent checked_files in
          scan_dirs wt rest m c
      end
  end.

Definition get_worktree_last_modified (worktree_path : string) : option Z :=
  match fs worktree_path with
  | None => None
  | Some wt =>
      if negb (wt_is_dir wt) then None
      else
        let most_recent :=
          match wt_git_index wt with
          | IndexFound (Some mtime) => newer None mtime
          | _ => None
          end in
        let most_recent := scan_dirs wt source_dirs most_recent 0 in
        match most_recent with
        | None => wt_root_mtime wt
        | Some _ => most_recent
        end
  end.

(** [hours_since > max_hours], with [hours_since] the quotient of the
    elapsed time by one hour, compared exactly.  The code computes the
    quotient in floating point ([total_seconds() / 3600]); the two
    comparisons agree as long as the quotient is distinguished from
    [max_hours] by a double, which holds for every elapsed time within a
    microsecond of the threshold up to millions of hours. *)
Definition is_claim_stale (claim : Claim) (max_hours : Z)
    : bool * StaleReason :=
  if negb (Py.truthy_str (claim_worktree_path claim)) then (true, NoWorktreePath)
  else
    let p := Py.get_or (claim_worktree_path claim) "" in
    if negb (path_exists p) then (true, WorktreeDoesNotExist p)
    else
      match get_worktree_last_modified p with
      | None => (true, ActivityUnknown)
      | Some last_modified =>
          let since := now - last_modified in
          if since >? max_hours * Py.microseconds_per_hour
          then (true, Inactive since max_hours)
          else (false, Active since)
      end.

(** The call with the default threshold of 8 hours. *)
Definition is_claim_stale_default (claim : Claim) : bool * StaleReason :=
  is_claim_stale claim 8.

(** The loop of [cleanup_stale_claims]; the branch [if not dry_run: pass]
    writes nothing. *)
Fixpoint stale_loop (claims : list Claim) (max_hours : Z) (dry_run : bool)
    (released : list string) : Eff (list string) :=
  match claims with
  | [] => ret released
  | claim :: rest =>
      let cc := Py.get_or (claim_cc_id claim) "unknown" in
      let (is_stale, _) := is_claim_stale claim max_hours in
      if is_stale then
        (if negb dry_run then ret tt (* pass *) else ret tt) ;;;
        stale_loop rest max_hours dry_run (released ++ [cc])
      else stale_loop rest max_hours dry_run released
  end.

(** [cleanup_stale_claims]: the list returned, and the list [claims] as the
    call leaves it. *)
Definition cleanup_stale_claims (claims : list Claim) (max_hours : Z)
    (dry_run : bool) : Eff (list string * list Claim) :=
  released <- stale_loop claims max_hours dry_run [] ;;
  ret (released, claims).

(** The loop of [cleanup_orphaned_claims]. *)
Fixpoint orphan_loop (claims : list Claim) (cleaned : list string)
    (remaining : list Claim) : list string * list Claim :=
  match claims with
  | [] => (cleaned, remaining)
  | claim :: rest =>
      let cc := Py.get_or (claim_cc_id claim) "unknown" in
      if negb (Py.truthy_str (claim_worktree_path claim))
         || negb (path_exists (Py.get_or (claim_worktree_path claim) ""))
      then orphan_loop rest (cleaned ++ [cc]) remaining
      else orphan_loop rest cleaned (remaining ++ [claim])
  end.

Definition cleanup_orphaned_claims (claims : list Claim) (dry_run : bool)
    : list string * list Claim :=
  orphan_loop claims [] [].

(** The test of [cleanup_orphaned_claims] on one claim. *)
Definition orphaned (claim : Claim) : bool :=
  negb (Py.truthy_str (claim_worktree_path claim))
  || negb (path_exists (Py.get_or (claim_worktree_path claim) "")).

End StalenessDetector.

(** ** ClaimStore: [add_claim], [release_claim] and the cleanup paths *)

Inductive PlanStatus : Type :=
| complete | in_progress | blocked | planned | needs_plan | unknown.

Definition is_complete (s : PlanStatus) : bool :=
  match s with
  | complete => true
  | _ => false
  end.

(** [l.remove(x)]: the first element equal to [x] is dropped. *)
Fixpoint remove_first (x : Claim) (l : list Claim) : list Claim :=
  match l with
  | [] => []
  | y :: rest => if claim_eq_dec x y then rest else y :: remove_first x rest
  end.

Definition nonempty {A : Type} (l : list A) : bool :=
  match l with
  | [] => false
  | _ :: _ => true
  end.

Section ClaimStore.

Variable now : Z.
Variable fromisoformat : string -> option IsoTime.
Variable sessions_dir : option (list (option Session)).
Variable fs : string -> option Worktree.
(** [get_plan_status]: the status of a plan file and its blockers. *)
Variable get_plan_status : Z -> PlanStatus * list Z.
(** [get_feature_names()]: the names of the feature registry. *)
Variable get_feature_names : list string.
(** The id that [get_session_id()] returns for the session of this
    process.  The call also rewrites the session file of the process; the
    functions of this section are its effect on the ledger and on the claim
    files, and [release_claim_in_session] adds the session file. *)
Variable get_session_id : string.
(** [find_worktree_for_branch]. *)
Variable find_worktree_for_branch : string -> option string.
(** Whether the claim file of a worktree can be written (no [OSError]). *)
Variable claim_file_writable : string -> bool.
(** [get_merged_branches()]. *)
Variable get_merged_branches : list string.
(** [validate_plan_for_completion]: passed, and the number of issues. *)
Variable validate_plan_for_completion : Z -> bool * nat.

Definition check_plan_dependencies (plan_number : Z)
    : bool * list (Z * PlanStatus) :=
  let (_, blockers) := get_plan_status plan_number in
  if negb (nonempty blockers) then (true, [])
  else
    let issues :=
      flat_map (fun blocker =>
                  let (blocker_status, _) := get_plan_status blocker in
                  if negb (is_complete blocker_status)
                  then [(blocker, blocker_status)] else [])
               blockers in
    (negb (nonempty issues), issues).

(** [save_claim_to_worktree], called with a session id. *)
Definition save_claim_to_worktree (worktree_path cc_id task : string)
    (plan : option Z) (feature : option string) (session_id : string)
    : Eff bool :=
  let claim_data :=
    mkClaim (Some cc_id)
            (if Py.truthy_int plan then plan else None)
            (if Py.truthy_str feature then feature else None)
            (Some task) (Some (Strftime now)) (Some session_id) None [] in
  fun d =>
    if claim_file_writable worktree_path then
      (true, mkDisk (ledger_file d)
                    ((worktree_path, claim_data)
                       :: filter (fun e => negb (String.eqb (fst e) worktree_path))
                                 (worktree_claim_files d)))
    else (false, d).

(** [add_claim]: the result, and the dict [data] as the call leaves it. *)
Definition add_claim (data : Data) (cc_id : string) (plan : option Z)
    (feature : option string) (task : string) (files : list string)
    (worktree_path : option string) (force : bool)
    (session_id : option string) : Eff (bool * Data) :=
  if String.eqb cc_id "main" then ret (false, data)
  else if existsb (fun claim => Py.eq_str (claim_cc_id claim) (Some cc_id))
                  (claims data)
  then ret (false, data)
  else if Py.truthy_int plan
          && negb (fst (check_plan_dependencies (Py.get_or plan 0)))
          && negb force
  then ret (false, data)
  else if Py.truthy_str feature
          && negb (existsb (String.eqb (Py.get_or feature "")) get_feature_names)
  then ret (false, data)
  else
    let conflicts :=
      ConflictResolver.check_scope_conflict plan feature (claims data) in
    if nonempty conflicts && negb force then ret (false, data)
    else
      let session_id := Py.get_or session_id get_session_id in
      let new_claim :=
        mkClaim (Some cc_id)
                (if Py.truthy_int plan then plan else None)
                (if Py.truthy_str feature then feature else None)
                (Some task) (Some (Strftime now)) (Some session_id)
                (if Py.truthy_str worktree_path then worktree_path else None)
                files in
      let wt_path :=
        if Py.truthy_str worktree_path then worktree_path
        else find_worktree_for_branch cc_id in
      new_claim <-
        (if Py.truthy_str wt_path then
           written <- save_claim_to_worktree (Py.get_or wt_path "") cc_id task
                        plan feature session_id ;;
           if (written : bool) then
             ret (mkClaim (claim_cc_id new_claim) (claim_plan new_claim)
                          (claim_feature new_claim) (claim_task new_claim)
                          (claim_claimed_at new_claim)
                          (claim_session_id new_claim) wt_path
                          (claim_files new_claim))
           else ret new_claim
         else ret new_claim) ;;
      let data' := mkData (claims data ++ [new_claim]) (completed data) in
      save_yaml data' ;;;
      ret (true, data').

(** [release_claim] of [check_claims.py]: the explicit release. *)
Definition release_claim (data : Data) (cc_id : string)
    (commit : option string) (validate force : bool)
    (session_id : option string) : Eff (bool * Data) :=
  match find (fun claim => Py.eq_str (claim_cc_id claim) (Some cc_id))
             (claims data) with
  | None => ret (false, data)
  | Some claim_to_remove =>
      let claim_session := claim_session_id claim_to_remove in
      let ownership_ok :=
        if Py.truthy_str claim_session && negb force then
          let session_id := Py.get_or session_id get_session_id in
          if negb (Py.eq_str claim_session (Some session_id)) then
            fst (is_session_stale_default now fromisoformat sessions_dir
                   (Py.get_or claim_session ""))
          else true
        else true in
      if negb ownership_ok then ret (false, data)
      else
        let plan := claim_plan claim_to_remove in
        if validate && Py.truthy_int plan
           && negb (fst (validate_plan_for_completion (Py.get_or plan 0)))
           && negb force
        then ret (false, data)
        else
          let completion :=
            mkCompletion cc_id (claim_plan claim_to_remove)
                         (claim_task claim_to_remove) (Strftime now)
                         (if Py.truthy_str commit then commit else None)
                         false None in
          let data' :=
            mkData (remove_first claim_to_remove (claims data))
                   (Py.last_n 20 (completed data ++ [completion])) in
          save_yaml data' ;;;
          ret (true, data')
  end.

(** The loop of [cleanup_merged_claims]: the entries appended to
    [data["completed"]], the worktrees to remove and the claims to keep. *)
Fixpoint merged_loop (claims : list Claim)
    : list Completion * list string * list Claim :=
  match claims with
  | [] => ([], [], [])
  | claim :: rest =>
      let '(done, worktrees_to_remove, claims_to_keep) := merged_loop rest in
      let cc_id := Py.get_or (claim_cc_id claim) "" in
      if existsb (String.eqb cc_id) get_merged_branches then
        let completion :=
          mkCompletion cc_id (claim_plan claim) (claim_task claim)
                       (Strftime now) None true (Some "branch_merged") in
        (completion :: done,
         (if Py.truthy_str (claim_worktree_path claim)
          then Py.get_or (claim_worktree_path claim) "" :: worktrees_to_remove
          else worktrees_to_remove),
         claims_to_keep)
      else (done, worktrees_to_remove, claim :: claims_to_keep)
  end.

(** [cleanup_merged_claims]: the count, the worktrees, and [data] after. *)
Definition cleanup_merged_claims (data : Data)
    : Eff (nat * list string * Data) :=
  if negb (nonempty get_merged_branches) then ret (O, [], data)
  else
    let '(done, worktrees_to_remove, claims_to_keep) :=
      merged_loop (claims data) in
    let cleaned_count := List.length done in
    if Nat.ltb 0 cleaned_count then
      let data' :=
        mkData claims_to_keep (Py.last_n 50 (completed data ++ done)) in
      save_yaml data' ;;;
      ret (cleaned_count, worktrees_to_remove, data')
    else ret (cleaned_count, worktrees_to_remove, data).

(** The [--cleanup-orphaned] branch of [main]: [data] after the call. *)
Definition main_cleanup_orphaned (data : Data) (dry_run : bool) : Eff Data :=
  let (cleaned_ids, remaining) :=
    cleanup_orphaned_claims fs (claims data) dry_run in
  if nonempty cleaned_ids && negb dry_run then
    let done :=
      map (fun cc_id =>
             mkCompletion cc_id None None (Isoformat now) None false
                          (Some "auto_released_orphaned"))
          cleaned_ids in
    let data' := mkData remaining (Py.last_n 50 (completed data ++ done)) in
    save_yaml data' ;;;
    ret data'
  else ret data.

(** The [--cleanup-stale] branch of [main]: [data] after the call.
    [stale_ids] holds strings, so [c.get("cc_id") not in stale_ids] keeps a
    claim without the key [cc_id].  (With a stale claim written as
    [cc_id: null] the code's list would hold [None] and the test would drop
    every claim without a cc_id; see [cc_id_or_unknown].) *)
Definition main_cleanup_stale (data : Data) (stale_hours : Z)
    (dry_run : bool) : Eff Data :=
  r <- cleanup_stale_claims now fs (claims data) stale_hours true ;;
  let (stale_ids, claims) := (r : list string * list Claim) in
  if nonempty stale_ids && negb dry_run then
    let remaining :=
      filter (fun c =>
                match claim_cc_id c with
                | Some cc => negb (existsb (String.eqb cc) stale_ids)
                | None => true
                end)
             claims in
    let done :=
      map (fun cc_id =>
             let claim :=
               find (fun c => Py.eq_str (claim_cc_id c) (Some cc_id)) claims in
             mkCompletion cc_id
                          (match claim with Some c => claim_plan c | None => None end)
                          (match claim with Some c => claim_task c | None => None end)
                          (Isoformat now) None false
                          (Some "auto_released_stale"))
          stale_ids in
    let data' := mkData remaining (Py.last_n 50 (completed data ++ done)) in
    save_yaml data' ;;;
    ret data'
  else ret data.

End ClaimStore.

(** ** OwnershipGuard: [scripts/safe_worktree_remove.py] *)

Module SafeWorktreeRemove.

Definition SESSION_STALENESS_HOURS : Z := 24.

(** One entry of [psutil.process_iter(['pid', 'name', 'cwd'])]. *)
Record Process : Type := mkProcess {
  proc_pid : Z;
  proc_name : option string;
  proc_cwd : option string;
}.

(** The identity dict of the caller. *)
Record Identity : Type := mkIdentity {
  id_branch : string;
  id_is_main : bool;
  id_cwd : string;
}.

(** The third component of the verdict: the claim, the marker time or the
    processes found. *)
Inductive Info : Type :=
| ClaimInfo (claim : Claim)
| MarkerInfo (marker_time : option Z)
| ProcessInfo (processes : list Process).

Definition Verdict : Type := (bool * string * option Info)%type.

Section Guard.

Variable now : Z.
Variable fromisoformat : string -> option IsoTime.
(** [Path(p).resolve()] and [os.path.abspath]. *)
Variable resolve : string -> string.
Variable abspath : string -> string.
(** [get_worktree_branch]: [None] when git fails. *)
Variable get_worktree_branch : string -> option string.
(** [is_branch_merged]: its answer, or [None] when the call raises.  It
    catches [CalledProcessError] only, so the [FileNotFoundError] of a
    missing [git] or [gh] executable leaves it. *)
Variable is_branch_merged : string -> option bool.
(** The output of [git status --porcelain] in the worktree, as [run_cmd]
    returns it (stripped); [None] when the command fails. *)
Variable git_status : string -> option string.
(** The session marker of a worktree: [None] when the file does not exist,
    [Some None] when it cannot be read, otherwise its stripped text. *)
Variable session_marker : string -> option (option string).
Variable HAS_PSUTIL : bool.
Variable process_iter : list Process.
Variable getpid : Z.

Definition has_uncommitted_changes (worktree_path : string) : bool :=
  match git_status worktree_path with
  | None => false
  | Some output => negb (String.eqb output "")
  end.

(** [check_worktree_claimed] on the ledger file: a missing or unparsable
    file is [None]. *)
Definition check_worktree_claimed (ledger : option Data)
    (worktree_path : string) : bool * option Claim :=
  match ledger with
  | None => (false, None)
  | Some data =>
      let normalized_path := resolve worktree_path in
      match find (fun claim =>
                    Py.truthy_str (claim_worktree_path claim)
                    && String.eqb normalized_path
                         (resolve (Py.get_or (claim_worktree_path claim) "")))
                 (claims data) with
      | Some claim => (true, Some claim)
      | None => (false, None)
      end
  end.

Definition check_processes_using_worktree (worktree_path : string)
    : list Process :=
  if negb HAS_PSUTIL then []
  else
    let worktree_abs := abspath worktree_path in
    filter (fun proc =>
              Py.truthy_str (proc_cwd proc)
              && Py.startswith (Py.get_or (proc_cwd proc) "") worktree_abs
              && negb (proc_pid proc =? getpid))
           process_iter.

Definition check_session_marker_recent (worktree_path : string)
    : bool * option Z :=
  match session_marker worktree_path with
  | None => (false, None)
  | Some None => (false, None)
  | Some (Some content) =>
      match fromisoformat content with
      | None => (false, None)
      | Some t =>
          let marker_time := as_utc t in
          let age := now - marker_time in
          if age <? SESSION_STALENESS_HOURS * Py.microseconds_per_hour
          then (true, Some marker_time)
          else (false, Some marker_time)
      end
  end.

(** The owner test of [should_block_removal]. *)
Definition is_mine (my_identity : Identity) (claim_info : Claim) : bool :=
  let claim_owner := Py.get_or (claim_cc_id claim_info) "" in
  negb (String.eqb claim_owner "")
  && (String.eqb claim_owner (id_branch my_identity)
      || String.eqb claim_owner (id_cwd my_identity)).

(** The checks after the claim check: session marker, then processes. *)
Definition marker_and_process_checks (worktree_path : string) (force : bool)
    (claim_info : option Claim) : Verdict :=
  let (is_recent, marker_time) := check_session_marker_recent worktree_path in
  if is_recent && negb force then
    (true, "session_marker", Some (MarkerInfo marker_time))
  else
    let processes_using := check_processes_using_worktree worktree_path in
    if nonempty processes_using && negb force then
      (true, "process", Some (ProcessInfo processes_using))
    else
      (false, "",
       match claim_info with
       | Some c => Some (ClaimInfo c)
       | None => None
       end).

(** [should_block_removal]: the verdict, or [None] when the merge check
    raises (nothing in the function catches it). *)
Definition should_block_removal (ledger : option Data)
    (worktree_path : string) (force : bool) (my_identity : Identity)
    : option Verdict :=
  let (is_claimed, claim_info) := check_worktree_claimed ledger worktree_path in
  match claim_info with
  | Some claim =>
      if is_claimed && negb force then
        if negb (is_mine my_identity claim) then
          let branch := get_worktree_branch worktree_path in
          if Py.truthy_str branch then
            match is_branch_merged (Py.get_or branch "") with
            | None => None
            | Some true =>
                if negb (has_uncommitted_changes worktree_path)
                then Some (false, "merged_safe", Some (ClaimInfo claim))
                else Some (true, "ownership", Some (ClaimInfo claim))
            | Some false => Some (true, "ownership", Some (ClaimInfo claim))
            end
          else Some (true, "ownership", Some (ClaimInfo claim))
        else Some (true, "claim", Some (ClaimInfo claim))
      else Some (marker_and_process_checks worktree_path force claim_info)
  | None => Some (marker_and_process_checks worktree_path force claim_info)
  end.

(** [release_claim] of [safe_worktree_remove.py]: the auto-release. *)
Definition release_claim (cc_id : string) : Eff unit :=
  fun d =>
    match ledger_file d with
    | None => (tt, d)
    | Some data =>
        let new_claims :=
          filter (fun c => negb (Py.eq_str (claim_cc_id c) (Some cc_id)))
                 (claims data) in
        if Nat.ltb (List.length new_claims) (List.length (claims data)) then
          let completed' :=
            completed data
            ++ [mkCompletion cc_id None None (Isoformat now) None false
                             (Some "auto_released_merged_pr")] in
          (tt, mkDisk (Some (mkData new_claims completed'))
                      (worktree_claim_files d))
        else (tt, d)
    end.

(** The part of [remove_worktree] that consults the guard and, on the
    verdict [merged_safe], releases the claim: the verdict ([None] when the
    guard raised, which ends [remove_worktree]), and the disk after the
    release. *)
Definition guard_and_auto_release (worktree_path : string) (force : bool)
    (my_identity : Identity) : Eff (option Verdict) :=
  fun d =>
    match should_block_removal (ledger_file d) worktree_path force
            my_identity with
    | None => (None, d)
    | Some verdict =>
        match verdict with
        | (false, reason, Some (ClaimInfo info)) =>
            if String.eqb reason "merged_safe" then
              let cc_id := Py.get_or (claim_cc_id info) "" in
              (release_claim cc_id ;;; ret (Some verdict)) d
            else (Some verdict, d)
        | _ => (Some verdict, d)
        end
    end.

End Guard.

End SafeWorktreeRemove.

(** ** More of [check_claims.py]: file coverage, history pruning, claim
    verification, worktree claim files *)

(** The message of [verify_has_claim]. *)
Inductive ClaimMessage : Type :=
| ActiveClaim (task : string)
| NoClaimOnMain
| NoActiveClaim (branch : string).

(** [verify_has_claim]. *)
Definition verify_has_claim (data : Data) (branch : string)
    : bool * ClaimMessage :=
  match find (fun claim => Py.eq_str (claim_cc_id claim) (Some branch))
             (claims data) with
  | Some claim => (true, ActiveClaim (Py.get_or (claim_task claim) ""))
  | None =>
      if String.eqb branch "main" then (false, NoClaimOnMain)
      else (false, NoActiveClaim branch)
  end.

(** The test of the loop of [cleanup_merged_claims] on one claim:
    [claim.get("cc_id", "") in merged_branches]. *)
Definition on_merged_branch (merged_branches : list string) (c : Claim)
    : bool :=
  existsb (String.eqb (Py.get_or (claim_cc_id c) "")) merged_branches.

(** The files the inner loop of [get_worktree_last_modified] counts:
    regular files, not hidden, whose [stat] succeeds. *)
Definition sampled (e : FileEntry) : bool :=
  fe_is_file e && negb (Py.startswith (fe_name e) ".")
  && match fe_mtime e with
     | Some _ => true
     | None => false
     end.

Section FileCoverage.

(** [build_file_to_feature_map().get]: the feature that owns a file. *)
Variable file_map : string -> option string.
(** [str(Path(filepath))]. *)
Variable normalize : string -> string.

(** The first loop of [check_files_claimed]: the features claimed.  (The
    set of claimed plans the loop also builds is never read.) *)
Fixpoint claimed_features (claims : list Claim) : list string :=
  match claims with
  | [] => []
  | claim :: rest =>
      if Py.truthy_str (claim_feature claim)
      then Py.get_or (claim_feature claim) "" :: claimed_features rest
      else claimed_features rest
  end.

(** The second loop, with the two lists it appends to. *)
Fixpoint coverage_loop (features : list string) (modified_files : list string)
    (claimed unclaimed : list string) : list string * list string :=
  match modified_files with
  | [] => (claimed, unclaimed)
  | filepath :: rest =>
      let feature := file_map (normalize filepath) in
      if Py.eq_str feature (Some "shared") then
        coverage_loop features rest (claimed ++ [filepath]) unclaimed
      else if Py.truthy_str feature
              && existsb (String.eqb (Py.get_or feature "")) features then
        coverage_loop features rest (claimed ++ [filepath]) unclaimed
      else coverage_loop features rest claimed (unclaimed ++ [filepath])
  end.

Definition check_files_claimed (modified_files : list string)
    (claims : list Claim) : list string * list string :=
  coverage_loop (claimed_features claims) modified_files [] [].

End FileCoverage.

(** The formats [parse_timestamp] tries, in order. *)
Definition timestamp_formats : list string :=
  ["%Y-%m-%dT%H:%M:%SZ"; "%Y-%m-%dT%H:%M:%S"; "%Y-%m-%dT%H:%M";
   "%Y-%m-%d %H:%M"; "%Y-%m-%d"].

Section History.

Variable now : Z.
(** [datetime.strptime(text, fmt)], read as UTC; [None] on [ValueError]. *)
Variable strptime : string -> string -> option Z.
(** [str.strip]. *)
Variable strip : string -> string.
(** The text of a timestamp the code wrote. *)
Variable text_of : TimeText -> string.

(** The loop over the formats: the first that parses wins. *)
Fixpoint try_formats (ts : string) (formats : list string) : option Z :=
  match formats with
  | [] => None
  | fmt :: rest =>
      match strptime (strip ts) fmt with
      | Some dt => Some dt
      | None => try_formats ts rest
      end
  end.

Definition parse_timestamp (ts : string) : option Z :=
  if String.eqb ts "" then None else try_formats ts timestamp_formats.

(** The test of the comprehension of [cleanup_old_completed]. *)
Definition keep_completion (hours : Z) (c : Completion) : bool :=
  match parse_timestamp (text_of (completed_at c)) with
  | None => true
  | Some ts => now - ts <=? hours * Py.microseconds_per_hour
  end.

(** [cleanup_old_completed]: the number removed, and [data] after. *)
Definition cleanup_old_completed (data : Data) (hours : Z)
    : Eff (nat * Data) :=
  let original_count := List.length (completed data) in
  let data' :=
    mkData (claims data) (filter (keep_completion hours) (completed data)) in
  let removed := (original_count - List.length (completed data'))%nat in
  if Nat.ltb 0 removed then
    save_yaml data' ;;;
    ret (removed, data')
  else ret (removed, data').

End History.

(** A claim dict with no key at all. *)
Definition claim_is_empty (c : Claim) : bool :=
  match c with
  | mkClaim None None None None None None None [] => true
  | _ => false
  end.

(** [load_claim_from_worktree], on the claim files of the disk. *)
Definition load_claim_from_worktree (d : Disk) (worktree_path : string)
    : option Claim :=
  match find (fun e => String.eqb (fst e) worktree_path)
             (worktree_claim_files d) with
  | None => None
  | Some (_, claim) =>
      if claim_is_empty claim then None
      else
        Some (mkClaim (claim_cc_id claim) (claim_plan claim)
                      (claim_feature claim) (claim_task claim)
                      (claim_claimed_at claim) (claim_session_id claim)
                      (Some worktree_path) (claim_files claim))
  end.

(** One entry of [get_worktrees()]. *)
Record WorktreeEntry : Type := mkWorktreeEntry {
  we_path : option string;
  we_branch : option string;
}.

(** [load_claims_from_worktrees]: the claim of every worktree that is not
    on [main], its [cc_id] set to the branch. *)
Fixpoint load_claims_from_worktrees (d : Disk)
    (worktrees : list WorktreeEntry) : list Claim :=
  match worktrees with
  | [] => []
  | wt :: rest =>
      let path := Py.get_or (we_path wt) "" in
      let branch := Py.get_or (we_branch wt) "" in
      if String.eqb branch "main" then load_claims_from_worktrees d rest
      else
        match load_claim_from_worktree d path with
        | Some claim =>
            mkClaim (Some branch) (claim_plan claim) (claim_feature claim)
                    (claim_task claim) (claim_claimed_at claim)
                    (claim_session_id claim) (claim_worktree_path claim)
                    (claim_files claim)
              :: load_claims_from_worktrees d rest
        | None => load_claims_from_worktrees d rest
        end
  end.

(** ** The session file of the running process *)

Section SessionHeartbeat.

Variable now : Z.
(** [datetime.isoformat] of an instant in UTC. *)
Variable isoformat : Z -> string.
Variable gethostname : string.
Variable getpid : Z.

(** A session dict with no key at all. *)
Definition session_is_empty (s : Session) : bool :=
  match s with
  | mkSession None None None None None None => true
  | _ => false
  end.

Definition with_last_activity (s : Session) (t : string) : Session :=
  mkSession (s_session_id s) (s_hostname s) (s_pid s) (s_started_at s)
            (Some t) (s_working_on s).

Definition with_working_on (s : Session) (w : string) : Session :=
  mkSession (s_session_id s) (s_hostname s) (s_pid s) (s_started_at s)
            (s_last_activity s) (Some w).

(** [get_or_create_session]: the session returned and the session file
    after the call.  [session_file] is what [load_session] reads ([None]:
    no file, or one that cannot be read or parsed); [uuid4] is the fresh id
    a new session would take. *)
Definition get_or_create_session (uuid4 : string)
    (session_file : option Session) : Session * option Session :=
  let create :=
    let session :=
      mkSession (Some uuid4) (Some gethostname) (Some getpid)
                (Some (isoformat now)) (Some (isoformat now)) None in
    (session, Some session) in
  match session_file with
  | Some session =>
      if negb (session_is_empty session) && Py.truthy_str (s_session_id session)
      then
        let session := with_last_activity session (isoformat now) in
        (session, Some session)
      else create
  | None => create
  end.

(** [update_session_heartbeat]. *)
Definition update_session_heartbeat (working_on : option string)
    (uuid4 : string) (session_file : option Session)
    : Session * option Session :=
  match session_file with
  | Some session =>
      if session_is_empty session
      then get_or_create_session uuid4 session_file
      else
        let session := with_last_activity session (isoformat now) in
        let session :=
          match working_on with
          | Some w => with_working_on session w
          | None => session
          end in
        (session, Some session)
  | None => get_or_create_session uuid4 session_file
  end.

End SessionHeartbeat.

(** ** [release_claim] and the caller's session file

    [release_claim] asks [get_session_id()] for the caller's session when
    it has found a claim that carries a session id, [force] is off and no
    [session_id] was passed (lines 1427-1430).  That call goes through
    [get_or_create_session], which rewrites the session file of the running
    process, or creates it.  [release_claim_in_session] runs [release_claim]
    with the id that this call returns, and carries the session file along
    with the disk.

    The directory that [is_session_stale] reads afterwards holds the
    rewritten file; its id is the caller's, and the directory is read only
    for a claim whose session id differs from the caller's, so the record
    found there is the same before and after the write. *)

Section ReleaseInSession.

Variable now : Z.
Variable fromisoformat : string -> option IsoTime.
Variable sessions_dir : option (list (option Session)).
Variable validate_plan_for_completion : Z -> bool * nat.
Variable isoformat : Z -> string.
Variable gethostname : string.
Variable getpid : Z.
Variable uuid4 : string.

(** [get_session_id()]: the id of the caller's session and the session file
    after the call. *)
Definition get_session_id (session_file : option Session)
    : string * option Session :=
  let (session, session_file') :=
    get_or_create_session now isoformat gethostname getpid uuid4
      session_file in
  (Py.get_or (s_session_id session) "", session_file').

(** Whether [release_claim] reaches the call of [get_session_id()]. *)
Definition asks_session_id (data : Data) (cc_id : string) (force : bool)
    (session_id : option string) : bool :=
  match find (fun claim => Py.eq_str (claim_cc_id claim) (Some cc_id))
             (claims data) with
  | None => false
  | Some claim_to_remove =>
      Py.truthy_str (claim_session_id claim_to_remove) && negb force
      && match session_id with
         | None => true
         | Some _ => false
         end
  end.

(** [release_claim] with its write to the session file: the result of
    [release_claim], the session file after the call, and the disk. *)
Definition release_claim_in_session (data : Data) (cc_id : string)
    (commit : option string) (validate force : bool)
    (session_id : option string) (session_file : option Session)
    : Eff ((bool * Data) * option Session) :=
  let (my_session_id, session_file') := get_session_id session_file in
  result <-
    release_claim now fromisoformat sessions_dir my_session_id
      validate_plan_for_completion data cc_id commit validate force
      session_id ;;
  ret (result,
       if asks_session_id data cc_id force session_id
       then session_file' else session_file).

End ReleaseInSession.

(** ** [remove_worktree] of [safe_worktree_remove.py] *)

Module RemoveWorktree.

Section Remove.

Variable now : Z.
Variable fromisoformat : string -> option IsoTime.
Variable resolve : string -> string.
Variable abspath : string -> string.
Variable get_worktree_branch : string -> option string.
Variable is_branch_merged : string -> option bool.
Variable git_status : string -> option string.
Variable session_marker : string -> option (option string).
Variable HAS_PSUTIL : bool.
Variable process_iter : list SafeWorktreeRemove.Process.
Variable getpid : Z.
(** [Path(p).exists()]. *)
Variable path_exists : string -> bool.
(** [os.getcwd()]; [None] when it raises [OSError]. *)
Variable getcwd : option string.
(** [get_current_cc_identity()]. *)
Variable my_identity : SafeWorktreeRemove.Identity.
(** Whether [git worktree remove] succeeds, without and with [--force]. *)
Variable git_worktree_remove : string -> bool.
Variable git_worktree_remove_force : string -> bool.

(** The truth of the verdict's third component: a dict with a key. *)
Definition info_given (info : option SafeWorktreeRemove.Info) : bool :=
  match info with
  | Some (SafeWorktreeRemove.ClaimInfo claim) => negb (claim_is_empty claim)
  | Some (SafeWorktreeRemove.MarkerInfo _) => true
  | Some (SafeWorktreeRemove.ProcessInfo _) => true
  | None => false
  end.

(** The end of [remove_worktree]: the call of git. *)
Definition run_git_remove (worktree_path : string) (force : bool) : bool :=
  if git_worktree_remove worktree_path then true
  else if force then git_worktree_remove_force worktree_path
  else false.

(** [remove_worktree]: whether the worktree was removed ([None] when the
    guard raised), and the disk after the call. *)
Definition remove_worktree (worktree_path : string) (force : bool)
    : Eff (option bool) :=
  if negb (path_exists worktree_path) then ret (Some false)
  else if match getcwd with
          | Some current_dir =>
              Py.startswith current_dir (abspath worktree_path)
          | None => false
          end
  then ret (Some false)
  else
    outcome <-
      SafeWorktreeRemove.guard_and_auto_release now fromisoformat resolve
        abspath get_worktree_branch is_branch_merged git_status
        session_marker HAS_PSUTIL process_iter getpid worktree_path force
        my_identity ;;
    match (outcome : option SafeWorktreeRemove.Verdict) with
    | None => ret None
    | Some (block, reason, info) =>
        if (block : bool) && String.eqb reason "ownership" && info_given info
        then ret (Some false)
        else if block && String.eqb reason "claim" && info_given info
        then ret (Some false)
        else if block && String.eqb reason "session_marker" && info_given info
        then ret (Some false)
        else if block && String.eqb reason "process" && info_given info
        then ret (Some false)
        else if SafeWorktreeRemove.has_uncommitted_changes git_status
                  worktree_path
                && negb force
        then ret (Some false)
        else ret (Some (run_git_remove worktree_path force))
    end.

End Remove.

End RemoveWorktree.

(** ** Concrete inputs

    Small worlds on which the functions are run in the examples below. *)

Module Ex.

Definition claim (cc : string) (p : option Z) (f : option string)
    (wt : option string) : Claim :=
  mkClaim (Some cc) p f (Some "task") None (Some "session-1") wt [].

(** A claim on plan [0], as a hand-written ledger may hold. *)
Definition plan0 : Claim := claim "agent-A" (Some 0) None None.

Definition plan5 : Claim := claim "agent-A" (Some 5) None None.
Definition ledger_feature : Claim := claim "agent-B" None (Some "ledger") None.

(** 2024-01-01T00:00:00Z, in microseconds. *)
Definition t0 : Z := 1704067200000000.
Definition minutes (n : Z) : Z := n * Py.microseconds_per_minute.
Definition hours (n : Z) : Z := n * Py.microseconds_per_hour.

(** A reader of the three texts used below; every other text is
    malformed. *)
Definition fromisoformat (text : string) : option IsoTime :=
  if String.eqb text "2024-01-01T00:00:00+00:00" then
    Some (mkIsoTime t0 (Some 0))
  else if String.eqb text "2024-01-01T00:20:00" then
    Some (mkIsoTime (t0 + minutes 20) None)
  else if String.eqb text "2024-01-01T02:00:00+02:00" then
    Some (mkIsoTime (t0 + hours 2) (Some (hours 2)))
  else None.

Definition session (id : string) (last : option string) : Session :=
  mkSession (Some id) (Some "host") (Some 4242)
            (Some "2024-01-01T00:00:00+00:00") last None.

Definition old_session : Session :=
  session "s-old" (Some "2024-01-01T00:00:00+00:00").
Definition fresh_session : Session :=
  session "s-fresh" (Some "2024-01-01T00:20:00").
Definition garbled_session : Session := session "s-garbled" (Some "yesterday").
Definition silent_session : Session := session "s-silent" None.

(** The session directory: one unreadable file and four records. *)
Definition sessions_dir : option (list (option Session)) :=
  Some [None; Some old_session; Some fresh_session; Some garbled_session;
        Some silent_session].

(** The clock of the session examples: 00:45 on the same day. *)
Definition now45 : Z := t0 + minutes 45.

(** Two worktrees, seen at [noon]: the latest file of the first is nine
    hours old, of the second seven hours old. *)
Definition noon : Z := t0 + hours 12.

Definition nine : Worktree :=
  mkWorktree true (IndexFound (Some (noon - hours 10)))
    (fun d =>
       if String.eqb d "src" then
         Some [mkFileEntry "pkg" false (Some (noon - hours 1));
               mkFileEntry ".cache" true (Some (noon - hours 2));
               mkFileEntry "main.py" true (Some (noon - hours 9))]
       else None)
    (Some (noon - hours 3)).

Definition seven : Worktree :=
  mkWorktree true IndexMissing
    (fun d =>
       if String.eqb d "docs" then
         Some [mkFileEntry "notes.md" true (Some (noon - hours 7));
               mkFileEntry "old.md" true (Some (noon - hours 30))]
       else None)
    (Some (noon - hours 20)).

Definition fs (p : string) : option Worktree :=
  if String.eqb p "/repo/worktrees/nine" then Some nine
  else if String.eqb p "/repo/worktrees/seven" then Some seven
  else None.

Definition claim_nine : Claim :=
  claim "plan-9" (Some 9) None (Some "/repo/worktrees/nine").
Definition claim_seven : Claim :=
  claim "plan-7" (Some 7) None (Some "/repo/worktrees/seven").
Definition claim_gone : Claim :=
  claim "plan-3" (Some 3) None (Some "/repo/worktrees/gone").

(** The world of the guard examples: two claimed worktrees of other
    instances, seen from the main checkout at [now45].  The branch of the
    first is merged and its tree is clean; the second is unmerged, has a
    session marker 25 minutes old and a shell inside it. *)
Definition merged_wt : string := "/repo/worktrees/merged".
Definition live_wt : string := "/repo/worktrees/live".

Definition claim_merged : Claim :=
  claim "plan-5-done" (Some 5) None (Some merged_wt).
Definition claim_live : Claim := claim "plan-6" (Some 6) None (Some live_wt).

Definition me : SafeWorktreeRemove.Identity :=
  SafeWorktreeRemove.mkIdentity "main" true "repo".

Definition resolve (p : string) : string := p.
Definition abspath (p : string) : string := p.

Definition get_worktree_branch (p : string) : option string :=
  if String.eqb p merged_wt then Some "plan-5-done"
  else if String.eqb p live_wt then Some "plan-6"
  else None.

Definition is_branch_merged (b : string) : option bool :=
  Some (String.eqb b "plan-5-done").

Definition git_status (p : string) : option string := Some "".

(** The same world with an edited file in every worktree, and the world in
    which the merge check cannot run ([gh] is not installed). *)
Definition dirty_status (p : string) : option string := Some " M src/a.py".
Definition merge_check_fails (b : string) : option bool := None.

Definition session_marker (p : string) : option (option string) :=
  if String.eqb p live_wt then Some (Some "2024-01-01T00:20:00") else None.

Definition shell : SafeWorktreeRemove.Process :=
  SafeWorktreeRemove.mkProcess 100 (Some "bash")
    (Some "/repo/worktrees/live/src").

Definition process_iter : list SafeWorktreeRemove.Process :=
  [SafeWorktreeRemove.mkProcess 1 (Some "python") (Some "/repo"); shell].

Definition getpid : Z := 1.

Definition done (cc : string) : Completion :=
  mkCompletion cc None (Some "task") (Strftime t0) None false None.

Definition guard_data : Data := mkData [claim_live; claim_merged] [done "old"].
Definition guard_disk : Disk := mkDisk (Some guard_data) [].

(** The same ledger with a history of fifty entries. *)
Definition full_data : Data :=
  mkData [claim_live; claim_merged] (repeat (done "old") 50).
Definition full_disk : Disk := mkDisk (Some full_data) [].

(** The world of the claim-store examples. *)
Definition get_plan_status (n : Z) : PlanStatus * list Z := (planned, []).
Definition get_feature_names : list string := ["ledger"; "shared"].
Definition get_session_id : string := "session-2".
Definition find_worktree_for_branch (b : string) : option string := None.
Definition claim_file_writable (p : string) : bool := true.
Definition get_merged_branches : list string := ["plan-5-done"].
Definition validate_plan_for_completion (n : Z) : bool * nat := (true, O).

Definition store_data : Data := mkData [plan5] [done "old"].
Definition store_disk : Disk := mkDisk (Some store_data) [].

(** A source directory of a hundred old files. *)
Definition hundred_files : list FileEntry :=
  repeat (mkFileEntry "old.py" true (Some (noon - hours 30))) 100.
Definition fresh_file : FileEntry :=
  mkFileEntry "new.py" true (Some (noon - hours 1)).

(** A worktree whose files are old but whose index was written an hour
    ago. *)
Definition staged : Worktree :=
  mkWorktree true (IndexFound (Some (noon - hours 1)))
    (fun d => if String.eqb d "src" then Some hundred_files else None)
    (Some (noon - hours 40)).
Definition staged_fs (p : string) : option Worktree :=
  if String.eqb p "/repo/worktrees/staged" then Some staged else None.
Definition claim_staged : Claim :=
  claim "plan-8" (Some 8) None (Some "/repo/worktrees/staged").

(** A claim without a cc_id whose worktree is gone. *)
Definition claim_anonymous : Claim :=
  mkClaim None (Some 4) None (Some "task") None None
          (Some "/repo/worktrees/gone") [].

(** A process in a sibling directory whose name extends the worktree's. *)
Definition neighbour : SafeWorktreeRemove.Process :=
  SafeWorktreeRemove.mkProcess 200 (Some "vim")
    (Some "/repo/worktrees/live2/docs").

(** The caller standing on the branch of the live worktree. *)
Definition owner_of_live : SafeWorktreeRemove.Identity :=
  SafeWorktreeRemove.mkIdentity "plan-6" false "live".

Definition path_exists (p : string) : bool :=
  String.eqb p merged_wt || String.eqb p live_wt.
Definition git_worktree_remove (p : string) : bool := true.
Definition git_worktree_remove_force (p : string) : bool := true.

(** The feature registry of the file-coverage examples. *)
Definition file_map (p : string) : option string :=
  if String.eqb p "src/world/ledger.py" then Some "ledger"
  else if String.eqb p "config/schema.yaml" then Some "shared"
  else if String.eqb p "src/world/escrow.py" then Some "escrow"
  else None.
Definition normalize (p : string) : string := p.

(** The session file of the running process, last seen at [t0]. *)
Definition my_session : Session :=
  session "s-me" (Some "2024-01-01T00:00:00+00:00").
Definition isoformat (t : Z) : string :=
  if t =? t0 + minutes 20 then "2024-01-01T00:20:00" else "".

(** A claim held by the session that was active at 00:20. *)
Definition claim_guarded : Claim :=
  mkClaim (Some "agent-G") (Some 9) None (Some "task") None (Some "s-fresh")
          None [].
Definition guarded_data : Data := mkData [claim_guarded] [done "old"].
Definition guarded_disk : Disk := mkDisk (Some guarded_data) [].

(** Timestamps of the history examples: a text is its own reading. *)
Definition text_of (t : TimeText) : string :=
  match t with
  | Strftime _ => "2024-01-01T00:00:00Z"
  | Isoformat _ => "2024-01-01T00:00:00.000000+00:00"
  end.
Definition strptime (text fmt : string) : option Z :=
  if String.eqb text "2024-01-01T00:00:00Z"
     && String.eqb fmt "%Y-%m-%dT%H:%M:%SZ"
  then Some t0 else None.
Definition strip (text : string) : string := text.

End Ex.

(** * Properties *)

(** ** Python idioms *)

Lemma eq_str_true x y : Py.eq_str x y = true <-> x = y.
Proof.
  destruct x as [a|], y as [b|]; simpl; split; intros H;
    try discriminate; try reflexivity.
  - apply String.eqb_eq in H; now subst.
  - injection H as ->; apply String.eqb_refl.
Qed.

Lemma eq_str_false x y : Py.eq_str x y = false <-> x <> y.
Proof.
  rewrite <- eq_str_true; destruct (Py.eq_str x y); split; congruence.
Qed.

Lemma eq_int_true x y : Py.eq_int x y = true <-> x = y.
Proof.
  destruct x as [a|], y as [b|]; simpl; split; intros H;
    try discriminate; try reflexivity.
  - apply Z.eqb_eq in H; now subst.
  - injection H as ->; apply Z.eqb_refl.
Qed.

Lemma truthy_int_spec x :
  Py.truthy_int x = true <-> exists n, x = Some n /\ n <> 0.
Proof.
  destruct x as [n|]; simpl.
  - rewrite negb_true_iff, Z.eqb_neq; split.
    + intros H; now exists n.
    + intros (m & [= ->] & H); exact H.
  - split; [discriminate | intros (m & H & _); discriminate].
Qed.

Lemma truthy_str_spec x :
  Py.truthy_str x = true <-> exists s, x = Some s /\ s <> "".
Proof.
  destruct x as [s|]; simpl.
  - rewrite negb_true_iff, String.eqb_neq; split.
    + intros H; now exists s.
    + intros (m & [= ->] & H); exact H.
  - split; [discriminate | intros (m & H & _); discriminate].
Qed.

Lemma last_n_length {A : Type} (n : nat) (l : list A) :
  (List.length (Py.last_n n l) <= n)%nat.
Proof.
  unfold Py.last_n; rewrite length_skipn; lia.
Qed.

Lemma last_n_suffix {A : Type} (n : nat) (l : list A) :
  exists dropped, l = dropped ++ Py.last_n n l.
Proof.
  exists (firstn (List.length l - n) l); unfold Py.last_n.
  now rewrite firstn_skipn.
Qed.

Lemma last_n_short {A : Type} (n : nat) (l : list A) :
  (List.length l <= n)%nat -> Py.last_n n l = l.
Proof.
  intros H; unfold Py.last_n.
  replace (List.length l - n)%nat with O by lia; reflexivity.
Qed.

(** ** ConflictResolver *)

Section ConflictResolverFacts.

Import ConflictResolver.

Lemma scope_loop_filter new_plan new_feature existing acc :
  scope_loop new_plan new_feature existing acc
  = acc ++ filter (collides new_plan new_feature) existing.
Proof.
  revert acc; induction existing as [|c rest IH]; intros acc; simpl.
  - now rewrite app_nil_r.
  - unfold collides at 1.
    destruct (plan_match new_plan c); simpl.
    + rewrite IH, <- app_assoc; reflexivity.
    + destruct (feature_match new_feature c); simpl; [|apply IH].
      destruct (Py.eq_str (claim_feature c) (Some shared)); simpl; [apply IH|].
      rewrite IH, <- app_assoc; reflexivity.
Qed.

Lemma check_scope_conflict_filter new_plan new_feature existing :
  new_feature <> Some shared ->
  check_scope_conflict new_plan new_feature existing
  = filter (collides new_plan new_feature) existing.
Proof.
  intros H; apply eq_str_false in H.
  unfold check_scope_conflict; rewrite H.
  now rewrite scope_loop_filter.
Qed.

Lemma plan_match_spec new_plan c :
  plan_match new_plan c = true
  <-> exists p, new_plan = Some p /\ p <> 0 /\ claim_plan c = Some p.
Proof.
  unfold plan_match; rewrite !andb_true_iff, !truthy_int_spec, eq_int_true.
  split.
  - intros [[(p & Hp & Hnz) _] Heq]; exists p; repeat split; congruence.
  - intros (p & Hp & Hnz & Hc); repeat split;
      try (exists p; split; congruence); congruence.
Qed.

Lemma feature_match_spec new_feature c :
  feature_match new_feature c = true
  <-> exists f, new_feature = Some f /\ f <> "" /\ claim_feature c = Some f.
Proof.
  unfold feature_match; rewrite !andb_true_iff, !truthy_str_spec, eq_str_true.
  split.
  - intros [[(f & Hf & Hnz) _] Heq]; exists f; repeat split; congruence.
  - intros (f & Hf & Hnz & Hc); repeat split;
      try (exists f; split; congruence); congruence.
Qed.

Lemma collides_spec new_plan new_feature c :
  collides new_plan new_feature c = true
  <-> (exists p, new_plan = Some p /\ p <> 0 /\ claim_plan c = Some p)
      \/ (exists f, new_feature = Some f /\ f <> ""
                    /\ claim_feature c = Some f /\ f <> shared).
Proof.
  unfold collides.
  rewrite orb_true_iff, andb_true_iff, negb_true_iff, eq_str_false,
    plan_match_spec, feature_match_spec.
  split; (intros [H | H]; [left; exact H | right]).
  - destruct H as ((f & Hf & Hnz & Hc) & Hs); exists f; repeat split; congruence.
  - destruct H as (f & Hf & Hnz & Hc & Hs); split;
      [exists f; repeat split; congruence | congruence].
Qed.

End ConflictResolverFacts.

(** C1. Whatever the existing claims and the new plan, a request for the
    feature "shared" has no conflicts. *)
Theorem shared_feature_never_conflicts :
  forall (existing_claims : list Claim) (new_plan : option Z),
    ConflictResolver.check_scope_conflict new_plan (Some "shared") existing_claims
    = [].
Proof.
  intros existing_claims new_plan; reflexivity.
Qed.

(** The scenarios of the specification, run: a second request for plan 5
    conflicts with the claim of "agent-A"; one request can collide with two
    claims, one on the plan and one on the feature; a request for "shared"
    collides with nothing, whatever its plan. *)
Example check_scope_conflict_scenarios :
  ConflictResolver.check_scope_conflict (Some 5) None
    [Ex.plan5; Ex.ledger_feature] = [Ex.plan5]
  /\ ConflictResolver.check_scope_conflict (Some 5) (Some "ledger")
       [Ex.plan5; Ex.ledger_feature] = [Ex.plan5; Ex.ledger_feature]
  /\ ConflictResolver.check_scope_conflict (Some 5) (Some "shared")
       [Ex.plan5; Ex.ledger_feature] = []
  /\ ConflictResolver.check_scope_conflict None None
       [Ex.plan5; Ex.ledger_feature] = [].
Proof.
  repeat split.
Qed.

(** C2, as stated, fails: plan [0] is present in the request and equal to
    the plan of the existing claim, yet the claim is not reported, because
    the code tests the plan for truth and [0] is falsy. *)
Lemma plan_zero_counterexample :
  ~ (In Ex.plan0
        (ConflictResolver.check_scope_conflict (Some 0) None [Ex.plan0])
     <-> ConflictResolver.conflict_as_specified (Some 0) None Ex.plan0).
Proof.
  intros [_ H]; apply H.
  left; exists 0; split; reflexivity.
Qed.

(** C2, amended. For a new feature other than "shared", an existing claim
    is in the result exactly when the new plan is present, nonzero and equal
    to the claim's plan, or the new feature is present, non-empty, equal to
    the claim's feature and not "shared". *)
Theorem conflict_iff_truthy_scope_match :
  forall (existing_claims : list Claim) (new_plan : option Z)
         (new_feature : option string) (claim : Claim),
    new_feature <> Some "shared" ->
    In claim existing_claims ->
    (In claim
        (ConflictResolver.check_scope_conflict new_plan new_feature
           existing_claims)
     <-> (exists p, new_plan = Some p /\ p <> 0 /\ claim_plan claim = Some p)
         \/ (exists f, new_feature = Some f /\ f <> ""
                       /\ claim_feature claim = Some f /\ f <> "shared")).
Proof.
  intros existing_claims new_plan new_feature claim Hshared Hin.
  rewrite check_scope_conflict_filter by exact Hshared.
  rewrite filter_In, collides_spec.
  unfold ConflictResolver.shared; tauto.
Qed.

Lemma conflict_iff_truthy_scope_match_witness :
  Some "ledger" <> Some "shared"
  /\ In Ex.plan5 [Ex.plan5; Ex.ledger_feature]
  /\ (In Ex.plan5
         (ConflictResolver.check_scope_conflict (Some 5) (Some "ledger")
            [Ex.plan5; Ex.ledger_feature])
      <-> (exists p, Some 5 = Some p /\ p <> 0 /\ claim_plan Ex.plan5 = Some p)
          \/ (exists f, Some "ledger" = Some f /\ f <> ""
                        /\ claim_feature Ex.plan5 = Some f /\ f <> "shared")).
Proof.
  assert (H1 : Some "ledger" <> Some "shared") by discriminate.
  assert (H2 : In Ex.plan5 [Ex.plan5; Ex.ledger_feature])
    by (simpl; left; reflexivity).
  split; [exact H1 | split; [exact H2 |]].
  exact (conflict_iff_truthy_scope_match [Ex.plan5; Ex.ledger_feature]
           (Some 5) (Some "ledger") Ex.plan5 H1 H2).
Defined.

(** ** Orphan and stale cleanup *)

Section CleanupFacts.

Variable now : Z.
Variable fs : string -> option Worktree.

Lemma orphan_loop_filter claims cleaned remaining :
  orphan_loop fs claims cleaned remaining
  = (cleaned ++ map cc_id_or_unknown (filter (orphaned fs) claims),
     remaining ++ filter (fun c => negb (orphaned fs c)) claims).
Proof.
  revert cleaned remaining.
  induction claims as [|c rest IH]; intros cleaned remaining; simpl.
  - now rewrite !app_nil_r.
  - fold (orphaned fs c); destruct (orphaned fs c); simpl; rewrite IH.
    + now rewrite <- app_assoc.
    + now rewrite <- app_assoc.
Qed.

Lemma cleanup_orphaned_claims_filter claims dry_run :
  cleanup_orphaned_claims fs claims dry_run
  = (map cc_id_or_unknown (filter (orphaned fs) claims),
     filter (fun c => negb (orphaned fs c)) claims).
Proof.
  unfold cleanup_orphaned_claims; now rewrite orphan_loop_filter.
Qed.

Lemma filter_none {A : Type} (f : A -> bool) (l : list A) :
  filter f (filter (fun x => negb (f x)) l) = [].
Proof.
  induction l as [|x l IH]; simpl; [reflexivity|].
  destruct (f x) eqn:E; simpl; [exact IH | now rewrite E].
Qed.

Lemma filter_twice {A : Type} (f : A -> bool) (l : list A) :
  filter f (filter f l) = filter f l.
Proof.
  induction l as [|x l IH]; simpl; [reflexivity|].
  destruct (f x) eqn:E; simpl; [now rewrite E, IH | exact IH].
Qed.

Lemma stale_loop_filter claims max_hours dry_run released d :
  stale_loop now fs claims max_hours dry_run released d
  = (released
       ++ map cc_id_or_unknown
            (filter (fun c => fst (is_claim_stale now fs c max_hours)) claims),
     d).
Proof.
  revert released.
  induction claims as [|c rest IH]; intros released; simpl.
  - unfold ret; now rewrite app_nil_r.
  - destruct (is_claim_stale now fs c max_hours) as [[|] why]; simpl.
    + unfold bind; destruct dry_run; simpl; unfold ret;
        rewrite IH, <- app_assoc; reflexivity.
    + apply IH.
Qed.

Lemma cleanup_stale_claims_run claims max_hours dry_run d :
  cleanup_stale_claims now fs claims max_hours dry_run d
  = ((map cc_id_or_unknown
        (filter (fun c => fst (is_claim_stale now fs c max_hours)) claims),
      claims), d).
Proof.
  unfold cleanup_stale_claims, bind.
  rewrite stale_loop_filter; reflexivity.
Qed.

End CleanupFacts.

(** The three claims of the examples at noon: the worktree of "plan-3" is
    gone, so it is orphaned and stale; "plan-9" is stale only; "plan-7" is
    neither. *)
Example cleanup_runs :
  cleanup_orphaned_claims Ex.fs [Ex.claim_nine; Ex.claim_gone; Ex.claim_seven]
    false
  = (["plan-3"], [Ex.claim_nine; Ex.claim_seven])
  /\ fst (cleanup_stale_claims Ex.noon Ex.fs
            [Ex.claim_nine; Ex.claim_gone; Ex.claim_seven] 8 false
            Ex.store_disk)
     = (["plan-9"; "plan-3"], [Ex.claim_nine; Ex.claim_gone; Ex.claim_seven]).
Proof.
  split; reflexivity.
Qed.

(** C9. Orphan cleanup is idempotent: run on the claims a first run left,
    against the same file system, it cleans nothing and leaves the same
    claims. *)
Theorem cleanup_orphaned_claims_idempotent :
  forall (fs : string -> option Worktree) (claims : list Claim)
         (dry_run dry_run' : bool),
    cleanup_orphaned_claims fs
      (snd (cleanup_orphaned_claims fs claims dry_run)) dry_run'
    = ([], snd (cleanup_orphaned_claims fs claims dry_run)).
Proof.
  intros fs claims dry_run dry_run'.
  rewrite !cleanup_orphaned_claims_filter; simpl.
  rewrite filter_none, filter_twice; reflexivity.
Qed.

(** C10. [cleanup_stale_claims] returns the cc_ids (or "unknown") of exactly
    the input claims that [is_claim_stale] reports at the threshold, in
    order; the answer is the same with and without [dry_run]; the claims
    list and the disk are left as they were. *)
Theorem cleanup_stale_claims_reports_only :
  forall (now : Z) (fs : string -> option Worktree) (claims : list Claim)
         (max_hours : Z) (dry_run : bool) (d : Disk),
    cleanup_stale_claims now fs claims max_hours dry_run d
    = ((map cc_id_or_unknown
          (filter (fun c => fst (is_claim_stale now fs c max_hours)) claims),
        claims), d)
    /\ cleanup_stale_claims now fs claims max_hours true d
       = cleanup_stale_claims now fs claims max_hours false d.
Proof.
  intros now fs claims max_hours dry_run d.
  split; [apply cleanup_stale_claims_run |].
  now rewrite !cleanup_stale_claims_run.
Qed.

(** ** SessionRegistry *)

Section SessionFacts.

Variable now : Z.
Variable fromisoformat : string -> option IsoTime.

Lemma scan_sessions_find session_id staleness_minutes session_files :
  scan_sessions now fromisoformat session_id staleness_minutes session_files
  = match find (matches session_id) session_files with
    | Some (Some session) =>
        session_verdict now fromisoformat staleness_minutes session
    | _ => (true, None)
    end.
Proof.
  induction session_files as [|[session|] rest IH]; simpl; try assumption.
  - reflexivity.
  - destruct (Py.eq_str (s_session_id session) (Some session_id));
      [reflexivity | exact IH].
Qed.

Lemma is_session_stale_found sessions_dir session_id staleness_minutes :
  is_session_stale now fromisoformat sessions_dir session_id staleness_minutes
  = match find_session sessions_dir session_id with
    | Some session =>
        session_verdict now fromisoformat staleness_minutes session
    | None => (true, None)
    end.
Proof.
  unfold is_session_stale, find_session.
  destruct sessions_dir as [session_files|]; [|reflexivity].
  rewrite scan_sessions_find.
  destruct (find (matches session_id) session_files) as [[s|]|]; reflexivity.
Qed.

End SessionFacts.

(** C6. [is_session_stale] answers (stale, no session) when no record has the
    id.  For the record found (the first with the id, in the order of the
    scan) it answers stale when [last_activity] is missing or empty or does
    not parse, and otherwise stale exactly when [now - last_activity] is
    more than the threshold, which is 30 minutes by default. *)
Theorem is_session_stale_cases :
  forall (now : Z) (fromisoformat : string -> option IsoTime)
         (sessions_dir : option (list (option Session)))
         (session_id : string) (staleness_minutes : Z),
    let result :=
      is_session_stale now fromisoformat sessions_dir session_id
        staleness_minutes in
    (find_session sessions_dir session_id = None -> result = (true, None))
    /\ (forall session,
          find_session sessions_dir session_id = Some session ->
          snd result = Some session
          /\ (Py.truthy_str (s_last_activity session) = false ->
              fst result = true)
          /\ (forall text,
                s_last_activity session = Some text ->
                fromisoformat text = None -> fst result = true)
          /\ (forall text last_time,
                s_last_activity session = Some text -> text <> "" ->
                fromisoformat text = Some last_time ->
                (fst result = true
                 <-> now - as_utc last_time
                     > staleness_minutes * (60 * 1000000))))
    /\ is_session_stale_default now fromisoformat sessions_dir session_id
       = is_session_stale now fromisoformat sessions_dir session_id 30.
Proof.
  intros now fromisoformat sessions_dir session_id staleness_minutes result.
  subst result; rewrite is_session_stale_found.
  split; [|split; [|reflexivity]].
  - intros ->; reflexivity.
  - intros session ->; unfold session_verdict.
    split; [|split; [|split]].
    + destruct (Py.truthy_str (s_last_activity session)); simpl;
        [|reflexivity].
      destruct (fromisoformat _) as [t|]; [|reflexivity].
      now destruct (_ >? _).
    + intros ->; reflexivity.
    + intros text Htext Hparse; rewrite Htext; simpl.
      destruct (negb (String.eqb text "")); simpl; [|reflexivity].
      now rewrite Hparse.
    + intros text last_time Htext Hne Hparse; rewrite Htext; simpl.
      apply String.eqb_neq in Hne; rewrite Hne; simpl.
      rewrite Hparse.
      unfold Py.microseconds_per_minute.
      destruct (Z.gtb_spec (now - as_utc last_time)
                  (staleness_minutes * (60 * 1000000))) as [Hgt|Hle];
        simpl; split; intros H; try reflexivity; try discriminate; lia.
Qed.

Lemma is_session_stale_cases_witness :
  is_session_stale Ex.now45 Ex.fromisoformat Ex.sessions_dir "s-ghost" 30
  = (true, None)
  /\ (fst (is_session_stale Ex.now45 Ex.fromisoformat Ex.sessions_dir
             "s-old" 30) = true
      <-> Ex.now45 - as_utc (mkIsoTime Ex.t0 (Some 0)) > 30 * (60 * 1000000))
  /\ (fst (is_session_stale Ex.now45 Ex.fromisoformat Ex.sessions_dir
             "s-fresh" 30) = true
      <-> Ex.now45 - as_utc (mkIsoTime (Ex.t0 + Ex.minutes 20) None)
          > 30 * (60 * 1000000))
  /\ fst (is_session_stale Ex.now45 Ex.fromisoformat Ex.sessions_dir
            "s-garbled" 30) = true
  /\ fst (is_session_stale Ex.now45 Ex.fromisoformat Ex.sessions_dir
            "s-silent" 30) = true.
Proof.
  pose proof (is_session_stale_cases Ex.now45 Ex.fromisoformat Ex.sessions_dir)
    as cases.
  split; [|split; [|split; [|split]]].
  - destruct (cases "s-ghost" 30) as (absent & _ & _).
    apply absent; reflexivity.
  - destruct (cases "s-old" 30) as (_ & found & _).
    destruct (found Ex.old_session eq_refl) as (_ & _ & _ & aged).
    apply (aged "2024-01-01T00:00:00+00:00");
      [reflexivity | discriminate | reflexivity].
  - destruct (cases "s-fresh" 30) as (_ & found & _).
    destruct (found Ex.fresh_session eq_refl) as (_ & _ & _ & aged).
    apply (aged "2024-01-01T00:20:00");
      [reflexivity | discriminate | reflexivity].
  - destruct (cases "s-garbled" 30) as (_ & found & _).
    destruct (found Ex.garbled_session eq_refl) as (_ & _ & malformed & _).
    apply (malformed "yesterday"); reflexivity.
  - destruct (cases "s-silent" 30) as (_ & found & _).
    destruct (found Ex.silent_session eq_refl) as (_ & missing & _).
    apply missing; reflexivity.
Defined.

(** The two sessions with a readable heartbeat, run: 45 minutes of silence
    is stale, 25 minutes is not. *)
Example is_session_stale_old_and_fresh :
  is_session_stale_default Ex.now45 Ex.fromisoformat Ex.sessions_dir "s-old"
  = (true, Some Ex.old_session)
  /\ is_session_stale_default Ex.now45 Ex.fromisoformat Ex.sessions_dir
       "s-fresh"
     = (false, Some Ex.fresh_session).
Proof.
  split; reflexivity.
Qed.

(** ** StalenessDetector *)

(** C7. For a claim with a worktree path that exists and whose latest
    modification [get_worktree_last_modified] finds, [is_claim_stale] with
    the default threshold reports stale exactly when more than 8 hours have
    passed since: at 9 hours it is stale, at 7 hours it is not. *)
Theorem is_claim_stale_default_threshold :
  forall (now : Z) (fs : string -> option Worktree) (claim : Claim)
         (p : string) (last_modified : Z),
    claim_worktree_path claim = Some p ->
    p <> "" ->
    path_exists fs p = true ->
    get_worktree_last_modified fs p = Some last_modified ->
    (fst (is_claim_stale_default now fs claim) = true
     <-> now - last_modified > 8 * (3600 * 1000000))
    /\ (now - last_modified = 9 * (3600 * 1000000) ->
        fst (is_claim_stale_default now fs claim) = true)
    /\ (now - last_modified = 7 * (3600 * 1000000) ->
        fst (is_claim_stale_default now fs claim) = false).
Proof.
  intros now fs claim p last_modified Hpath Hne Hexists Hlast.
  unfold is_claim_stale_default, is_claim_stale.
  rewrite Hpath; cbn [Py.truthy_str Py.get_or].
  apply String.eqb_neq in Hne; rewrite Hne; cbn [negb].
  rewrite Hexists; cbn [negb]; rewrite Hlast.
  destruct (Z.gtb_spec (now - last_modified) (8 * Py.microseconds_per_hour))
    as [Hgt|Hle]; cbn [fst]; unfold Py.microseconds_per_hour in *.
  - split; [split; [lia | reflexivity] | split; [reflexivity | lia]].
  - split; [split; [discriminate | lia] | split; [lia | reflexivity]].
Qed.

Lemma is_claim_stale_default_threshold_witness :
  (claim_worktree_path Ex.claim_nine = Some "/repo/worktrees/nine"
   /\ "/repo/worktrees/nine" <> ""
   /\ path_exists Ex.fs "/repo/worktrees/nine" = true
   /\ get_worktree_last_modified Ex.fs "/repo/worktrees/nine"
      = Some (Ex.noon - Ex.hours 9))
  /\ fst (is_claim_stale_default Ex.noon Ex.fs Ex.claim_nine) = true
  /\ fst (is_claim_stale_default Ex.noon Ex.fs Ex.claim_seven) = false.
Proof.
  split; [repeat split; try reflexivity; discriminate |].
  split.
  - refine (proj1 (proj2 (is_claim_stale_default_threshold Ex.noon Ex.fs
                            Ex.claim_nine "/repo/worktrees/nine"
                            (Ex.noon - Ex.hours 9) eq_refl _ eq_refl eq_refl))
                  eq_refl).
    discriminate.
  - refine (proj2 (proj2 (is_claim_stale_default_threshold Ex.noon Ex.fs
                            Ex.claim_seven "/repo/worktrees/seven"
                            (Ex.noon - Ex.hours 7) eq_refl _ eq_refl eq_refl))
                  eq_refl).
    discriminate.
Defined.

(** ** OwnershipGuard *)

Lemma is_mine_false my_identity claim :
  Py.get_or (claim_cc_id claim) "" <> SafeWorktreeRemove.id_branch my_identity ->
  Py.get_or (claim_cc_id claim) "" <> SafeWorktreeRemove.id_cwd my_identity ->
  SafeWorktreeRemove.is_mine my_identity claim = false.
Proof.
  intros Hb Hc; unfold SafeWorktreeRemove.is_mine.
  apply String.eqb_neq in Hb, Hc; rewrite Hb, Hc; simpl.
  apply andb_false_r.
Qed.

Lemma check_worktree_claimed_in resolve ledger worktree_path claim :
  SafeWorktreeRemove.check_worktree_claimed resolve ledger worktree_path
  = (true, Some claim) ->
  exists data, ledger = Some data /\ In claim (claims data).
Proof.
  unfold SafeWorktreeRemove.check_worktree_claimed.
  destruct ledger as [data|]; [|discriminate].
  destruct (find _ (claims data)) as [c|] eqn:E; [|discriminate].
  intros [= <-]; exists data; split; [reflexivity|].
  apply find_some in E; tauto.
Qed.



(** The guard has no verdict when the merge check itself fails: with a
    claim of another owner on a worktree that has a branch, a merge check
    that raises (a missing [gh]) ends [should_block_removal], clean or
    dirty, marker or not. *)
Example merge_check_failure_gives_no_verdict :
  SafeWorktreeRemove.should_block_removal Ex.now45 Ex.fromisoformat Ex.resolve
    Ex.abspath Ex.get_worktree_branch Ex.merge_check_fails Ex.dirty_status
    Ex.session_marker true Ex.process_iter Ex.getpid (Some Ex.guard_data)
    Ex.live_wt false Ex.me
  = None.
Proof.
  reflexivity.
Qed.

Lemma filter_length_lt {A : Type} (f : A -> bool) (l : list A) (x : A) :
  In x l -> f x = false -> (List.length (filter f l) < List.length l)%nat.
Proof.
  induction l as [|y l IH]; simpl; [tauto|].
  intros [-> | Hin] Hx.
  - rewrite Hx; pose proof (filter_length_le f l); lia.
  - specialize (IH Hin Hx); destruct (f y); simpl; lia.
Qed.

(** C4, as stated, fails on the reason: in the world of the examples the
    guard answers "merged_safe" for the merged worktree and the claim is
    released, but the entry appended to the history carries the reason
    "auto_released_merged_pr", and no entry carries "branch_merged". *)
Lemma auto_release_reason_counterexample :
  let run :=
    SafeWorktreeRemove.guard_and_auto_release Ex.now45 Ex.fromisoformat
      Ex.resolve Ex.abspath Ex.get_worktree_branch Ex.is_branch_merged
      Ex.git_status Ex.session_marker true Ex.process_iter Ex.getpid
      Ex.merged_wt false Ex.me Ex.guard_disk in
  fst run
  = Some (false, "merged_safe",
          Some (SafeWorktreeRemove.ClaimInfo Ex.claim_merged))
  /\ ledger_file (snd run)
     = Some (mkData [Ex.claim_live]
               [Ex.done "old";
                mkCompletion "plan-5-done" None None (Isoformat Ex.now45) None
                             false (Some "auto_released_merged_pr")])
  /\ ~ (exists data record,
          ledger_file (snd run) = Some data
          /\ In record (completed data)
          /\ reason record = Some "branch_merged").
Proof.
  cbv zeta.
  split; [reflexivity | split; [reflexivity |]].
  intros (data & record & Hdata & Hin & Hreason).
  vm_compute in Hdata; injection Hdata as <-.
  simpl in Hin; destruct Hin as [<- | [<- | []]]; discriminate.
Qed.

(** C4, amended. When the ledger holds a claim for the worktree whose owner
    is another identity than the caller, the branch of the worktree is
    merged and the worktree has no uncommitted changes, then without
    [force] the verdict is (allow, "merged_safe", the claim), every claim of
    that owner leaves the ledger, and one entry is appended to the history:
    the owner's cc_id, the time of the release and the reason
    "auto_released_merged_pr". *)
Theorem merged_branch_auto_release :
  forall (now : Z) (fromisoformat : string -> option IsoTime)
         (resolve abspath : string -> string)
         (get_worktree_branch : string -> option string)
         (is_branch_merged : string -> option bool)
         (git_status : string -> option string)
         (session_marker : string -> option (option string))
         (HAS_PSUTIL : bool)
         (process_iter : list SafeWorktreeRemove.Process) (getpid : Z)
         (d : Disk) (data : Data) (worktree_path : string)
         (my_identity : SafeWorktreeRemove.Identity) (claim : Claim)
         (owner branch : string),
    ledger_file d = Some data ->
    SafeWorktreeRemove.check_worktree_claimed resolve (Some data) worktree_path
    = (true, Some claim) ->
    claim_cc_id claim = Some owner ->
    owner <> SafeWorktreeRemove.id_branch my_identity ->
    owner <> SafeWorktreeRemove.id_cwd my_identity ->
    get_worktree_branch worktree_path = Some branch ->
    branch <> "" ->
    is_branch_merged branch = Some true ->
    SafeWorktreeRemove.has_uncommitted_changes git_status worktree_path
    = false ->
    SafeWorktreeRemove.guard_and_auto_release now fromisoformat resolve
      abspath get_worktree_branch is_branch_merged git_status session_marker
      HAS_PSUTIL process_iter getpid worktree_path false my_identity d
    = (Some (false, "merged_safe",
             Some (SafeWorktreeRemove.ClaimInfo claim)),
       mkDisk
         (Some (mkData
                  (filter (fun c => negb (Py.eq_str (claim_cc_id c) (Some owner)))
                          (claims data))
                  (completed data
                   ++ [mkCompletion owner None None (Isoformat now) None false
                                    (Some "auto_released_merged_pr")])))
         (worktree_claim_files d)).
Proof.
  intros now fromisoformat resolve abspath get_worktree_branch
    is_branch_merged git_status session_marker HAS_PSUTIL process_iter getpid
    d data worktree_path my_identity claim owner branch
    Hledger Hclaimed Howner Hbranch Hcwd Hwt Hne Hmerged Hclean.
  assert (Hverdict :
            SafeWorktreeRemove.should_block_removal now fromisoformat resolve
              abspath get_worktree_branch is_branch_merged git_status
              session_marker HAS_PSUTIL process_iter getpid (Some data)
              worktree_path false my_identity
            = Some (false, "merged_safe",
                    Some (SafeWorktreeRemove.ClaimInfo claim))).
  { unfold SafeWorktreeRemove.should_block_removal.
    rewrite Hclaimed; cbn [andb negb].
    rewrite is_mine_false by (rewrite Howner; assumption); cbn [negb].
    rewrite Hwt; cbn [Py.truthy_str Py.get_or].
    apply String.eqb_neq in Hne; rewrite Hne, Hmerged, Hclean; reflexivity. }
  unfold SafeWorktreeRemove.guard_and_auto_release.
  rewrite Hledger, Hverdict.
  change (String.eqb "merged_safe" "merged_safe") with true; cbv iota.
  rewrite Howner; cbn [Py.get_or].
  unfold bind, SafeWorktreeRemove.release_claim, ret; rewrite Hledger.
  destruct (check_worktree_claimed_in resolve (Some data) worktree_path claim
              Hclaimed) as (data' & [= <-] & Hin).
  assert (Hlt :
            (List.length
               (filter (fun c => negb (Py.eq_str (claim_cc_id c) (Some owner)))
                       (claims data))
             < List.length (claims data))%nat).
  { apply (filter_length_lt _ _ claim Hin).
    rewrite Howner; simpl; now rewrite String.eqb_refl. }
  apply Nat.ltb_lt in Hlt; rewrite Hlt; reflexivity.
Qed.

Lemma merged_branch_auto_release_witness :
  SafeWorktreeRemove.guard_and_auto_release Ex.now45 Ex.fromisoformat
    Ex.resolve Ex.abspath Ex.get_worktree_branch Ex.is_branch_merged
    Ex.git_status Ex.session_marker true Ex.process_iter Ex.getpid
    Ex.merged_wt false Ex.me Ex.guard_disk
  = (Some (false, "merged_safe",
           Some (SafeWorktreeRemove.ClaimInfo Ex.claim_merged)),
     mkDisk
       (Some (mkData
                (filter (fun c => negb (Py.eq_str (claim_cc_id c)
                                          (Some "plan-5-done")))
                        (claims Ex.guard_data))
                (completed Ex.guard_data
                 ++ [mkCompletion "plan-5-done" None None (Isoformat Ex.now45)
                                  None false (Some "auto_released_merged_pr")])))
       (worktree_claim_files Ex.guard_disk)).
Proof.
  apply (merged_branch_auto_release Ex.now45 Ex.fromisoformat Ex.resolve
           Ex.abspath Ex.get_worktree_branch Ex.is_branch_merged Ex.git_status
           Ex.session_marker true Ex.process_iter Ex.getpid Ex.guard_disk
           Ex.guard_data Ex.merged_wt Ex.me Ex.claim_merged "plan-5-done"
           "plan-5-done").
  - reflexivity.
  - reflexivity.
  - reflexivity.
  - discriminate.
  - discriminate.
  - reflexivity.
  - discriminate.
  - reflexivity.
  - reflexivity.
Defined.

(** ** ClaimStore *)

(** C5, as stated, fails under [force]: "agent-A" already holds a claim, and
    a second claim for "agent-A" made with [force] is refused like one made
    without; the ledger in memory and on disk stays as it was. *)
Lemma forced_duplicate_claim_counterexample :
  add_claim Ex.now45 Ex.get_plan_status Ex.get_feature_names Ex.get_session_id
    Ex.find_worktree_for_branch Ex.claim_file_writable
    Ex.store_data "agent-A" (Some 6) None "second task" [] None true None
    Ex.store_disk
  = ((false, Ex.store_data), Ex.store_disk).
Proof.
  reflexivity.
Qed.

(** C5, amended. [add_claim] fails, and leaves the claims in memory and on
    disk as they were, whenever a claim with the same cc_id exists, with or
    without [force]. *)
Theorem add_claim_refuses_second_claim :
  forall (now : Z) (get_plan_status : Z -> PlanStatus * list Z)
         (get_feature_names : list string) (get_session_id : string)
         (find_worktree_for_branch : string -> option string)
         (claim_file_writable : string -> bool)
         (data : Data) (cc_id : string) (plan : option Z)
         (feature : option string) (task : string) (files : list string)
         (worktree_path : option string) (force : bool)
         (session_id : option string) (d : Disk),
    (exists claim, In claim (claims data) /\ claim_cc_id claim = Some cc_id) ->
    add_claim now get_plan_status get_feature_names get_session_id
      find_worktree_for_branch claim_file_writable
      data cc_id plan feature task files worktree_path force session_id d
    = ((false, data), d).
Proof.
  intros now get_plan_status get_feature_names get_session_id
    find_worktree_for_branch claim_file_writable data cc_id plan feature task
    files worktree_path force session_id d (claim & Hin & Hcc).
  unfold add_claim.
  destruct (String.eqb cc_id "main"); [reflexivity|].
  assert (Hex : existsb (fun c => Py.eq_str (claim_cc_id c) (Some cc_id))
                        (claims data) = true).
  { apply existsb_exists; exists claim; split; [exact Hin|].
    now apply eq_str_true. }
  rewrite Hex; reflexivity.
Qed.

Lemma add_claim_refuses_second_claim_witness :
  (exists claim,
      In claim (claims Ex.store_data) /\ claim_cc_id claim = Some "agent-A")
  /\ add_claim Ex.now45 Ex.get_plan_status Ex.get_feature_names
       Ex.get_session_id Ex.find_worktree_for_branch Ex.claim_file_writable
       Ex.store_data "agent-A" (Some 6) None "second task" [] None true None
       Ex.store_disk
     = ((false, Ex.store_data), Ex.store_disk)
  /\ add_claim Ex.now45 Ex.get_plan_status Ex.get_feature_names
       Ex.get_session_id Ex.find_worktree_for_branch Ex.claim_file_writable
       Ex.store_data "agent-A" (Some 6) None "second task" [] None false None
       Ex.store_disk
     = ((false, Ex.store_data), Ex.store_disk).
Proof.
  assert (H : exists claim,
             In claim (claims Ex.store_data)
             /\ claim_cc_id claim = Some "agent-A").
  { exists Ex.plan5; split; [left; reflexivity | reflexivity]. }
  split; [exact H | split].
  - exact (add_claim_refuses_second_claim Ex.now45 Ex.get_plan_status
             Ex.get_feature_names Ex.get_session_id
             Ex.find_worktree_for_branch Ex.claim_file_writable Ex.store_data
             "agent-A" (Some 6) None "second task" [] None true None
             Ex.store_disk H).
  - exact (add_claim_refuses_second_claim Ex.now45 Ex.get_plan_status
             Ex.get_feature_names Ex.get_session_id
             Ex.find_worktree_for_branch Ex.claim_file_writable Ex.store_data
             "agent-A" (Some 6) None "second task" [] None false None
             Ex.store_disk H).
Defined.

(** What [force] does override: a scope conflict.  "agent-B" asks for plan 5,
    which "agent-A" holds; without [force] the request is refused, with
    [force] it is granted and two claims on plan 5 are active. *)
Example add_claim_force_overrides_conflict :
  add_claim Ex.now45 Ex.get_plan_status Ex.get_feature_names Ex.get_session_id
    Ex.find_worktree_for_branch Ex.claim_file_writable
    Ex.store_data "agent-B" (Some 5) None "same plan" [] None false None
    Ex.store_disk
  = ((false, Ex.store_data), Ex.store_disk)
  /\ map claim_plan
       (claims (snd (fst
          (add_claim Ex.now45 Ex.get_plan_status Ex.get_feature_names
             Ex.get_session_id Ex.find_worktree_for_branch
             Ex.claim_file_writable
             Ex.store_data "agent-B" (Some 5) None "same plan" [] None true
             None Ex.store_disk))))
     = [Some 5; Some 5].
Proof.
  split; reflexivity.
Qed.

(** ** The bound on the completed history *)

Section HistoryBound.

Variable now : Z.
Variable fromisoformat : string -> option IsoTime.
Variable sessions_dir : option (list (option Session)).
Variable fs : string -> option Worktree.
Variable get_session_id : string.
Variable get_merged_branches : list string.
Variable validate_plan_for_completion : Z -> bool * nat.

(** Explicit release: when it succeeds, one entry for the cc_id, without a
    reason, is appended and the last 20 entries are kept and saved. *)
Lemma release_claim_history_bounded
    data cc_id commit validate force session_id d data' d' :
  release_claim now fromisoformat sessions_dir get_session_id
    validate_plan_for_completion data cc_id commit validate force session_id d
  = ((true, data'), d') ->
  (List.length (completed data') <= 20)%nat
  /\ (exists completion,
        comp_cc_id completion = cc_id /\ reason completion = None
        /\ completed data' = Py.last_n 20 (completed data ++ [completion]))
  /\ ledger_file d' = Some data'.
Proof.
  unfold release_claim.
  destruct (find _ (claims data)) as [claim_to_remove|]; [|discriminate].
  destruct (negb _); [discriminate|].
  destruct (_ && _); [discriminate|].
  unfold bind, save_yaml, ret; intros [= <- <-]; cbn [completed ledger_file].
  split; [apply last_n_length | split; [|reflexivity]].
  eexists; split; [|split].
  3: reflexivity.
  all: reflexivity.
Qed.

Lemma merged_loop_reason claims :
  Forall (fun r => reason r = Some "branch_merged")
         (fst (fst (merged_loop now get_merged_branches claims))).
Proof.
  induction claims as [|c rest IH]; simpl; [constructor|].
  destruct (merged_loop now get_merged_branches rest) as [[done wts] keep].
  destruct (existsb _ get_merged_branches); simpl; [|exact IH].
  constructor; [reflexivity | exact IH].
Qed.

(** Merged-branch cleanup: when it cleans a claim, the entries appended
    carry the reason "branch_merged" and the last 50 are kept and saved. *)
Lemma cleanup_merged_claims_history_bounded data d n worktrees data' d' :
  cleanup_merged_claims now get_merged_branches data d
  = ((n, worktrees, data'), d') ->
  (0 < n)%nat ->
  (List.length (completed data') <= 50)%nat
  /\ (exists done,
        List.length done = n
        /\ Forall (fun r => reason r = Some "branch_merged") done
        /\ completed data' = Py.last_n 50 (completed data ++ done))
  /\ ledger_file d' = Some data'.
Proof.
  unfold cleanup_merged_claims.
  destruct (negb (nonempty get_merged_branches)).
  - unfold ret; intros [= <- _ _ _]; lia.
  - pose proof (merged_loop_reason (claims data)) as Hreason.
    destruct (merged_loop now get_merged_branches (claims data))
      as [[done wts] keep]; cbn [fst] in Hreason.
    destruct (Nat.ltb 0 (List.length done)) eqn:E.
    + unfold bind, save_yaml, ret; intros [= <- _ <- <-] _.
      cbn [completed ledger_file].
      split; [apply last_n_length | split; [|reflexivity]].
      exists done; repeat split; assumption.
    + unfold ret; intros [= <- _ _ _] Hpos.
      apply Nat.ltb_ge in E; lia.
Qed.

(** Orphan cleanup from the command line: either nothing is touched, or the
    entries appended carry the reason "auto_released_orphaned" and the last
    50 are kept and saved. *)
Lemma main_cleanup_orphaned_history_bounded data dry_run d :
  main_cleanup_orphaned now fs data dry_run d = (data, d)
  \/ exists done,
       Forall (fun r => reason r = Some "auto_released_orphaned") done
       /\ (List.length
             (completed (fst (main_cleanup_orphaned now fs data dry_run d)))
           <= 50)%nat
       /\ completed (fst (main_cleanup_orphaned now fs data dry_run d))
          = Py.last_n 50 (completed data ++ done)
       /\ ledger_file (snd (main_cleanup_orphaned now fs data dry_run d))
          = Some (fst (main_cleanup_orphaned now fs data dry_run d)).
Proof.
  unfold main_cleanup_orphaned.
  destruct (cleanup_orphaned_claims fs (claims data) dry_run)
    as [cleaned_ids remaining].
  destruct (nonempty cleaned_ids && negb dry_run); [|left; reflexivity].
  right; unfold bind, save_yaml, ret; cbn [fst snd completed ledger_file].
  eexists; split; [|split; [apply last_n_length | split; reflexivity]].
  apply Forall_map, Forall_forall; reflexivity.
Qed.

(** Stale cleanup from the command line, likewise, with the reason
    "auto_released_stale". *)
Lemma main_cleanup_stale_history_bounded data stale_hours dry_run d :
  main_cleanup_stale now fs data stale_hours dry_run d = (data, d)
  \/ exists done,
       Forall (fun r => reason r = Some "auto_released_stale") done
       /\ (List.length
             (completed
                (fst (main_cleanup_stale now fs data stale_hours dry_run d)))
           <= 50)%nat
       /\ completed (fst (main_cleanup_stale now fs data stale_hours dry_run d))
          = Py.last_n 50 (completed data ++ done)
       /\ ledger_file
            (snd (main_cleanup_stale now fs data stale_hours dry_run d))
          = Some (fst (main_cleanup_stale now fs data stale_hours dry_run d)).
Proof.
  unfold main_cleanup_stale, bind.
  rewrite cleanup_stale_claims_run.
  destruct (nonempty _ && negb dry_run); [|left; reflexivity].
  right; unfold save_yaml, ret; cbn [fst snd completed ledger_file].
  eexists; split; [|split; [apply last_n_length | split; reflexivity]].
  apply Forall_map, Forall_forall; reflexivity.
Qed.

End HistoryBound.

(** C8. The auto-release of the ownership guard breaks the bound: with fifty
    entries in the history and a claim whose branch is merged, the guard
    answers "merged_safe", the claim is released, and the history written
    back holds fifty-one entries. *)
Theorem guard_auto_release_history_unbounded :
  fst (SafeWorktreeRemove.guard_and_auto_release Ex.now45 Ex.fromisoformat
         Ex.resolve Ex.abspath Ex.get_worktree_branch Ex.is_branch_merged
         Ex.git_status Ex.session_marker true Ex.process_iter Ex.getpid
         Ex.merged_wt false Ex.me Ex.full_disk)
  = Some (false, "merged_safe",
          Some (SafeWorktreeRemove.ClaimInfo Ex.claim_merged))
  /\ List.length (completed Ex.full_data) = 50%nat
  /\ option_map (fun data => (map claim_cc_id (claims data),
                              List.length (completed data)))
       (ledger_file
          (snd (SafeWorktreeRemove.guard_and_auto_release Ex.now45
                  Ex.fromisoformat Ex.resolve Ex.abspath
                  Ex.get_worktree_branch Ex.is_branch_merged Ex.git_status
                  Ex.session_marker true Ex.process_iter Ex.getpid
                  Ex.merged_wt false Ex.me Ex.full_disk)))
     = Some ([Some "plan-6"], 51%nat).
Proof.
  repeat split.
Qed.

(** * Further properties of the code *)

(** ** [add_claim] *)

Section AddClaimFacts.

Variable now : Z.
Variable get_plan_status : Z -> PlanStatus * list Z.
Variable get_feature_names : list string.
Variable get_session_id : string.
Variable find_worktree_for_branch : string -> option string.
Variable claim_file_writable : string -> bool.

(** The two outcomes of [add_claim]: refused with nothing written, or
    granted with one claim appended and the ledger saved. *)
Lemma add_claim_outcomes data cc_id plan feature task files worktree_path
    force session_id d :
  add_claim now get_plan_status get_feature_names get_session_id
    find_worktree_for_branch claim_file_writable data cc_id plan feature task
    files worktree_path force session_id d
  = ((false, data), d)
  \/ exists c d',
       add_claim now get_plan_status get_feature_names get_session_id
         find_worktree_for_branch claim_file_writable data cc_id plan feature
         task files worktree_path force session_id d
       = ((true, mkData (claims data ++ [c]) (completed data)), d')
       /\ ledger_file d' = Some (mkData (claims data ++ [c]) (completed data))
       /\ claim_cc_id c = Some cc_id
       /\ claim_plan c = (if Py.truthy_int plan then plan else None)
       /\ claim_feature c = (if Py.truthy_str feature then feature else None)
       /\ claim_task c = Some task
       /\ claim_claimed_at c = Some (Strftime now)
       /\ claim_session_id c = Some (Py.get_or session_id get_session_id)
       /\ cc_id <> "main"
       /\ existsb (fun claim => Py.eq_str (claim_cc_id claim) (Some cc_id))
                  (claims data) = false
       /\ (Py.truthy_str feature = true ->
           In (Py.get_or feature "") get_feature_names)
       /\ (force = false ->
           ConflictResolver.check_scope_conflict plan feature (claims data)
           = []).
Proof.
  unfold add_claim.
  destruct (String.eqb cc_id "main") eqn:Emain; [left; reflexivity|].
  destruct (existsb _ (claims data)) eqn:Edup; [left; reflexivity|].
  destruct (Py.truthy_int plan && _ && negb force); [left; reflexivity|].
  destruct (Py.truthy_str feature && _) eqn:Efeat; [left; reflexivity|].
  destruct (nonempty _ && negb force) eqn:Econf; [left; reflexivity|].
  right.
  assert (Hfeat : Py.truthy_str feature = true ->
                  In (Py.get_or feature "") get_feature_names).
  { intros Ht; rewrite Ht in Efeat; simpl in Efeat.
    apply negb_false_iff, existsb_exists in Efeat.
    destruct Efeat as (f & Hin & Heq).
    apply String.eqb_eq in Heq; now subst. }
  assert (Hconf : force = false ->
                  ConflictResolver.check_scope_conflict plan feature
                    (claims data) = []).
  { intros ->; rewrite andb_true_r in Econf.
    now destruct (ConflictResolver.check_scope_conflict _ _ _). }
  apply String.eqb_neq in Emain.
  unfold bind, save_yaml, ret, save_claim_to_worktree.
  destruct (Py.truthy_str (if Py.truthy_str worktree_path then worktree_path
                           else find_worktree_for_branch cc_id));
    [destruct (claim_file_writable _)|];
    eexists; eexists; (split; [reflexivity|]); repeat split; assumption.
Qed.

End AddClaimFacts.

(** X1. A refused claim writes nothing: whenever [add_claim] returns
    failure, the ledger in memory and the disk (ledger file and claim files)
    are as before the call. *)
Theorem add_claim_failure_writes_nothing :
  forall (now : Z) (get_plan_status : Z -> PlanStatus * list Z)
         (get_feature_names : list string) (get_session_id : string)
         (find_worktree_for_branch : string -> option string)
         (claim_file_writable : string -> bool)
         (data : Data) (cc_id : string) (plan : option Z)
         (feature : option string) (task : string) (files : list string)
         (worktree_path : option string) (force : bool)
         (session_id : option string) (d : Disk) (data' : Data) (d' : Disk),
    add_claim now get_plan_status get_feature_names get_session_id
      find_worktree_for_branch claim_file_writable data cc_id plan feature
      task files worktree_path force session_id d
    = ((false, data'), d') ->
    data' = data /\ d' = d.
Proof.
  intros now gps names sid fw cw data cc_id plan feature task files wt force
    session_id d data' d' H.
  destruct (add_claim_outcomes now gps names sid fw cw data cc_id plan feature
              task files wt force session_id d)
    as [Hfail | (c & d1 & Hok & _)];
    rewrite H in *; [injection Hfail as -> ->; split; reflexivity|].
  discriminate.
Qed.

Lemma add_claim_failure_writes_nothing_witness :
  add_claim Ex.now45 Ex.get_plan_status Ex.get_feature_names Ex.get_session_id
    Ex.find_worktree_for_branch Ex.claim_file_writable Ex.store_data "agent-B"
    (Some 5) None "same plan" [] None false None Ex.store_disk
  = ((false, Ex.store_data), Ex.store_disk)
  /\ Ex.store_data = Ex.store_data /\ Ex.store_disk = Ex.store_disk.
Proof.
  split; [reflexivity|].
  exact (add_claim_failure_writes_nothing Ex.now45 Ex.get_plan_status
           Ex.get_feature_names Ex.get_session_id Ex.find_worktree_for_branch
           Ex.claim_file_writable Ex.store_data "agent-B" (Some 5) None
           "same plan" [] None false None Ex.store_disk Ex.store_data
           Ex.store_disk eq_refl).
Defined.

(** X2. A granted claim is appended last, with the requester's cc_id, the
    task, the time of the call and the session id; a plan of 0 and an empty
    feature are not recorded; the earlier claims and the history are kept,
    and the ledger saved is the ledger returned. *)
Theorem add_claim_success_appends_one_claim :
  forall (now : Z) (get_plan_status : Z -> PlanStatus * list Z)
         (get_feature_names : list string) (get_session_id : string)
         (find_worktree_for_branch : string -> option string)
         (claim_file_writable : string -> bool)
         (data : Data) (cc_id : string) (plan : option Z)
         (feature : option string) (task : string) (files : list string)
         (worktree_path : option string) (force : bool)
         (session_id : option string) (d : Disk) (data' : Data) (d' : Disk),
    add_claim now get_plan_status get_feature_names get_session_id
      find_worktree_for_branch claim_file_writable data cc_id plan feature
      task files worktree_path force session_id d
    = ((true, data'), d') ->
    exists c,
      claims data' = claims data ++ [c]
      /\ completed data' = completed data
      /\ ledger_file d' = Some data'
      /\ claim_cc_id c = Some cc_id
      /\ claim_plan c = (if Py.truthy_int plan then plan else None)
      /\ claim_feature c = (if Py.truthy_str feature then feature else None)
      /\ claim_task c = Some task
      /\ claim_claimed_at c = Some (Strftime now)
      /\ claim_session_id c = Some (Py.get_or session_id get_session_id).
Proof.
  intros now gps names sid fw cw data cc_id plan feature task files wt force
    session_id d data' d' H.
  destruct (add_claim_outcomes now gps names sid fw cw data cc_id plan feature
              task files wt force session_id d)
    as [Hfail | (c & d1 & Hok & Hsaved & Hc)];
    rewrite H in *; [discriminate|].
  injection Hok as -> ->.
  exists c; cbn [claims completed]; intuition.
Qed.

Lemma add_claim_success_appends_one_claim_witness :
  exists c,
    claims (snd (fst
      (add_claim Ex.now45 Ex.get_plan_status Ex.get_feature_names
         Ex.get_session_id Ex.find_worktree_for_branch Ex.claim_file_writable
         Ex.store_data "agent-B" (Some 0) (Some "ledger") "fix" [] None false
         None Ex.store_disk)))
    = claims Ex.store_data ++ [c]
    /\ claim_cc_id c = Some "agent-B"
    /\ claim_plan c = None
    /\ claim_feature c = Some "ledger"
    /\ claim_session_id c = Some "session-2".
Proof.
  destruct (add_claim_success_appends_one_claim Ex.now45 Ex.get_plan_status
              Ex.get_feature_names Ex.get_session_id
              Ex.find_worktree_for_branch Ex.claim_file_writable Ex.store_data
              "agent-B" (Some 0) (Some "ledger") "fix" [] None false None
              Ex.store_disk _ _ eq_refl)
    as (c & H1 & _ & _ & H4 & H5 & H6 & _ & _ & H9).
  exists c; repeat split; assumption.
Defined.

(** X3. Mutual exclusion of unforced claims: when a claim for a feature
    other than "shared" (or for no feature) is granted without [force], no
    existing claim holds the same nonzero plan, and none holds the same
    non-empty feature. *)
Theorem unforced_claim_excludes_collisions :
  forall (now : Z) (get_plan_status : Z -> PlanStatus * list Z)
         (get_feature_names : list string) (get_session_id : string)
         (find_worktree_for_branch : string -> option string)
         (claim_file_writable : string -> bool)
         (data : Data) (cc_id : string) (plan : option Z)
         (feature : option string) (task : string) (files : list string)
         (worktree_path : option string) (session_id : option string)
         (d : Disk) (data' : Data) (d' : Disk) (existing : Claim),
    add_claim now get_plan_status get_feature_names get_session_id
      find_worktree_for_branch claim_file_writable data cc_id plan feature
      task files worktree_path false session_id d
    = ((true, data'), d') ->
    feature <> Some "shared" ->
    In existing (claims data) ->
    (forall p, plan = Some p -> p <> 0 -> claim_plan existing <> Some p)
    /\ (forall f, feature = Some f -> f <> "" ->
                  claim_feature existing <> Some f).
Proof.
  intros now gps names sid fw cw data cc_id plan feature task files wt
    session_id d data' d' existing H Hshared Hin.
  destruct (add_claim_outcomes now gps names sid fw cw data cc_id plan feature
              task files wt false session_id d)
    as [Hfail | (c & d1 & _ & Hfacts)];
    [rewrite H in Hfail; discriminate|].
  destruct Hfacts as (_ & _ & _ & _ & _ & _ & _ & _ & _ & _ & Hconf).
  specialize (Hconf eq_refl).
  rewrite check_scope_conflict_filter in Hconf by exact Hshared.
  assert (Hnot : ConflictResolver.collides plan feature existing = false).
  { destruct (ConflictResolver.collides plan feature existing) eqn:E;
      [|reflexivity].
    assert (Hf : In existing
                   (filter (ConflictResolver.collides plan feature)
                           (claims data)))
      by (apply filter_In; split; assumption).
    rewrite Hconf in Hf; destruct Hf. }
  split.
  - intros p Hp Hnz Hc.
    assert (Ht : ConflictResolver.collides plan feature existing = true)
      by (apply collides_spec; left; exists p; repeat split; assumption).
    congruence.
  - intros f Hf Hnz Hc.
    assert (Ht : ConflictResolver.collides plan feature existing = true).
    { apply collides_spec; right; exists f; repeat split; try assumption.
      unfold ConflictResolver.shared; congruence. }
    congruence.
Qed.

Lemma unforced_claim_excludes_collisions_witness :
  (forall p, Some 6 = Some p -> p <> 0 -> claim_plan Ex.plan5 <> Some p)
  /\ (forall f, Some "ledger" = Some f -> f <> "" ->
                claim_feature Ex.plan5 <> Some f).
Proof.
  refine (unforced_claim_excludes_collisions Ex.now45 Ex.get_plan_status
            Ex.get_feature_names Ex.get_session_id
            Ex.find_worktree_for_branch Ex.claim_file_writable Ex.store_data
            "agent-B" (Some 6) (Some "ledger") "fix" [] None None
            Ex.store_disk _ _ Ex.plan5 eq_refl _ _).
  - discriminate.
  - left; reflexivity.
Defined.

(** X4. The "shared" exemption reaches the plan: a request for the feature
    "shared" from a new cc_id, with the dependencies of its plan met and
    "shared" in the registry, is granted without [force] whatever the
    existing claims hold, a claim on the same plan included. *)
Theorem shared_request_granted_despite_plan_overlap :
  forall (now : Z) (get_plan_status : Z -> PlanStatus * list Z)
         (get_feature_names : list string) (get_session_id : string)
         (find_worktree_for_branch : string -> option string)
         (claim_file_writable : string -> bool)
         (data : Data) (cc_id : string) (plan : option Z) (task : string)
         (files : list string) (worktree_path : option string)
         (session_id : option string) (d : Disk),
    cc_id <> "main" ->
    (forall c, In c (claims data) -> claim_cc_id c <> Some cc_id) ->
    (Py.truthy_int plan = true ->
     fst (check_plan_dependencies get_plan_status (Py.get_or plan 0)) = true) ->
    In "shared" get_feature_names ->
    fst (fst (add_claim now get_plan_status get_feature_names get_session_id
                find_worktree_for_branch claim_file_writable data cc_id plan
                (Some "shared") task files worktree_path false session_id d))
    = true.
Proof.
  intros now gps names sid fw cw data cc_id plan task files wt session_id d
    Hmain Hdup Hdeps Hreg.
  unfold add_claim.
  apply String.eqb_neq in Hmain; rewrite Hmain.
  assert (Hex : existsb (fun claim => Py.eq_str (claim_cc_id claim) (Some cc_id))
                        (claims data) = false).
  { destruct (existsb _ (claims data)) eqn:E; [|reflexivity].
    apply existsb_exists in E; destruct E as (c & Hin & Heq).
    apply eq_str_true in Heq; destruct (Hdup c Hin Heq). }
  rewrite Hex.
  assert (Hd : Py.truthy_int plan
               && negb (fst (check_plan_dependencies gps (Py.get_or plan 0)))
               && negb false = false).
  { destruct (Py.truthy_int plan); [|reflexivity].
    now rewrite Hdeps. }
  rewrite Hd.
  assert (Hf : existsb (String.eqb (Py.get_or (Some "shared") "")) names = true).
  { apply existsb_exists; exists "shared"; split; [exact Hreg | reflexivity]. }
  rewrite Hf; cbn [Py.truthy_str String.eqb Ascii.eqb Bool.eqb negb andb].
  change (ConflictResolver.check_scope_conflict plan (Some "shared")
            (claims data)) with (@nil Claim).
  cbn [nonempty andb].
  unfold bind, save_yaml, ret, save_claim_to_worktree.
  destruct (Py.truthy_str _); [destruct (cw _)|]; reflexivity.
Qed.

Lemma shared_request_granted_despite_plan_overlap_witness :
  map claim_plan
    (claims (snd (fst
       (add_claim Ex.now45 Ex.get_plan_status Ex.get_feature_names
          Ex.get_session_id Ex.find_worktree_for_branch Ex.claim_file_writable
          Ex.store_data "agent-B" (Some 5) (Some "shared") "config" [] None
          false None Ex.store_disk))))
  = [Some 5; Some 5]
  /\ fst (fst (add_claim Ex.now45 Ex.get_plan_status Ex.get_feature_names
                 Ex.get_session_id Ex.find_worktree_for_branch
                 Ex.claim_file_writable Ex.store_data "agent-B" (Some 5)
                 (Some "shared") "config" [] None false None Ex.store_disk))
     = true.
Proof.
  split; [reflexivity|].
  apply shared_request_granted_despite_plan_overlap.
  - discriminate.
  - intros c [<- | []]; discriminate.
  - reflexivity.
  - right; left; reflexivity.
Defined.

(** X5. What [force] does not override: a claim on the branch "main", and a
    claim for a feature that is not in the registry, are refused with
    nothing written, with [force] as without. *)
Theorem force_does_not_override_main_or_unknown_feature :
  forall (now : Z) (get_plan_status : Z -> PlanStatus * list Z)
         (get_feature_names : list string) (get_session_id : string)
         (find_worktree_for_branch : string -> option string)
         (claim_file_writable : string -> bool)
         (data : Data) (cc_id : string) (plan : option Z)
         (feature : option string) (task : string) (files : list string)
         (worktree_path : option string) (force : bool)
         (session_id : option string) (d : Disk),
    cc_id = "main"
    \/ (exists f, feature = Some f /\ f <> "" /\ ~ In f get_feature_names) ->
    add_claim now get_plan_status get_feature_names get_session_id
      find_worktree_for_branch claim_file_writable data cc_id plan feature
      task files worktree_path force session_id d
    = ((false, data), d).
Proof.
  intros now gps names sid fw cw data cc_id plan feature task files wt force
    session_id d H.
  destruct (add_claim_outcomes now gps names sid fw cw data cc_id plan feature
              task files wt force session_id d)
    as [Hfail | (c & d1 & _ & Hfacts)]; [exact Hfail|].
  destruct Hfacts as (_ & _ & _ & _ & _ & _ & _ & Hmain & _ & Hfeat & _).
  destruct H as [-> | (f & -> & Hne & Hnot)]; [now destruct Hmain|].
  exfalso; apply Hnot.
  apply Hfeat; simpl.
  apply String.eqb_neq in Hne; now rewrite Hne.
Qed.

Lemma force_does_not_override_main_or_unknown_feature_witness :
  add_claim Ex.now45 Ex.get_plan_status Ex.get_feature_names Ex.get_session_id
    Ex.find_worktree_for_branch Ex.claim_file_writable Ex.store_data "main"
    (Some 6) None "on main" [] None true None Ex.store_disk
  = ((false, Ex.store_data), Ex.store_disk)
  /\ add_claim Ex.now45 Ex.get_plan_status Ex.get_feature_names
       Ex.get_session_id Ex.find_worktree_for_branch Ex.claim_file_writable
       Ex.store_data "agent-B" None (Some "escrow") "typo" [] None true None
       Ex.store_disk
     = ((false, Ex.store_data), Ex.store_disk).
Proof.
  split; apply force_does_not_override_main_or_unknown_feature.
  - left; reflexivity.
  - right; exists "escrow"; repeat split; [discriminate|].
    intros [H | [H | []]]; discriminate.
Defined.

(** X6. One claim per cc_id is an invariant of [add_claim]: if the cc_ids
    of the claims are pairwise distinct before the call they are after it,
    whether the claim is granted or refused, forced or not. *)
Theorem add_claim_keeps_cc_ids_distinct :
  forall (now : Z) (get_plan_status : Z -> PlanStatus * list Z)
         (get_feature_names : list string) (get_session_id : string)
         (find_worktree_for_branch : string -> option string)
         (claim_file_writable : string -> bool)
         (data : Data) (cc_id : string) (plan : option Z)
         (feature : option string) (task : string) (files : list string)
         (worktree_path : option string) (force : bool)
         (session_id : option string) (d : Disk),
    NoDup (map claim_cc_id (claims data)) ->
    NoDup (map claim_cc_id
             (claims (snd (fst
                (add_claim now get_plan_status get_feature_names
                   get_session_id find_worktree_for_branch
                   claim_file_writable data cc_id plan feature task files
                   worktree_path force session_id d))))).
Proof.
  intros now gps names sid fw cw data cc_id plan feature task files wt force
    session_id d Hnd.
  destruct (add_claim_outcomes now gps names sid fw cw data cc_id plan feature
              task files wt force session_id d)
    as [-> | (c & d1 & -> & Hfacts)]; [exact Hnd|].
  destruct Hfacts as (_ & Hcc & _ & _ & _ & _ & _ & _ & Hdup & _).
  cbn [fst snd claims]; rewrite map_app; cbn [map].
  apply NoDup_app; [exact Hnd | constructor; [intros [] | constructor] |].
  intros o Ho [<- | []].
  apply in_map_iff in Ho; destruct Ho as (c' & Hc' & Hin).
  assert (Ht : existsb (fun claim => Py.eq_str (claim_cc_id claim) (Some cc_id))
                       (claims data) = true).
  { apply existsb_exists; exists c'; split; [exact Hin|].
    apply eq_str_true; congruence. }
  congruence.
Qed.

Lemma add_claim_keeps_cc_ids_distinct_witness :
  NoDup (map claim_cc_id (claims Ex.store_data))
  /\ NoDup (map claim_cc_id
              (claims (snd (fst
                 (add_claim Ex.now45 Ex.get_plan_status Ex.get_feature_names
                    Ex.get_session_id Ex.find_worktree_for_branch
                    Ex.claim_file_writable Ex.store_data "agent-B" (Some 5)
                    None "same plan" [] None true None Ex.store_disk))))).
Proof.
  assert (H : NoDup (map claim_cc_id (claims Ex.store_data)))
    by (repeat constructor; intros []).
  split; [exact H|].
  exact (add_claim_keeps_cc_ids_distinct Ex.now45 Ex.get_plan_status
           Ex.get_feature_names Ex.get_session_id Ex.find_worktree_for_branch
           Ex.claim_file_writable Ex.store_data "agent-B" (Some 5) None
           "same plan" [] None true None Ex.store_disk H).
Defined.

(** ** [release_claim] of [check_claims.py] *)

Lemma find_split {A : Type} (p : A -> bool) (l : list A) (x : A) :
  find p l = Some x ->
  exists before after,
    l = before ++ x :: after /\ p x = true
    /\ (forall y, In y before -> p y = false).
Proof.
  induction l as [|y l IH]; simpl; [discriminate|].
  destruct (p y) eqn:E.
  - intros [= ->]; exists [], l; repeat split; [exact E | intros _ []].
  - intros H; destruct (IH H) as (before & after & -> & Hx & Hb).
    exists (y :: before), after; repeat split; [exact Hx|].
    intros z [<- | Hz]; [exact E | now apply Hb].
Qed.

Lemma find_app_last {A : Type} (p : A -> bool) (l : list A) (x : A) :
  existsb p l = false -> p x = true -> find p (l ++ [x]) = Some x.
Proof.
  induction l as [|y l IH]; simpl; intros Hl Hx.
  - now rewrite Hx.
  - apply orb_false_iff in Hl; destruct Hl as [-> Hl]; now apply IH.
Qed.

Lemma remove_first_split (x : Claim) (before after : list Claim) :
  ~ In x before -> remove_first x (before ++ x :: after) = before ++ after.
Proof.
  induction before as [|y before IH]; simpl; intros Hn.
  - destruct (claim_eq_dec x x); [reflexivity | contradiction].
  - destruct (claim_eq_dec x y) as [-> | _]; [exfalso; apply Hn; now left|].
    rewrite IH; [reflexivity | intros H; apply Hn; now right].
Qed.

Section ReleaseFacts.

Variable now : Z.
Variable fromisoformat : string -> option IsoTime.
Variable sessions_dir : option (list (option Session)).
Variable get_session_id : string.
Variable validate_plan_for_completion : Z -> bool * nat.

(** The two outcomes of [release_claim]. *)
Lemma release_claim_outcomes data cc_id commit validate force session_id d :
  release_claim now fromisoformat sessions_dir get_session_id
    validate_plan_for_completion data cc_id commit validate force session_id d
  = ((false, data), d)
  \/ exists c completion,
       find (fun claim => Py.eq_str (claim_cc_id claim) (Some cc_id))
            (claims data) = Some c
       /\ release_claim now fromisoformat sessions_dir get_session_id
            validate_plan_for_completion data cc_id commit validate force
            session_id d
          = ((true,
              mkData (remove_first c (claims data))
                     (Py.last_n 20 (completed data ++ [completion]))),
             mkDisk (Some (mkData (remove_first c (claims data))
                             (Py.last_n 20 (completed data ++ [completion]))))
                    (worktree_claim_files d)).
Proof.
  unfold release_claim.
  destruct (find _ (claims data)) as [c|]; [|left; reflexivity].
  destruct (negb _); [left; reflexivity|].
  destruct (_ && _); [left; reflexivity|].
  right; eexists; eexists; split; reflexivity.
Qed.

End ReleaseFacts.

(** [get_or_create_session] always leaves a session file, the session it
    returns, with [last_activity] set to the present. *)
Lemma get_or_create_session_writes now isoformat gethostname getpid uuid4
    session_file :
  exists session,
    get_or_create_session now isoformat gethostname getpid uuid4 session_file
    = (session, Some session)
    /\ s_last_activity session = Some (isoformat now).
Proof.
  unfold get_or_create_session.
  destruct session_file as [session|]; [|eexists; split; reflexivity].
  destruct (negb (session_is_empty session) && _);
    eexists; split; reflexivity.
Qed.

(** X7. A refused release leaves the ledger alone: whenever [release_claim]
    returns failure (no claim for the cc_id, another live session owns it,
    or validation failed), the ledger in memory, the ledger file and the
    claim files of the worktrees are unchanged.  The one write is to the
    session file of the caller: when the release asked [get_session_id()]
    (a claim was found that carries a session id, [force] is off and no
    session id was passed), the file is the one [get_or_create_session]
    leaves, a session whose [last_activity] is the present; otherwise the
    session file is untouched too. *)
Theorem release_claim_failure_writes_only_session_file :
  forall (now : Z) (fromisoformat : string -> option IsoTime)
         (sessions_dir : option (list (option Session)))
         (validate_plan_for_completion : Z -> bool * nat)
         (isoformat : Z -> string) (gethostname : string) (getpid : Z)
         (uuid4 : string)
         (data : Data) (cc_id : string) (commit : option string)
         (validate force : bool) (session_id : option string)
         (session_file : option Session) (d : Disk)
         (data' : Data) (session_file' : option Session) (d' : Disk),
    release_claim_in_session now fromisoformat sessions_dir
      validate_plan_for_completion isoformat gethostname getpid uuid4 data
      cc_id commit validate force session_id session_file d
    = (((false, data'), session_file'), d') ->
    data' = data /\ d' = d
    /\ (asks_session_id data cc_id force session_id = true ->
        session_file'
        = snd (get_or_create_session now isoformat gethostname getpid uuid4
                 session_file)
        /\ exists session,
             session_file' = Some session
             /\ s_last_activity session = Some (isoformat now))
    /\ (asks_session_id data cc_id force session_id = false ->
        session_file' = session_file).
Proof.
  intros now fromiso dir validate_plan isoformat host pid uuid4 data cc_id
    commit validate force session_id session_file d data' session_file' d'.
  unfold release_claim_in_session, get_session_id.
  destruct (get_or_create_session_writes now isoformat host pid uuid4
              session_file) as (session & Hs & Hlast).
  rewrite Hs; cbn [snd]; unfold bind, ret.
  destruct (release_claim_outcomes now fromiso dir
              (Py.get_or (s_session_id session) "") validate_plan data cc_id
              commit validate force session_id d)
    as [Hfail | (c & completion & _ & Hok)].
  - rewrite Hfail; intros [= <- <- <-].
    split; [reflexivity|]; split; [reflexivity|]; split.
    + intros ->; split; [reflexivity|].
      exists session; split; [reflexivity | exact Hlast].
    + now intros ->.
  - rewrite Hok; discriminate.
Qed.

Lemma release_claim_failure_writes_only_session_file_witness :
  asks_session_id Ex.guarded_data "agent-G" false None = true
  /\ release_claim_in_session (Ex.t0 + Ex.minutes 20) Ex.fromisoformat
       Ex.sessions_dir Ex.validate_plan_for_completion Ex.isoformat "host"
       4242 "s-new" Ex.guarded_data "agent-G" None false false None
       (Some Ex.my_session) Ex.guarded_disk
     = (((false, Ex.guarded_data),
         Some (with_last_activity Ex.my_session "2024-01-01T00:20:00")),
        Ex.guarded_disk)
  /\ Ex.guarded_data = Ex.guarded_data /\ Ex.guarded_disk = Ex.guarded_disk
  /\ asks_session_id Ex.store_data "agent-Z" false None = false
  /\ Some Ex.my_session = Some Ex.my_session.
Proof.
  split; [reflexivity|].
  split; [reflexivity|].
  pose proof (release_claim_failure_writes_only_session_file
                (Ex.t0 + Ex.minutes 20) Ex.fromisoformat Ex.sessions_dir
                Ex.validate_plan_for_completion Ex.isoformat "host" 4242
                "s-new" Ex.guarded_data "agent-G" None false false None
                (Some Ex.my_session) Ex.guarded_disk Ex.guarded_data
                (Some (with_last_activity Ex.my_session
                         "2024-01-01T00:20:00"))
                Ex.guarded_disk eq_refl) as (Hdata & Hdisk & _).
  split; [exact Hdata|]; split; [exact Hdisk|].
  split; [reflexivity|].
  exact (proj2 (proj2 (proj2
           (release_claim_failure_writes_only_session_file Ex.now45
              Ex.fromisoformat Ex.sessions_dir
              Ex.validate_plan_for_completion Ex.isoformat "host" 4242
              "s-new" Ex.store_data "agent-Z" None false false None
              (Some Ex.my_session) Ex.store_disk Ex.store_data
              (Some Ex.my_session) Ex.store_disk eq_refl))) eq_refl).
Defined.

(** When [release_claim] asks for the caller's session: a claim for the
    cc_id exists, the first one carries a session id, [force] is off and no
    session id was handed in. *)
Lemma asks_session_id_spec data cc_id force session_id :
  asks_session_id data cc_id force session_id = true
  <-> exists claim,
        find (fun claim => Py.eq_str (claim_cc_id claim) (Some cc_id))
             (claims data) = Some claim
        /\ Py.truthy_str (claim_session_id claim) = true
        /\ force = false /\ session_id = None.
Proof.
  unfold asks_session_id.
  destruct (find _ (claims data)) as [c|].
  - split.
    + intros H; apply andb_true_iff in H; destruct H as [H Hs].
      apply andb_true_iff in H; destruct H as [Ht Hf].
      exists c; repeat split; try assumption.
      * now destruct force.
      * now destruct session_id.
    + intros (c' & [= <-] & Ht & -> & ->); now rewrite Ht.
  - split; [discriminate | intros (c' & Hc & _); discriminate].
Qed.

(** X8. A successful release removes exactly one claim, the first with the
    cc_id: the claims before it and after it stay, in order (a later claim
    with the same cc_id stays too). *)
Theorem release_claim_removes_first_match :
  forall (now : Z) (fromisoformat : string -> option IsoTime)
         (sessions_dir : option (list (option Session)))
         (get_session_id : string)
         (validate_plan_for_completion : Z -> bool * nat)
         (data : Data) (cc_id : string) (commit : option string)
         (validate force : bool) (session_id : option string) (d : Disk)
         (data' : Data) (d' : Disk),
    release_claim now fromisoformat sessions_dir get_session_id
      validate_plan_for_completion data cc_id commit validate force
      session_id d
    = ((true, data'), d') ->
    exists before c after,
      claims data = before ++ c :: after
      /\ claims data' = before ++ after
      /\ claim_cc_id c = Some cc_id
      /\ (forall x, In x before -> claim_cc_id x <> Some cc_id).
Proof.
  intros now fromiso dir sid validate_plan data cc_id commit validate force
    session_id d data' d' H.
  destruct (release_claim_outcomes now fromiso dir sid validate_plan data
              cc_id commit validate force session_id d)
    as [Hfail | (c & completion & Hfind & Hok)];
    rewrite H in *; [discriminate|].
  injection Hok as -> _.
  destruct (find_split _ _ _ Hfind) as (before & after & Hsplit & Hc & Hb).
  apply eq_str_true in Hc.
  assert (Hbefore : forall x, In x before -> claim_cc_id x <> Some cc_id)
    by (intros x Hx; apply eq_str_false; now apply Hb).
  exists before, c, after; cbn [claims].
  repeat split; try assumption.
  rewrite Hsplit; apply remove_first_split.
  intros Hin; now apply (Hbefore c Hin).
Qed.

Lemma release_claim_removes_first_match_witness :
  exists before c after,
    claims Ex.store_data = before ++ c :: after
    /\ claims (snd (fst
         (release_claim Ex.now45 Ex.fromisoformat Ex.sessions_dir
            Ex.get_session_id Ex.validate_plan_for_completion Ex.store_data
            "agent-A" None false true None Ex.store_disk)))
       = before ++ after
    /\ claim_cc_id c = Some "agent-A"
    /\ (forall x, In x before -> claim_cc_id x <> Some "agent-A").
Proof.
  exact (release_claim_removes_first_match Ex.now45 Ex.fromisoformat
           Ex.sessions_dir Ex.get_session_id Ex.validate_plan_for_completion
           Ex.store_data "agent-A" None false true None Ex.store_disk _ _
           eq_refl).
Defined.

(** X9. Takeover fails open: a claim whose owner session has no record in
    the session directory (or when there is no session directory) can be
    released by any session, without [force]. *)
Theorem release_claim_takeover_of_absent_session :
  forall (now : Z) (fromisoformat : string -> option IsoTime)
         (sessions_dir : option (list (option Session)))
         (get_session_id : string)
         (validate_plan_for_completion : Z -> bool * nat)
         (data : Data) (cc_id : string) (commit : option string)
         (session_id : option string) (d : Disk) (c : Claim)
         (owner_session : string),
    find (fun claim => Py.eq_str (claim_cc_id claim) (Some cc_id))
         (claims data) = Some c ->
    claim_session_id c = Some owner_session ->
    find_session sessions_dir owner_session = None ->
    fst (fst (release_claim now fromisoformat sessions_dir get_session_id
                validate_plan_for_completion data cc_id commit false false
                session_id d))
    = true.
Proof.
  intros now fromiso dir sid validate_plan data cc_id commit session_id d c
    owner Hfind Howner Habsent.
  unfold release_claim; rewrite Hfind, Howner.
  unfold is_session_stale_default; rewrite is_session_stale_found.
  cbn [Py.get_or]; rewrite Habsent; cbn [fst andb negb].
  destruct (Py.truthy_str (Some owner) && true); [|reflexivity].
  destruct (negb (Py.eq_str (Some owner) (Some (Py.get_or session_id sid))));
    reflexivity.
Qed.

Lemma release_claim_takeover_of_absent_session_witness :
  find_session Ex.sessions_dir "session-1" = None
  /\ fst (fst (release_claim Ex.now45 Ex.fromisoformat Ex.sessions_dir
                 Ex.get_session_id Ex.validate_plan_for_completion
                 Ex.store_data "agent-A" None false false (Some "intruder")
                 Ex.store_disk))
     = true.
Proof.
  split; [reflexivity|].
  exact (release_claim_takeover_of_absent_session Ex.now45 Ex.fromisoformat
           Ex.sessions_dir Ex.get_session_id Ex.validate_plan_for_completion
           Ex.store_data "agent-A" None (Some "intruder") Ex.store_disk
           Ex.plan5 "session-1" eq_refl eq_refl eq_refl).
Defined.

(** X10. Claim then release: releasing, from the same session and without
    validation, a claim that [add_claim] has just granted succeeds and
    leaves the list of claims as it was before the claim. *)
Theorem release_after_claim_restores_claims :
  forall (now now' : Z) (get_plan_status : Z -> PlanStatus * list Z)
         (get_feature_names : list string) (get_session_id : string)
         (find_worktree_for_branch : string -> option string)
         (claim_file_writable : string -> bool)
         (fromisoformat : string -> option IsoTime)
         (sessions_dir : option (list (option Session)))
         (validate_plan_for_completion : Z -> bool * nat)
         (data : Data) (cc_id : string) (plan : option Z)
         (feature : option string) (task : string) (files : list string)
         (worktree_path : option string) (force force' : bool)
         (session_id commit : option string) (d : Disk)
         (data1 : Data) (d1 : Disk),
    add_claim now get_plan_status get_feature_names get_session_id
      find_worktree_for_branch claim_file_writable data cc_id plan feature
      task files worktree_path force session_id d
    = ((true, data1), d1) ->
    exists data2 d2,
      release_claim now' fromisoformat sessions_dir get_session_id
        validate_plan_for_completion data1 cc_id commit false force'
        session_id d1
      = ((true, data2), d2)
      /\ claims data2 = claims data.
Proof.
  intros now now' gps names sid fw cw fromiso dir validate_plan data cc_id
    plan feature task files wt force force' session_id commit d data1 d1 H.
  destruct (add_claim_outcomes now gps names sid fw cw data cc_id plan feature
              task files wt force session_id d)
    as [Hfail | (c & d' & Hok & _ & Hcc & _ & _ & _ & _ & Hsess & _ & Hdup & _)];
    rewrite H in *; [discriminate|].
  injection Hok as -> ->.
  assert (Hfind : find (fun claim => Py.eq_str (claim_cc_id claim) (Some cc_id))
                       (claims data ++ [c]) = Some c)
    by (apply find_app_last; [exact Hdup | now apply eq_str_true]).
  assert (Hrem : remove_first c (claims data ++ [c]) = claims data).
  { rewrite (remove_first_split c (claims data) []);
      [apply app_nil_r|].
    intros Hin.
    assert (Ht : existsb (fun claim => Py.eq_str (claim_cc_id claim)
                                         (Some cc_id)) (claims data) = true)
      by (apply existsb_exists; exists c; split;
          [exact Hin | now apply eq_str_true]).
    congruence. }
  unfold release_claim; cbn [claims]; rewrite Hfind, Hsess.
  assert (Hown : Py.eq_str (Some (Py.get_or session_id sid))
                           (Some (Py.get_or session_id sid)) = true)
    by now apply eq_str_true.
  rewrite Hown; cbn [negb andb].
  destruct (Py.truthy_str _ && negb force'); cbn [negb];
    unfold bind, save_yaml, ret; rewrite Hrem;
    eexists; eexists; split; reflexivity.
Qed.

Lemma release_after_claim_restores_claims_witness :
  exists data2 d2,
    release_claim (Ex.now45 + 1) Ex.fromisoformat Ex.sessions_dir
      Ex.get_session_id Ex.validate_plan_for_completion
      (snd (fst
         (add_claim Ex.now45 Ex.get_plan_status Ex.get_feature_names
            Ex.get_session_id Ex.find_worktree_for_branch
            Ex.claim_file_writable Ex.store_data "agent-B" (Some 6) None
            "fix" [] None false None Ex.store_disk)))
      "agent-B" None false false None
      (snd (add_claim Ex.now45 Ex.get_plan_status Ex.get_feature_names
              Ex.get_session_id Ex.find_worktree_for_branch
              Ex.claim_file_writable Ex.store_data "agent-B" (Some 6) None
              "fix" [] None false None Ex.store_disk))
    = ((true, data2), d2)
    /\ claims data2 = claims Ex.store_data.
Proof.
  exact (release_after_claim_restores_claims Ex.now45 (Ex.now45 + 1)
           Ex.get_plan_status Ex.get_feature_names Ex.get_session_id
           Ex.find_worktree_for_branch Ex.claim_file_writable Ex.fromisoformat
           Ex.sessions_dir Ex.validate_plan_for_completion Ex.store_data
           "agent-B" (Some 6) None "fix" [] None false false None None
           Ex.store_disk _ _ eq_refl).
Defined.

(** ** The cleanup paths *)

Section MergedFacts.

Variable now : Z.
Variable get_merged_branches : list string.

Lemma merged_loop_filter claims :
  List.length (fst (fst (merged_loop now get_merged_branches claims)))
  = List.length (filter (on_merged_branch get_merged_branches) claims)
  /\ snd (merged_loop now get_merged_branches claims)
     = filter (fun c => negb (on_merged_branch get_merged_branches c)) claims.
Proof.
  induction claims as [|c rest [IH1 IH2]]; simpl; [split; reflexivity|].
  destruct (merged_loop now get_merged_branches rest) as [[done wts] keep].
  fold (on_merged_branch get_merged_branches c).
  destruct (on_merged_branch get_merged_branches c); simpl in *;
    split; congruence.
Qed.

Lemma merged_loop_nothing claims :
  (forall c, In c claims -> on_merged_branch get_merged_branches c = false) ->
  merged_loop now get_merged_branches claims = ([], [], claims).
Proof.
  induction claims as [|c rest IH]; simpl; intros H; [reflexivity|].
  rewrite IH by (intros x Hx; apply H; now right).
  fold (on_merged_branch get_merged_branches c); rewrite (H c) by now left.
  reflexivity.
Qed.

Lemma cleanup_merged_claims_kept data d :
  claims (snd (fst (cleanup_merged_claims now get_merged_branches data d)))
  = filter (fun c => negb (on_merged_branch get_merged_branches c)) (claims data)
  /\ fst (fst (fst (cleanup_merged_claims now get_merged_branches data d)))
     = List.length (filter (on_merged_branch get_merged_branches) (claims data)).
Proof.
  unfold cleanup_merged_claims.
  destruct (nonempty get_merged_branches) eqn:Eb; cbn [negb].
  - destruct (merged_loop_filter (claims data)) as [Hn Hk].
    destruct (merged_loop now get_merged_branches (claims data))
      as [[done wts] keep].
    cbn [fst snd] in Hn, Hk; subst keep.
    destruct (Nat.ltb 0 (List.length done)) eqn:E;
      unfold bind, save_yaml, ret; cbn [fst snd claims];
      [split; [reflexivity | exact Hn]|].
    apply Nat.ltb_ge in E.
    assert (Hz : List.length (filter (on_merged_branch get_merged_branches) (claims data)) = O) by lia.
    split; [|lia].
    clear - Hz; induction (claims data) as [|c l IH]; simpl in *;
      [reflexivity|].
    destruct (on_merged_branch get_merged_branches c); simpl in *; [discriminate|].
    now rewrite <- IH.
  - unfold on_merged_branch; destruct get_merged_branches; [|discriminate].
    unfold ret; cbn [fst snd]; split.
    + clear; induction (claims data) as [|c l IH]; simpl; [reflexivity|].
      f_equal; exact IH.
    + clear; induction (claims data) as [|c l IH]; simpl; [reflexivity|].
      exact IH.
Qed.

Lemma cleanup_merged_claims_nothing data d :
  (forall c, In c (claims data) -> on_merged_branch get_merged_branches c = false) ->
  cleanup_merged_claims now get_merged_branches data d = ((O, [], data), d).
Proof.
  intros H; unfold cleanup_merged_claims.
  destruct (negb (nonempty get_merged_branches)); [reflexivity|].
  rewrite merged_loop_nothing by exact H.
  reflexivity.
Qed.

End MergedFacts.

(** X11. [cleanup_merged_claims] keeps, in order, exactly the claims whose
    cc_id is not a merged branch and counts the others; run again on its
    own result it cleans nothing and writes nothing. *)
Theorem cleanup_merged_claims_partition_and_idempotence :
  forall (now now' : Z) (get_merged_branches : list string) (data : Data)
         (d : Disk),
    let run := cleanup_merged_claims now get_merged_branches data d in
    claims (snd (fst run)) = filter (fun c => negb (on_merged_branch get_merged_branches c)) (claims data)
    /\ fst (fst (fst run)) = List.length (filter (on_merged_branch get_merged_branches) (claims data))
    /\ cleanup_merged_claims now' get_merged_branches (snd (fst run)) (snd run)
       = ((O, [], snd (fst run)), snd run).
Proof.
  intros now now' branches data d run.
  destruct (cleanup_merged_claims_kept now branches data d) as [Hk Hn].
  fold run in Hk, Hn.
  split; [exact Hk | split; [exact Hn|]].
  apply cleanup_merged_claims_nothing.
  intros c Hc; rewrite Hk in Hc.
  apply filter_In in Hc; destruct Hc as [_ Hc].
  now apply negb_true_iff in Hc.
Qed.

(** The guard ledger, cleaned of merged branches: the claim of
    "plan-5-done" goes to the history with the reason "branch_merged". *)
Example cleanup_merged_claims_run :
  cleanup_merged_claims Ex.now45 Ex.get_merged_branches Ex.guard_data
    Ex.guard_disk
  = ((1%nat, [Ex.merged_wt],
      mkData [Ex.claim_live]
        [Ex.done "old";
         mkCompletion "plan-5-done" (Some 5) (Some "task") (Strftime Ex.now45)
                      None true (Some "branch_merged")]),
     mkDisk
       (Some (mkData [Ex.claim_live]
                [Ex.done "old";
                 mkCompletion "plan-5-done" (Some 5) (Some "task")
                              (Strftime Ex.now45) None true
                              (Some "branch_merged")]))
       []).
Proof.
  reflexivity.
Qed.

(** X12. The four paths of [check_claims.py] that end a claim keep the
    history bounded: a successful explicit release appends one entry without
    a reason and keeps the last 20; merged-branch cleanup that cleans a
    claim appends entries with the reason "branch_merged" and keeps the last
    50; orphan and stale cleanup from the command line either touch nothing
    or append entries with their reason and keep the last 50.  In each case
    the ledger saved is the ledger returned. *)
Theorem check_claims_history_bounds :
  forall (now : Z) (fromisoformat : string -> option IsoTime)
         (sessions_dir : option (list (option Session)))
         (fs : string -> option Worktree) (get_session_id : string)
         (get_merged_branches : list string)
         (validate_plan_for_completion : Z -> bool * nat)
         (data : Data) (d : Disk),
    (forall cc_id commit validate force session_id data' d',
        release_claim now fromisoformat sessions_dir get_session_id
          validate_plan_for_completion data cc_id commit validate force
          session_id d
        = ((true, data'), d') ->
        (List.length (completed data') <= 20)%nat
        /\ (exists completion,
              comp_cc_id completion = cc_id /\ reason completion = None
              /\ completed data'
                 = Py.last_n 20 (completed data ++ [completion]))
        /\ ledger_file d' = Some data')
    /\ (forall n worktrees data' d',
          cleanup_merged_claims now get_merged_branches data d
          = ((n, worktrees, data'), d') ->
          (0 < n)%nat ->
          (List.length (completed data') <= 50)%nat
          /\ (exists done,
                List.length done = n
                /\ Forall (fun r => reason r = Some "branch_merged") done
                /\ completed data' = Py.last_n 50 (completed data ++ done))
          /\ ledger_file d' = Some data')
    /\ (forall dry_run,
          main_cleanup_orphaned now fs data dry_run d = (data, d)
          \/ exists done,
               Forall (fun r => reason r = Some "auto_released_orphaned") done
               /\ (List.length
                     (completed
                        (fst (main_cleanup_orphaned now fs data dry_run d)))
                   <= 50)%nat
               /\ completed
                    (fst (main_cleanup_orphaned now fs data dry_run d))
                  = Py.last_n 50 (completed data ++ done)
               /\ ledger_file
                    (snd (main_cleanup_orphaned now fs data dry_run d))
                  = Some (fst (main_cleanup_orphaned now fs data dry_run d)))
    /\ (forall stale_hours dry_run,
          main_cleanup_stale now fs data stale_hours dry_run d = (data, d)
          \/ exists done,
               Forall (fun r => reason r = Some "auto_released_stale") done
               /\ (List.length
                     (completed
                        (fst (main_cleanup_stale now fs data stale_hours
                                dry_run d)))
                   <= 50)%nat
               /\ completed
                    (fst (main_cleanup_stale now fs data stale_hours dry_run
                            d))
                  = Py.last_n 50 (completed data ++ done)
               /\ ledger_file
                    (snd (main_cleanup_stale now fs data stale_hours dry_run
                            d))
                  = Some (fst (main_cleanup_stale now fs data stale_hours
                                 dry_run d))).
Proof.
  intros now fromiso dir fs sid branches validate_plan data d.
  split; [|split; [|split]].
  - intros cc_id commit validate force session_id data' d'.
    apply release_claim_history_bounded.
  - intros n worktrees data' d'.
    apply cleanup_merged_claims_history_bounded.
  - intros dry_run; apply main_cleanup_orphaned_history_bounded.
  - intros stale_hours dry_run; apply main_cleanup_stale_history_bounded.
Qed.

Lemma check_claims_history_bounds_witness :
  (List.length
     (completed (snd (fst
        (release_claim Ex.now45 Ex.fromisoformat Ex.sessions_dir
           Ex.get_session_id Ex.validate_plan_for_completion Ex.full_data
           "plan-6" None false true None Ex.full_disk)))) <= 20)%nat
  /\ (List.length
        (completed (snd (fst
           (cleanup_merged_claims Ex.now45 Ex.get_merged_branches
              Ex.full_data Ex.full_disk)))) <= 50)%nat.
Proof.
  destruct (check_claims_history_bounds Ex.now45 Ex.fromisoformat
              Ex.sessions_dir Ex.fs Ex.get_session_id Ex.get_merged_branches
              Ex.validate_plan_for_completion Ex.full_data Ex.full_disk)
    as (released & merged & _).
  split.
  - exact (proj1 (released "plan-6" None false true None _ _ eq_refl)).
  - exact (proj1 (merged 1%nat _ _ _ eq_refl Nat.lt_0_1)).
Defined.

Section StaleCleanupFacts.

Variable now : Z.
Variable fs : string -> option Worktree.

Lemma orphaned_is_stale claim max_hours :
  orphaned fs claim = true -> fst (is_claim_stale now fs claim max_hours) = true.
Proof.
  unfold orphaned, is_claim_stale.
  destruct (negb (Py.truthy_str (claim_worktree_path claim)));
    [reflexivity|].
  simpl; intros ->; reflexivity.
Qed.

End StaleCleanupFacts.

(** X13. Every orphan is stale: a claim that [cleanup_orphaned_claims]
    would clean is reported stale by [is_claim_stale] at every threshold and
    every time, so the ids cleaned as orphans are among the ids reported by
    [cleanup_stale_claims]. *)
Theorem orphans_are_reported_stale :
  forall (now : Z) (fs : string -> option Worktree) (claims : list Claim)
         (max_hours : Z) (dry_run dry_run' : bool) (d : Disk) (cc : string),
    In cc (fst (cleanup_orphaned_claims fs claims dry_run)) ->
    In cc (fst (fst (cleanup_stale_claims now fs claims max_hours dry_run' d))).
Proof.
  intros now fs claims max_hours dry_run dry_run' d cc.
  rewrite cleanup_orphaned_claims_filter, cleanup_stale_claims_run.
  cbn [fst]; rewrite !in_map_iff.
  intros (c & Hcc & Hin); exists c; split; [exact Hcc|].
  apply filter_In in Hin; destruct Hin as [Hin Ho].
  apply filter_In; split; [exact Hin|].
  now apply orphaned_is_stale.
Qed.

Lemma orphans_are_reported_stale_witness :
  In "plan-3"
     (fst (cleanup_orphaned_claims Ex.fs
             [Ex.claim_nine; Ex.claim_gone; Ex.claim_seven] false))
  /\ In "plan-3"
        (fst (fst (cleanup_stale_claims Ex.noon Ex.fs
                     [Ex.claim_nine; Ex.claim_gone; Ex.claim_seven] 1000 true
                     Ex.store_disk))).
Proof.
  assert (H : In "plan-3"
                 (fst (cleanup_orphaned_claims Ex.fs
                         [Ex.claim_nine; Ex.claim_gone; Ex.claim_seven] false)))
    by (left; reflexivity).
  split; [exact H|].
  exact (orphans_are_reported_stale Ex.noon Ex.fs
           [Ex.claim_nine; Ex.claim_gone; Ex.claim_seven] 1000 false true
           Ex.store_disk "plan-3" H).
Defined.

(** X14. Staleness only grows: a claim stale at some time and threshold is
    stale at every later time and every smaller threshold, on the same file
    system. *)
Theorem is_claim_stale_monotone :
  forall (now now' : Z) (fs : string -> option Worktree) (claim : Claim)
         (max_hours max_hours' : Z),
    fst (is_claim_stale now fs claim max_hours) = true ->
    now <= now' ->
    max_hours' <= max_hours ->
    fst (is_claim_stale now' fs claim max_hours') = true.
Proof.
  intros now now' fs claim h h' H Hnow Hh.
  unfold is_claim_stale in *.
  destruct (negb (Py.truthy_str (claim_worktree_path claim)));
    [reflexivity|].
  destruct (negb (path_exists fs _)); [reflexivity|].
  destruct (get_worktree_last_modified fs _) as [t|]; [|reflexivity].
  destruct (Z.gtb_spec (now - t) (h * Py.microseconds_per_hour)) as [Hgt|Hle];
    cbn [fst] in H; [|discriminate].
  destruct (Z.gtb_spec (now' - t) (h' * Py.microseconds_per_hour))
    as [Hgt'|Hle']; [reflexivity|].
  unfold Py.microseconds_per_hour in *; lia.
Qed.

Lemma is_claim_stale_monotone_witness :
  fst (is_claim_stale Ex.noon Ex.fs Ex.claim_nine 8) = true
  /\ fst (is_claim_stale (Ex.noon + Ex.hours 1) Ex.fs Ex.claim_nine 4) = true.
Proof.
  assert (H : fst (is_claim_stale Ex.noon Ex.fs Ex.claim_nine 8) = true)
    by reflexivity.
  split; [exact H|].
  apply (is_claim_stale_monotone Ex.noon (Ex.noon + Ex.hours 1) Ex.fs
           Ex.claim_nine 8 4 H).
  - vm_compute; discriminate.
  - vm_compute; discriminate.
Defined.

(** X15. After [--cleanup-orphaned] without [--dry-run], the claims left
    are exactly the claims that have a worktree path that exists. *)
Theorem main_cleanup_orphaned_leaves_claims_with_worktree :
  forall (now : Z) (fs : string -> option Worktree) (data : Data) (d : Disk)
         (c : Claim),
    In c (claims (fst (main_cleanup_orphaned now fs data false d)))
    <-> In c (claims data)
        /\ exists p, claim_worktree_path c = Some p /\ p <> ""
                     /\ path_exists fs p = true.
Proof.
  intros now fs data d c.
  assert (Horph : orphaned fs c = false
                  <-> exists p, claim_worktree_path c = Some p /\ p <> ""
                                /\ path_exists fs p = true).
  { unfold orphaned; rewrite orb_false_iff, !negb_false_iff, truthy_str_spec.
    split.
    - intros [(p & Hp & Hne) He]; rewrite Hp in He; exists p; auto.
    - intros (p & Hp & Hne & He); rewrite Hp; split; [exists p; auto | exact He]. }
  rewrite <- Horph.
  unfold main_cleanup_orphaned; rewrite cleanup_orphaned_claims_filter.
  rewrite andb_true_r.
  destruct (map cc_id_or_unknown (filter (orphaned fs) (claims data)))
    as [|cc ccs] eqn:E; cbn [nonempty].
  - unfold ret; cbn [fst].
    apply map_eq_nil in E.
    split; [|tauto].
    intros Hin; split; [exact Hin|].
    destruct (orphaned fs c) eqn:Eo; [|reflexivity].
    assert (Hf : In c (filter (orphaned fs) (claims data)))
      by (apply filter_In; split; assumption).
    rewrite E in Hf; destruct Hf.
  - unfold bind, save_yaml, ret; cbn [fst claims].
    rewrite filter_In, negb_true_iff; tauto.
Qed.

(** X16. After [--cleanup-stale] without [--dry-run]: every claim left was
    there before, and a claim left that has a cc_id is not stale. *)
Theorem main_cleanup_stale_leaves_fresh_claims :
  forall (now : Z) (fs : string -> option Worktree) (data : Data)
         (stale_hours : Z) (d : Disk),
    let after := claims (fst (main_cleanup_stale now fs data stale_hours
                                false d)) in
    (forall c, In c after -> In c (claims data))
    /\ (forall c cc, In c after -> claim_cc_id c = Some cc ->
                     fst (is_claim_stale now fs c stale_hours) = false).
Proof.
  intros now fs data h d after; subst after.
  unfold main_cleanup_stale, bind.
  rewrite cleanup_stale_claims_run, andb_true_r.
  set (stale := fun c => fst (is_claim_stale now fs c h)).
  assert (Hid : forall c cc, In c (claims data) -> claim_cc_id c = Some cc ->
                             stale c = true ->
                             In cc (map cc_id_or_unknown
                                      (filter stale (claims data)))).
  { intros c cc Hin Hcc Hs; apply in_map_iff; exists c; split.
    - unfold cc_id_or_unknown; now rewrite Hcc.
    - apply filter_In; split; assumption. }
  destruct (map cc_id_or_unknown (filter stale (claims data)))
    as [|cc0 ccs] eqn:E; cbn [nonempty].
  - unfold ret; cbn [fst]; repeat split; try tauto.
    intros c cc Hin Hcc.
    destruct (stale c) eqn:Es; [|exact Es].
    destruct (Hid c cc Hin Hcc Es).
  - unfold save_yaml, ret; cbn [fst claims]; repeat split.
    + intros c Hc; apply filter_In in Hc; tauto.
    + intros c cc Hc Hcc; apply filter_In in Hc; destruct Hc as [Hin Hkeep].
      rewrite Hcc in Hkeep; apply negb_true_iff in Hkeep.
      destruct (stale c) eqn:Es; [|exact Es].
      assert (Ht : existsb (String.eqb cc) (cc0 :: ccs) = true).
      { apply existsb_exists; exists cc; split;
          [exact (Hid c cc Hin Hcc Es) | apply String.eqb_refl]. }
      congruence.
Qed.

(** A ledger of two claims, one of them without the key [cc_id]: its
    worktree is gone, so it is stale and reported as "unknown";
    [--cleanup-stale] records a completion for "unknown" and, no claim
    having that cc_id, leaves both claims in the ledger. *)
Example main_cleanup_stale_keeps_anonymous_claim :
  fst (main_cleanup_stale Ex.noon Ex.fs
         (mkData [Ex.claim_anonymous; Ex.claim_seven] []) 8 false
         Ex.store_disk)
  = mkData [Ex.claim_anonymous; Ex.claim_seven]
      [mkCompletion "unknown" None None (Isoformat Ex.noon) None false
                    (Some "auto_released_stale")].
Proof.
  reflexivity.
Qed.

(** ** The sampling of [get_worktree_last_modified] *)

Lemma scan_files_saturated entries most_recent checked_files :
  (max_files <= checked_files)%nat ->
  scan_files entries most_recent checked_files = (most_recent, checked_files).
Proof.
  intros H; destruct entries as [|e rest]; [reflexivity|].
  cbn [scan_files]; apply Nat.leb_le in H; now rewrite H.
Qed.

Lemma scan_dirs_saturated wt dirs most_recent checked_files :
  (max_files <= checked_files)%nat ->
  scan_dirs wt dirs most_recent checked_files = most_recent.
Proof.
  intros H; induction dirs as [|dir rest IH]; simpl; [reflexivity|].
  destruct (wt_subtree wt dir) as [entries|]; [|exact IH].
  now rewrite scan_files_saturated.
Qed.

Lemma scan_files_full entries extra most_recent checked_files :
  (max_files <= checked_files + List.length (filter sampled entries))%nat ->
  scan_files (entries ++ extra) most_recent checked_files
  = scan_files entries most_recent checked_files
  /\ snd (scan_files entries most_recent checked_files)
     = Nat.max checked_files max_files.
Proof.
  revert most_recent checked_files.
  induction entries as [|e rest IH]; intros most_recent checked H.
  - simpl in *; rewrite Nat.add_0_r in H.
    rewrite scan_files_saturated by exact H.
    split; [reflexivity | simpl; lia].
  - cbn [app scan_files].
    destruct (Nat.leb max_files checked) eqn:E.
    + apply Nat.leb_le in E; split; [reflexivity | simpl; lia].
    + apply Nat.leb_gt in E.
      cbn [filter] in H; unfold sampled in H at 1.
      destruct (fe_is_file e && negb (Py.startswith (fe_name e) ".")).
      * destruct (fe_mtime e) as [m|]; cbn [andb List.length] in H.
        -- destruct (IH (newer most_recent m) (S checked)) as [H1 H2];
             [lia|].
           split; [exact H1 | rewrite H2; unfold max_files in *; lia].
        -- now apply IH.
      * cbn [andb] in H; now apply IH.
Qed.

(** X17. The sampling is bounded: once a source directory has yielded a
    hundred countable files (regular, not hidden, readable), nothing that
    follows is looked at: neither the rest of that directory nor any later
    source directory changes the result. *)
Theorem sampling_stops_after_max_files :
  forall (entries extra : list FileEntry) (most_recent : option Z)
         (wt : Worktree) (dirs : list string),
    (max_files <= List.length (filter sampled entries))%nat ->
    scan_files (entries ++ extra) most_recent 0
    = scan_files entries most_recent 0
    /\ scan_dirs wt dirs (fst (scan_files entries most_recent 0))
         (snd (scan_files entries most_recent 0))
       = fst (scan_files entries most_recent 0).
Proof.
  intros entries extra most_recent wt dirs H.
  destruct (scan_files_full entries extra most_recent 0 H) as [H1 H2].
  split; [exact H1|].
  apply scan_dirs_saturated; rewrite H2; simpl; lia.
Qed.

Lemma sampling_stops_after_max_files_witness :
  (max_files <= List.length (filter sampled Ex.hundred_files))%nat
  /\ scan_files (Ex.hundred_files ++ [Ex.fresh_file]) None 0
     = scan_files Ex.hundred_files None 0
  /\ scan_dirs Ex.nine ["src"]
       (fst (scan_files Ex.hundred_files None 0))
       (snd (scan_files Ex.hundred_files None 0))
     = fst (scan_files Ex.hundred_files None 0).
Proof.
  assert (H : (max_files <= List.length (filter sampled Ex.hundred_files))%nat)
    by (vm_compute; apply le_n).
  split; [exact H|].
  exact (sampling_stops_after_max_files Ex.hundred_files [Ex.fresh_file] None
           Ex.nine ["src"] H).
Defined.

Lemma newer_bounds most_recent mtime :
  exists t, newer most_recent mtime = Some t /\ mtime <= t
            /\ (forall m, most_recent = Some m -> m <= t).
Proof.
  unfold newer; destruct most_recent as [m|].
  - destruct (Z.gtb_spec mtime m); eexists; repeat split; try lia;
      intros m' [= <-]; lia.
  - exists mtime; repeat split; [lia | discriminate].
Qed.

Lemma scan_files_grows entries m checked_files :
  exists t, fst (scan_files entries (Some m) checked_files) = Some t /\ m <= t.
Proof.
  revert m checked_files; induction entries as [|e rest IH];
    intros m checked; cbn [scan_files].
  - exists m; split; [reflexivity | lia].
  - destruct (Nat.leb max_files checked);
      [exists m; split; [reflexivity | lia]|].
    destruct (fe_is_file e && _); [|apply IH].
    destruct (fe_mtime e) as [mt|]; [|apply IH].
    destruct (newer_bounds (Some m) mt) as (t & -> & _ & Hm).
    destruct (IH t (S checked)) as (t' & Ht' & Hle).
    exists t'; split; [exact Ht' | specialize (Hm m eq_refl); lia].
Qed.

Lemma scan_dirs_grows wt dirs m checked_files :
  exists t, scan_dirs wt dirs (Some m) checked_files = Some t /\ m <= t.
Proof.
  revert m checked_files; induction dirs as [|dir rest IH];
    intros m checked; simpl.
  - exists m; split; [reflexivity | lia].
  - destruct (wt_subtree wt dir) as [entries|]; [|apply IH].
    destruct (scan_files_grows entries m checked) as (t & Ht & Hle).
    destruct (scan_files entries (Some m) checked) as [mr c].
    cbn [fst] in Ht; subst mr.
    destruct (IH t c) as (t' & Ht' & Hle').
    exists t'; split; [exact Ht' | lia].
Qed.

(** X18. A recent git index keeps a claim alive: when the worktree of a
    claim is a directory whose index was written within the threshold, the
    claim is not stale, however old its files are. *)
Theorem recent_git_index_means_not_stale :
  forall (now : Z) (fs : string -> option Worktree) (claim : Claim)
         (p : string) (wt : Worktree) (index_mtime max_hours : Z),
    claim_worktree_path claim = Some p ->
    p <> "" ->
    fs p = Some wt ->
    wt_is_dir wt = true ->
    wt_git_index wt = IndexFound (Some index_mtime) ->
    now - index_mtime <= max_hours * (3600 * 1000000) ->
    fst (is_claim_stale now fs claim max_hours) = false.
Proof.
  intros now fs claim p wt m h Hpath Hne Hfs Hdir Hindex Hrecent.
  unfold is_claim_stale, path_exists, get_worktree_last_modified.
  rewrite Hpath; cbn [Py.truthy_str Py.get_or].
  apply String.eqb_neq in Hne; rewrite Hne; cbn [negb].
  rewrite Hfs, Hdir, Hindex; cbn [negb newer].
  destruct (scan_dirs_grows wt source_dirs m 0) as (t & -> & Hle).
  destruct (Z.gtb_spec (now - t) (h * Py.microseconds_per_hour));
    [|reflexivity].
  unfold Py.microseconds_per_hour in *; lia.
Qed.

Lemma recent_git_index_means_not_stale_witness :
  fst (is_claim_stale Ex.noon Ex.staged_fs Ex.claim_staged 8) = false.
Proof.
  apply (recent_git_index_means_not_stale Ex.noon Ex.staged_fs Ex.claim_staged
           "/repo/worktrees/staged" Ex.staged (Ex.noon - Ex.hours 1) 8).
  - reflexivity.
  - discriminate.
  - reflexivity.
  - reflexivity.
  - reflexivity.
  - vm_compute; discriminate.
Defined.

(** ** The ownership guard *)

Section GuardFacts.

Variable now : Z.
Variable fromisoformat : string -> option IsoTime.
Variable resolve : string -> string.
Variable abspath : string -> string.
Variable get_worktree_branch : string -> option string.
Variable is_branch_merged : string -> option bool.
Variable git_status : string -> option string.
Variable session_marker : string -> option (option string).
Variable HAS_PSUTIL : bool.
Variable process_iter : list SafeWorktreeRemove.Process.
Variable getpid : Z.

Lemma marker_and_process_checks_cases worktree_path force claim_info :
  let v :=
    SafeWorktreeRemove.marker_and_process_checks now fromisoformat abspath
      session_marker HAS_PSUTIL process_iter getpid worktree_path force
      claim_info in
  (force = false /\ fst (fst v) = true
   /\ (snd (fst v) = "session_marker" \/ snd (fst v) = "process")
   /\ RemoveWorktree.info_given (snd v) = true)
  \/ (fst (fst v) = false /\ snd (fst v) = "").
Proof.
  unfold SafeWorktreeRemove.marker_and_process_checks.
  destruct (SafeWorktreeRemove.check_session_marker_recent _ _ _ _)
    as [is_recent marker_time].
  destruct force; rewrite ?andb_false_r, ?andb_true_r;
    [right; split; reflexivity|].
  destruct is_recent;
    [left; cbn [andb fst snd RemoveWorktree.info_given];
     repeat split; left; reflexivity|].
  cbn [andb].
  destruct (nonempty _);
    [left; cbn [fst snd RemoveWorktree.info_given];
     repeat split; right; reflexivity
    | right; split; reflexivity].
Qed.

Lemma check_worktree_claimed_not_empty ledger worktree_path claim :
  SafeWorktreeRemove.check_worktree_claimed resolve ledger worktree_path
  = (true, Some claim) ->
  claim_is_empty claim = false.
Proof.
  unfold SafeWorktreeRemove.check_worktree_claimed.
  destruct ledger as [data|]; [|discriminate].
  destruct (find _ (claims data)) as [c|] eqn:E; [|discriminate].
  intros [= <-]; apply find_some in E; destruct E as [_ E].
  apply andb_true_iff in E; destruct E as [E _].
  destruct c as [a b e f g h [p|] l]; [|discriminate].
  destruct a, b, e, f, g, h; reflexivity.
Qed.

Lemma check_worktree_claimed_shape ledger worktree_path :
  (exists claim,
      SafeWorktreeRemove.check_worktree_claimed resolve ledger worktree_path
      = (true, Some claim))
  \/ SafeWorktreeRemove.check_worktree_claimed resolve ledger worktree_path
     = (false, None).
Proof.
  unfold SafeWorktreeRemove.check_worktree_claimed.
  destruct ledger as [data|]; [|right; reflexivity].
  destruct (find _ (claims data)) as [c|];
    [left; exists c; reflexivity | right; reflexivity].
Qed.

(** The verdicts of [should_block_removal], when it has one: blocked with
    one of the four reasons and an info, never under [force]; or allowed,
    with the reason "merged_safe" and the claim, or with no reason. *)
Lemma should_block_removal_cases ledger worktree_path force my_identity v :
  SafeWorktreeRemove.should_block_removal now fromisoformat resolve abspath
    get_worktree_branch is_branch_merged git_status session_marker
    HAS_PSUTIL process_iter getpid ledger worktree_path force my_identity
  = Some v ->
  (force = false /\ fst (fst v) = true
   /\ (snd (fst v) = "ownership" \/ snd (fst v) = "claim"
       \/ snd (fst v) = "session_marker" \/ snd (fst v) = "process")
   /\ RemoveWorktree.info_given (snd v) = true)
  \/ (force = false /\ fst (fst v) = false /\ snd (fst v) = "merged_safe"
      /\ exists claim, snd v = Some (SafeWorktreeRemove.ClaimInfo claim)
                       /\ SafeWorktreeRemove.check_worktree_claimed resolve
                            ledger worktree_path = (true, Some claim))
  \/ (fst (fst v) = false /\ snd (fst v) = "").
Proof.
  unfold SafeWorktreeRemove.should_block_removal.
  destruct (check_worktree_claimed_shape ledger worktree_path)
    as [(claim & Hc) | Hc]; rewrite Hc.
  - pose proof (check_worktree_claimed_not_empty _ _ _ Hc) as Hne.
    assert (Hown :
              forall reason,
                reason = "ownership" \/ reason = "claim" ->
                Some (true, reason,
                      Some (SafeWorktreeRemove.ClaimInfo claim)) = Some v ->
                force = false ->
                (force = false /\ fst (fst v) = true
                 /\ (snd (fst v) = "ownership" \/ snd (fst v) = "claim"
                     \/ snd (fst v) = "session_marker"
                     \/ snd (fst v) = "process")
                 /\ RemoveWorktree.info_given (snd v) = true)).
    { intros reason Hr [= <-] Hf; cbn [fst snd RemoveWorktree.info_given].
      rewrite Hne; repeat split; try assumption.
      destruct Hr as [-> | ->]; auto. }
    destruct force; cbn [andb negb].
    + intros [= <-].
      destruct (marker_and_process_checks_cases worktree_path true
                  (Some claim)) as [(Hf & _) | H]; [discriminate|].
      right; right; exact H.
    + destruct (negb (SafeWorktreeRemove.is_mine my_identity claim));
        [|intros Hv; left; apply (Hown "claim"); auto].
      destruct (Py.truthy_str _);
        [|intros Hv; left; apply (Hown "ownership"); auto].
      destruct (is_branch_merged _) as [[|]|]; [| |discriminate];
        [|intros Hv; left; apply (Hown "ownership"); auto].
      destruct (negb (SafeWorktreeRemove.has_uncommitted_changes _ _));
        [|intros Hv; left; apply (Hown "ownership"); auto].
      intros [= <-]; right; left; cbn [fst snd]; repeat split.
      exists claim; split; reflexivity.
  - intros [= <-].
    destruct (marker_and_process_checks_cases worktree_path force None)
      as [(Hf & Hb & Hr & Hi) | H].
    + left; repeat split; try assumption.
      destruct Hr as [Hr | Hr]; auto.
    + right; right; exact H.
Qed.

(** Under [force] the merge check is not consulted, and the guard has a
    verdict. *)
Lemma should_block_removal_forced ledger worktree_path my_identity :
  exists v,
    SafeWorktreeRemove.should_block_removal now fromisoformat resolve abspath
      get_worktree_branch is_branch_merged git_status session_marker
      HAS_PSUTIL process_iter getpid ledger worktree_path true my_identity
    = Some v.
Proof.
  unfold SafeWorktreeRemove.should_block_removal.
  destruct (SafeWorktreeRemove.check_worktree_claimed resolve ledger
              worktree_path) as [is_claimed [claim|]];
    rewrite ?andb_false_r; eexists; reflexivity.
Qed.

End GuardFacts.

(** X19. [force] silences the guard: with [force] the guard has a verdict,
    it is never a block and carries no reason, whatever the claim, the merge
    check, the session marker and the process table. *)
Theorem force_never_blocks :
  forall (now : Z) (fromisoformat : string -> option IsoTime)
         (resolve abspath : string -> string)
         (get_worktree_branch : string -> option string)
         (is_branch_merged : string -> option bool)
         (git_status : string -> option string)
         (session_marker : string -> option (option string))
         (HAS_PSUTIL : bool)
         (process_iter : list SafeWorktreeRemove.Process) (getpid : Z)
         (ledger : option Data) (worktree_path : string)
         (my_identity : SafeWorktreeRemove.Identity),
    option_map fst
      (SafeWorktreeRemove.should_block_removal now fromisoformat resolve
         abspath get_worktree_branch is_branch_merged git_status
         session_marker HAS_PSUTIL process_iter getpid ledger worktree_path
         true my_identity)
    = Some (false, "").
Proof.
  intros now fromiso resolve abspath gwb ibm status marker psutil procs pid
    ledger path me.
  destruct (should_block_removal_forced now fromiso resolve abspath gwb ibm
              status marker psutil procs pid ledger path me) as (v & Hv).
  rewrite Hv; cbn [option_map].
  destruct (should_block_removal_cases now fromiso resolve abspath gwb ibm
              status marker psutil procs pid ledger path true me v Hv)
    as [(Hf & _) | [(Hf & _) | (Hb & Hr)]]; try discriminate.
  destruct v as [[b r] i]; cbn [fst snd] in *; now subst.
Qed.

(** X20. The owner is blocked too: when the claim of the worktree carries
    the caller's branch or directory name as cc_id, the verdict without
    [force] is (block, "claim", the claim), even if the branch is merged and
    the worktree is clean. *)
Theorem own_claim_blocks_removal :
  forall (now : Z) (fromisoformat : string -> option IsoTime)
         (resolve abspath : string -> string)
         (get_worktree_branch : string -> option string)
         (is_branch_merged : string -> option bool)
         (git_status : string -> option string)
         (session_marker : string -> option (option string))
         (HAS_PSUTIL : bool)
         (process_iter : list SafeWorktreeRemove.Process) (getpid : Z)
         (ledger : option Data) (worktree_path : string)
         (my_identity : SafeWorktreeRemove.Identity) (claim : Claim)
         (owner : string),
    SafeWorktreeRemove.check_worktree_claimed resolve ledger worktree_path
    = (true, Some claim) ->
    claim_cc_id claim = Some owner ->
    owner <> "" ->
    owner = SafeWorktreeRemove.id_branch my_identity
    \/ owner = SafeWorktreeRemove.id_cwd my_identity ->
    SafeWorktreeRemove.should_block_removal now fromisoformat resolve abspath
      get_worktree_branch is_branch_merged git_status session_marker
      HAS_PSUTIL process_iter getpid ledger worktree_path false my_identity
    = Some (true, "claim", Some (SafeWorktreeRemove.ClaimInfo claim)).
Proof.
  intros now fromiso resolve abspath gwb ibm status marker psutil procs pid
    ledger path me claim owner Hclaimed Howner Hne Hmine.
  unfold SafeWorktreeRemove.should_block_removal.
  rewrite Hclaimed; cbn [andb negb].
  assert (Hm : SafeWorktreeRemove.is_mine me claim = true).
  { unfold SafeWorktreeRemove.is_mine; rewrite Howner; cbn [Py.get_or].
    apply String.eqb_neq in Hne; rewrite Hne; cbn [negb andb].
    destruct Hmine as [<- | <-]; rewrite String.eqb_refl;
      [reflexivity | apply orb_true_r]. }
  now rewrite Hm.
Qed.

Lemma own_claim_blocks_removal_witness :
  SafeWorktreeRemove.should_block_removal Ex.now45 Ex.fromisoformat Ex.resolve
    Ex.abspath Ex.get_worktree_branch (fun _ => Some true) Ex.git_status
    (fun _ => None) false [] Ex.getpid (Some Ex.guard_data) Ex.live_wt false
    Ex.owner_of_live
  = Some (true, "claim", Some (SafeWorktreeRemove.ClaimInfo Ex.claim_live)).
Proof.
  apply (own_claim_blocks_removal Ex.now45 Ex.fromisoformat Ex.resolve
           Ex.abspath Ex.get_worktree_branch (fun _ => Some true)
           Ex.git_status
           (fun _ => None) false [] Ex.getpid (Some Ex.guard_data) Ex.live_wt
           Ex.owner_of_live Ex.claim_live "plan-6").
  - reflexivity.
  - reflexivity.
  - discriminate.
  - left; reflexivity.
Defined.

Lemma prefix_append (p s : string) :
  String.prefix p s = true <-> exists t, s = (p ++ t)%string.
Proof.
  revert s; induction p as [|a p IH]; intros [|b s]; simpl.
  - split; [intros _; exists ""; reflexivity | reflexivity].
  - split; [intros _; exists (String b s); reflexivity | reflexivity].
  - split; [discriminate | intros (t & Ht); discriminate].
  - destruct (Ascii.ascii_dec a b) as [-> | Hab].
    + rewrite IH; split; intros (t & Ht); exists t;
        [now subst | now injection Ht].
    + split; [discriminate|].
      intros (t & Ht); injection Ht as Hb _; congruence.
Qed.

(** X21. The processes reported for a worktree are exactly the processes,
    other than the caller, whose working directory is the absolute path of
    the worktree followed by any text, when psutil is available, and none
    otherwise.  The test is on the text of the path: a directory next to
    the worktree whose name extends the worktree's name counts as inside. *)
Theorem processes_using_worktree_characterised :
  forall (abspath : string -> string) (HAS_PSUTIL : bool)
         (process_iter : list SafeWorktreeRemove.Process) (getpid : Z)
         (worktree_path : string) (proc : SafeWorktreeRemove.Process),
    In proc
       (SafeWorktreeRemove.check_processes_using_worktree abspath HAS_PSUTIL
          process_iter getpid worktree_path)
    <-> HAS_PSUTIL = true
        /\ In proc process_iter
        /\ SafeWorktreeRemove.proc_pid proc <> getpid
        /\ exists rest,
             SafeWorktreeRemove.proc_cwd proc
             = Some (abspath worktree_path ++ rest)%string
             /\ (abspath worktree_path ++ rest)%string <> "".
Proof.
  intros abspath psutil procs pid path proc.
  unfold SafeWorktreeRemove.check_processes_using_worktree.
  destruct psutil; cbn [negb].
  - rewrite filter_In, !andb_true_iff, negb_true_iff, Z.eqb_neq,
      truthy_str_spec.
    unfold Py.startswith; rewrite prefix_append.
    split.
    + intros (Hin & ((cwd & Hcwd & Hne) & (rest & Hrest)) & Hpid).
      rewrite Hcwd in Hrest; cbn [Py.get_or] in Hrest; subst cwd.
      repeat split; try assumption.
      exists rest; split; assumption.
    + intros (_ & Hin & Hpid & (rest & Hcwd & Hne)).
      repeat split; try assumption.
      * eexists; split; [exact Hcwd | exact Hne].
      * rewrite Hcwd; exists rest; reflexivity.
  - split; [intros [] | intros (H & _); discriminate].
Qed.

(** The shell inside the live worktree and the editor in the directory
    "live2" next to it are both reported for "live"; the caller is not. *)
Example processes_using_worktree_run :
  SafeWorktreeRemove.check_processes_using_worktree Ex.abspath true
    (SafeWorktreeRemove.mkProcess 1 (Some "python")
       (Some "/repo/worktrees/live") :: Ex.neighbour :: Ex.process_iter)
    Ex.getpid Ex.live_wt
  = [Ex.neighbour; Ex.shell].
Proof.
  reflexivity.
Qed.

Lemma filter_all {A : Type} (f : A -> bool) (l : list A) :
  List.length (filter f l) = List.length l -> filter f l = l.
Proof.
  induction l as [|x l IH]; simpl; [reflexivity|].
  pose proof (filter_length_le f l) as Hle.
  destruct (f x); simpl; intros H; [f_equal; apply IH; lia | lia].
Qed.

(** X22. The auto-release of the guard removes every claim of the cc_id
    and nothing else, and releasing twice is releasing once: after
    [release_claim] no claim of the ledger carries the cc_id, the other
    claims are kept in order, and a second call leaves the disk as the
    first left it (no second history entry). *)
Theorem guard_release_claim_idempotent :
  forall (now now' : Z) (cc_id : string) (d : Disk),
    let d1 := snd (SafeWorktreeRemove.release_claim now cc_id d) in
    snd (SafeWorktreeRemove.release_claim now' cc_id d1) = d1
    /\ option_map claims (ledger_file d1)
       = option_map
           (fun data =>
              filter (fun c => negb (Py.eq_str (claim_cc_id c) (Some cc_id)))
                     (claims data))
           (ledger_file d).
Proof.
  intros now now' cc d d1; subst d1.
  unfold SafeWorktreeRemove.release_claim at 2 3 4.
  destruct (ledger_file d) as [data|] eqn:El; cbn [snd option_map].
  - set (keep := fun c => negb (Py.eq_str (claim_cc_id c) (Some cc))).
    destruct (Nat.ltb (List.length (filter keep (claims data)))
                      (List.length (claims data))) eqn:E; cbn [snd].
    + split; [|reflexivity].
      unfold SafeWorktreeRemove.release_claim; cbn [ledger_file claims].
      fold keep; rewrite filter_twice, Nat.ltb_irrefl; reflexivity.
    + apply Nat.ltb_ge in E.
      pose proof (filter_length_le keep (claims data)) as Hle.
      assert (Hall : filter keep (claims data) = claims data)
        by (apply filter_all; lia).
      rewrite El; cbn [option_map]; rewrite Hall; split; [|reflexivity].
      unfold SafeWorktreeRemove.release_claim; rewrite El.
      fold keep; rewrite Hall, Nat.ltb_irrefl; reflexivity.
  - rewrite El; split; [|reflexivity].
    unfold SafeWorktreeRemove.release_claim; now rewrite El.
Qed.

(** ** [remove_worktree] *)

Section RemoveFacts.

Variable now : Z.
Variable fromisoformat : string -> option IsoTime.
Variable resolve : string -> string.
Variable abspath : string -> string.
Variable get_worktree_branch : string -> option string.
Variable is_branch_merged : string -> option bool.
Variable git_status : string -> option string.
Variable session_marker : string -> option (option string).
Variable HAS_PSUTIL : bool.
Variable process_iter : list SafeWorktreeRemove.Process.
Variable getpid : Z.

(** The guard's answer is the answer of [should_block_removal] on the
    ledger file; only the verdict "merged_safe" touches the disk. *)
Lemma guard_and_auto_release_verdict worktree_path force my_identity d :
  fst (SafeWorktreeRemove.guard_and_auto_release now fromisoformat resolve
         abspath get_worktree_branch is_branch_merged git_status
         session_marker HAS_PSUTIL process_iter getpid worktree_path force
         my_identity d)
  = SafeWorktreeRemove.should_block_removal now fromisoformat resolve abspath
      get_worktree_branch is_branch_merged git_status session_marker
      HAS_PSUTIL process_iter getpid (ledger_file d) worktree_path force
      my_identity
  /\ (option_map (fun v => snd (fst v))
        (SafeWorktreeRemove.should_block_removal now fromisoformat
           resolve abspath get_worktree_branch is_branch_merged
           git_status session_marker HAS_PSUTIL process_iter getpid
           (ledger_file d) worktree_path force my_identity)
      <> Some "merged_safe" ->
      snd (SafeWorktreeRemove.guard_and_auto_release now fromisoformat resolve
             abspath get_worktree_branch is_branch_merged git_status
             session_marker HAS_PSUTIL process_iter getpid worktree_path force
             my_identity d)
      = d).
Proof.
  unfold SafeWorktreeRemove.guard_and_auto_release.
  destruct (SafeWorktreeRemove.should_block_removal _ _ _ _ _ _ _ _ _ _ _ _ _
              _ _) as [[[block reason] info]|]; [|split; reflexivity].
  destruct block; [split; reflexivity|].
  destruct info as [[claim | mt | procs]|]; try (split; reflexivity).
  destruct (String.eqb reason "merged_safe") eqn:E.
  - apply String.eqb_eq in E; subst reason.
    unfold bind, ret.
    destruct (SafeWorktreeRemove.release_claim now _ d) as [u d1].
    split; [reflexivity | intros H; now destruct H].
  - split; reflexivity.
Qed.

End RemoveFacts.

(** X23. What a removal without [force] guarantees: when [remove_worktree]
    returns success with [force] off, the path exists, the caller's shell is
    not inside the worktree, the guard had a verdict and it was not a block,
    [git status] showed no uncommitted change, and the plain
    [git worktree remove] succeeded. *)
Theorem remove_worktree_success_is_safe :
  forall (now : Z) (fromisoformat : string -> option IsoTime)
         (resolve abspath : string -> string)
         (get_worktree_branch : string -> option string)
         (is_branch_merged : string -> option bool)
         (git_status : string -> option string)
         (session_marker : string -> option (option string))
         (HAS_PSUTIL : bool)
         (process_iter : list SafeWorktreeRemove.Process) (getpid : Z)
         (path_exists : string -> bool) (getcwd : option string)
         (my_identity : SafeWorktreeRemove.Identity)
         (git_worktree_remove git_worktree_remove_force : string -> bool)
         (worktree_path : string) (d d' : Disk),
    RemoveWorktree.remove_worktree now fromisoformat resolve abspath
      get_worktree_branch is_branch_merged git_status session_marker
      HAS_PSUTIL process_iter getpid path_exists getcwd my_identity
      git_worktree_remove git_worktree_remove_force worktree_path false d
    = (Some true, d') ->
    path_exists worktree_path = true
    /\ (forall current_dir,
          getcwd = Some current_dir ->
          Py.startswith current_dir (abspath worktree_path) = false)
    /\ option_map (fun v => fst (fst v))
         (SafeWorktreeRemove.should_block_removal now fromisoformat
            resolve abspath get_worktree_branch is_branch_merged
            git_status session_marker HAS_PSUTIL process_iter getpid
            (ledger_file d) worktree_path false my_identity)
       = Some false
    /\ SafeWorktreeRemove.has_uncommitted_changes git_status worktree_path
       = false
    /\ git_worktree_remove worktree_path = true.
Proof.
  intros now fromiso resolve abspath gwb ibm status marker psutil procs pid
    path_exists getcwd me git_rm git_rm_force path d d'.
  unfold RemoveWorktree.remove_worktree.
  destruct (path_exists path); cbn [negb]; [|discriminate].
  assert (Hcwd : (match getcwd with
                  | Some current_dir => Py.startswith current_dir (abspath path)
                  | None => false
                  end) = false ->
                 forall current_dir, getcwd = Some current_dir ->
                   Py.startswith current_dir (abspath path) = false)
    by (intros H c ->; exact H).
  destruct (match getcwd with Some _ => _ | None => _ end);
    [discriminate|].
  specialize (Hcwd eq_refl).
  unfold bind.
  destruct (guard_and_auto_release_verdict now fromiso resolve abspath gwb ibm
              status marker psutil procs pid path false me d) as [Hv _].
  destruct (SafeWorktreeRemove.guard_and_auto_release _ _ _ _ _ _ _ _ _ _ _ _
              _ _ d) as [v d1].
  cbn [fst] in Hv; subst v.
  destruct (SafeWorktreeRemove.should_block_removal now fromiso resolve
              abspath gwb ibm status marker psutil procs pid (ledger_file d)
              path false me) as [v|] eqn:Ev; [|discriminate].
  destruct (should_block_removal_cases now fromiso resolve abspath gwb ibm
              status marker psutil procs pid (ledger_file d) path false me v
              Ev)
    as [(_ & Hb & Hr & Hi) | [(_ & Hb & _) | (Hb & _)]];
    destruct v as [[block reason] info];
    cbn [fst snd option_map] in *; subst block.
  - rewrite Hi; cbn [andb].
    destruct Hr as [-> | [-> | [-> | ->]]]; cbn; discriminate.
  - cbn [andb].
    destruct (SafeWorktreeRemove.has_uncommitted_changes status path);
      cbn [andb negb]; [discriminate|].
    unfold ret, RemoveWorktree.run_git_remove.
    destruct (git_rm path); [|discriminate].
    intros _; repeat split; assumption.
  - cbn [andb].
    destruct (SafeWorktreeRemove.has_uncommitted_changes status path);
      cbn [andb negb]; [discriminate|].
    unfold ret, RemoveWorktree.run_git_remove.
    destruct (git_rm path); [|discriminate].
    intros _; repeat split; assumption.
Qed.

Lemma remove_worktree_success_is_safe_witness :
  RemoveWorktree.remove_worktree Ex.now45 Ex.fromisoformat Ex.resolve
    Ex.abspath Ex.get_worktree_branch Ex.is_branch_merged Ex.git_status
    Ex.session_marker true Ex.process_iter Ex.getpid Ex.path_exists
    (Some "/repo") Ex.me Ex.git_worktree_remove Ex.git_worktree_remove_force
    Ex.merged_wt false Ex.guard_disk
  = (Some true,
     mkDisk
       (Some (mkData [Ex.claim_live]
                [Ex.done "old";
                 mkCompletion "plan-5-done" None None (Isoformat Ex.now45)
                              None false (Some "auto_released_merged_pr")]))
       [])
  /\ SafeWorktreeRemove.has_uncommitted_changes Ex.git_status Ex.merged_wt
     = false.
Proof.
  split; [reflexivity|].
  exact (proj1 (proj2 (proj2 (proj2
           (remove_worktree_success_is_safe Ex.now45 Ex.fromisoformat
              Ex.resolve Ex.abspath Ex.get_worktree_branch Ex.is_branch_merged
              Ex.git_status Ex.session_marker true Ex.process_iter Ex.getpid
              Ex.path_exists (Some "/repo") Ex.me Ex.git_worktree_remove
              Ex.git_worktree_remove_force Ex.merged_wt Ex.guard_disk _
              eq_refl))))).
Defined.

(** X24. What stops a removal, and leaves the disk alone: a path that does
    not exist, a caller whose shell is inside the worktree (both even with
    [force]), or a blocking verdict of the guard.  In each case
    [remove_worktree] returns failure and writes nothing. *)
Theorem remove_worktree_refusals_write_nothing :
  forall (now : Z) (fromisoformat : string -> option IsoTime)
         (resolve abspath : string -> string)
         (get_worktree_branch : string -> option string)
         (is_branch_merged : string -> option bool)
         (git_status : string -> option string)
         (session_marker : string -> option (option string))
         (HAS_PSUTIL : bool)
         (process_iter : list SafeWorktreeRemove.Process) (getpid : Z)
         (path_exists : string -> bool) (getcwd : option string)
         (my_identity : SafeWorktreeRemove.Identity)
         (git_worktree_remove git_worktree_remove_force : string -> bool)
         (worktree_path : string) (force : bool) (d : Disk),
    path_exists worktree_path = false
    \/ (exists current_dir,
          getcwd = Some current_dir
          /\ Py.startswith current_dir (abspath worktree_path) = true)
    \/ option_map (fun v => fst (fst v))
         (SafeWorktreeRemove.should_block_removal now fromisoformat
            resolve abspath get_worktree_branch is_branch_merged
            git_status session_marker HAS_PSUTIL process_iter getpid
            (ledger_file d) worktree_path force my_identity)
       = Some true ->
    RemoveWorktree.remove_worktree now fromisoformat resolve abspath
      get_worktree_branch is_branch_merged git_status session_marker
      HAS_PSUTIL process_iter getpid path_exists getcwd my_identity
      git_worktree_remove git_worktree_remove_force worktree_path force d
    = (Some false, d).
Proof.
  intros now fromiso resolve abspath gwb ibm status marker psutil procs pid
    path_exists getcwd me git_rm git_rm_force path force d H.
  unfold RemoveWorktree.remove_worktree.
  destruct (path_exists path) eqn:Ep; cbn [negb]; [|reflexivity].
  destruct H as [H | [(cwd & Hcwd & Hin) | Hblock]]; [discriminate | |].
  - rewrite Hcwd, Hin; reflexivity.
  - destruct (match getcwd with Some _ => _ | None => _ end); [reflexivity|].
    unfold bind.
    destruct (guard_and_auto_release_verdict now fromiso resolve abspath gwb
                ibm status marker psutil procs pid path force me d)
      as [Hv Hd].
    destruct (SafeWorktreeRemove.guard_and_auto_release _ _ _ _ _ _ _ _ _ _ _
                _ _ _ d) as [v d1].
    cbn [fst snd] in Hv, Hd; subst v.
    destruct (SafeWorktreeRemove.should_block_removal now fromiso resolve
                abspath gwb ibm status marker psutil procs pid (ledger_file d)
                path force me) as [v|] eqn:Ev; [|discriminate].
    destruct (should_block_removal_cases now fromiso resolve abspath gwb ibm
                status marker psutil procs pid (ledger_file d) path force me v
                Ev)
      as [(_ & Hb & Hr & Hi) | [(_ & Hb & _) | (Hb & _)]];
      destruct v as [[block reason] info];
      cbn [fst snd option_map] in *; try congruence.
    subst block; rewrite Hi.
    rewrite Hd by (destruct Hr as [-> | [-> | [-> | ->]]]; discriminate).
    destruct Hr as [-> | [-> | [-> | ->]]]; reflexivity.
Qed.

Lemma remove_worktree_refusals_write_nothing_witness :
  RemoveWorktree.remove_worktree Ex.now45 Ex.fromisoformat Ex.resolve
    Ex.abspath Ex.get_worktree_branch Ex.is_branch_merged Ex.git_status
    Ex.session_marker true Ex.process_iter Ex.getpid Ex.path_exists
    (Some "/repo/worktrees/merged/src") Ex.me Ex.git_worktree_remove
    Ex.git_worktree_remove_force Ex.merged_wt true Ex.guard_disk
  = (Some false, Ex.guard_disk)
  /\ RemoveWorktree.remove_worktree Ex.now45 Ex.fromisoformat Ex.resolve
       Ex.abspath Ex.get_worktree_branch Ex.is_branch_merged Ex.git_status
       Ex.session_marker true Ex.process_iter Ex.getpid Ex.path_exists
       (Some "/repo") Ex.me Ex.git_worktree_remove
       Ex.git_worktree_remove_force Ex.live_wt false Ex.guard_disk
     = (Some false, Ex.guard_disk).
Proof.
  split; apply remove_worktree_refusals_write_nothing.
  - right; left; exists "/repo/worktrees/merged/src"; split; reflexivity.
  - right; right; reflexivity.
Defined.

(** ** The session heartbeat *)

Lemma find_skips {A : Type} (p : A -> bool) (before after : list A) (x : A) :
  (forall y, In y before -> p y = false) -> p x = true ->
  find p (before ++ x :: after) = Some x.
Proof.
  induction before as [|y before IH]; simpl; intros Hb Hx.
  - now rewrite Hx.
  - rewrite (Hb y) by now left.
    apply IH; [intros z Hz; apply Hb; now right | exact Hx].
Qed.

(** X25. A heartbeat keeps the session, and keeps it alive for the length
    of the threshold: [update_session_heartbeat] on a session file that has
    an id returns a session with the same id, host, pid and start;
    [get_or_create_session] on the file it wrote keeps that id whatever
    fresh id is offered; and once the file is in the session directory,
    [is_session_stale] reports the id stale exactly when more than the
    threshold has passed since the heartbeat (given that the timestamp
    written reads back as the time of the heartbeat). *)
Theorem heartbeat_keeps_session_alive :
  forall (t : Z) (isoformat : Z -> string) (gethostname : string)
         (getpid : Z) (fromisoformat : string -> option IsoTime)
         (working_on : option string) (uuid4 : string) (session : Session)
         (id : string) (read_back : IsoTime),
    s_session_id session = Some id ->
    id <> "" ->
    isoformat t <> "" ->
    fromisoformat (isoformat t) = Some read_back ->
    as_utc read_back = t ->
    let beat :=
      update_session_heartbeat t isoformat gethostname getpid working_on uuid4
        (Some session) in
    snd beat = Some (fst beat)
    /\ s_session_id (fst beat) = Some id
    /\ s_hostname (fst beat) = s_hostname session
    /\ s_pid (fst beat) = s_pid session
    /\ s_started_at (fst beat) = s_started_at session
    /\ (forall t' uuid4',
          s_session_id
            (fst (get_or_create_session t' isoformat gethostname getpid uuid4'
                    (snd beat)))
          = Some id)
    /\ (forall t' before after staleness_minutes,
          (forall f, In f before -> matches id f = false) ->
          (fst (is_session_stale t' fromisoformat
                  (Some (before ++ Some (fst beat) :: after)) id
                  staleness_minutes) = true
           <-> t' - t > staleness_minutes * (60 * 1000000))).
Proof.
  intros t isoformat host pid fromiso working_on uuid4 session id read_back
    Hid Hne Hiso Hread Hutc beat.
  assert (Hnonempty : session_is_empty session = false)
    by (destruct session as [[i|] h p s l w]; [reflexivity | discriminate]).
  assert (Hbeat : beat
                  = (let s := with_last_activity session (isoformat t) in
                     let s := match working_on with
                              | Some w => with_working_on s w
                              | None => s
                              end in
                     (s, Some s))).
  { subst beat; unfold update_session_heartbeat; now rewrite Hnonempty. }
  rewrite Hbeat; clear Hbeat beat; cbv zeta.
  set (s' := match working_on with
             | Some w => with_working_on (with_last_activity session
                                            (isoformat t)) w
             | None => with_last_activity session (isoformat t)
             end).
  assert (Hid' : s_session_id s' = Some id)
    by (subst s'; destruct working_on; exact Hid).
  assert (Hlast : s_last_activity s' = Some (isoformat t))
    by (subst s'; destruct working_on; reflexivity).
  cbn [fst snd].
  split; [reflexivity | split; [exact Hid'|]].
  split; [subst s'; destruct working_on; reflexivity|].
  split; [subst s'; destruct working_on; reflexivity|].
  split; [subst s'; destruct working_on; reflexivity|].
  split.
  - intros t' uuid4'; unfold get_or_create_session.
    assert (Hne' : session_is_empty s' = false)
      by (destruct s' as [[i|] h p s l w]; [reflexivity | discriminate]).
    rewrite Hne', Hid'; cbn [negb andb Py.truthy_str].
    apply String.eqb_neq in Hne; rewrite Hne; exact Hid'.
  - intros t' before after m Hbefore.
    rewrite is_session_stale_found; unfold find_session.
    rewrite (find_skips (matches id) before after (Some s') Hbefore)
      by (cbn [matches]; rewrite Hid'; now apply eq_str_true).
    unfold session_verdict; rewrite Hlast; cbn [Py.truthy_str Py.get_or].
    apply String.eqb_neq in Hiso; rewrite Hiso; cbn [negb].
    rewrite Hread, Hutc; unfold Py.microseconds_per_minute.
    destruct (Z.gtb_spec (t' - t) (m * (60 * 1000000))) as [Hgt | Hle];
      cbn [fst]; split; intros Hs; try reflexivity; try discriminate; lia.
Qed.

Lemma heartbeat_keeps_session_alive_witness :
  s_session_id
    (fst (update_session_heartbeat (Ex.t0 + Ex.minutes 20) Ex.isoformat "host"
            4242 (Some "Plan #5") "fresh-uuid" (Some Ex.my_session)))
  = Some "s-me"
  /\ (fst (is_session_stale Ex.now45 Ex.fromisoformat
             (Some ([None; Some Ex.old_session]
                    ++ Some (fst (update_session_heartbeat
                                    (Ex.t0 + Ex.minutes 20) Ex.isoformat
                                    "host" 4242 (Some "Plan #5") "fresh-uuid"
                                    (Some Ex.my_session)))
                    :: []))
             "s-me" 30) = true
      <-> Ex.now45 - (Ex.t0 + Ex.minutes 20) > 30 * (60 * 1000000)).
Proof.
  destruct (heartbeat_keeps_session_alive (Ex.t0 + Ex.minutes 20) Ex.isoformat
              "host" 4242 Ex.fromisoformat (Some "Plan #5") "fresh-uuid"
              Ex.my_session "s-me"
              (mkIsoTime (Ex.t0 + Ex.minutes 20) None) eq_refl)
    as (_ & Hid & _ & _ & _ & _ & Halive);
    [discriminate | discriminate | reflexivity | reflexivity |].
  split; [exact Hid|].
  apply Halive.
  intros f [<- | [<- | []]]; reflexivity.
Defined.

(** ** File coverage *)

Lemma filter_partition_length {A : Type} (f : A -> bool) (l : list A) :
  (List.length (filter f l) + List.length (filter (fun x => negb (f x)) l)
   = List.length l)%nat.
Proof.
  induction l as [|x l IH]; simpl; [reflexivity|].
  destruct (f x); simpl; lia.
Qed.

Section CoverageFacts.

Variable file_map : string -> option string.
Variable normalize : string -> string.

Lemma coverage_loop_filter features modified_files claimed unclaimed :
  let covered := fun filepath =>
    Py.eq_str (file_map (normalize filepath)) (Some "shared")
    || (Py.truthy_str (file_map (normalize filepath))
        && existsb (String.eqb (Py.get_or (file_map (normalize filepath)) ""))
                   features) in
  coverage_loop file_map normalize features modified_files claimed unclaimed
  = (claimed ++ filter covered modified_files,
     unclaimed ++ filter (fun f => negb (covered f)) modified_files).
Proof.
  intros covered; revert claimed unclaimed.
  induction modified_files as [|f rest IH]; intros claimed unclaimed;
    cbn [coverage_loop filter].
  - now rewrite !app_nil_r.
  - subst covered; cbv beta.
    destruct (Py.eq_str (file_map (normalize f)) (Some "shared"));
      cbn [orb negb].
    + rewrite IH, <- app_assoc; reflexivity.
    + destruct (Py.truthy_str _ && _); cbn [negb];
        rewrite IH, <- app_assoc; reflexivity.
Qed.

Lemma claimed_features_in claims feature :
  In feature (claimed_features claims)
  <-> feature <> ""
      /\ exists claim, In claim claims /\ claim_feature claim = Some feature.
Proof.
  induction claims as [|c rest IH]; cbn [claimed_features].
  - split; [intros [] | intros (_ & c & [] & _)].
  - destruct (Py.truthy_str (claim_feature c)) eqn:E.
    + apply truthy_str_spec in E; destruct E as (f & Hf & Hne).
      rewrite Hf; cbn [Py.get_or In]; rewrite IH; split.
      * intros [<- | (Hn & c' & Hin & Hc')].
        -- split; [exact Hne | exists c; split; [now left | exact Hf]].
        -- split; [exact Hn | exists c'; split; [now right | exact Hc']].
      * intros (Hn & c' & [<- | Hin] & Hc').
        -- left; congruence.
        -- right; split; [exact Hn | exists c'; split; assumption].
    + rewrite IH; split.
      * intros (Hn & c' & Hin & Hc'); split; [exact Hn|].
        exists c'; split; [now right | exact Hc'].
      * intros (Hn & c' & [<- | Hin] & Hc').
        -- exfalso.
           assert (Ht : Py.truthy_str (claim_feature c) = true)
             by (apply truthy_str_spec; exists feature; auto).
           congruence.
        -- split; [exact Hn | exists c'; split; assumption].
Qed.

End CoverageFacts.

(** X26. [check_files_claimed] splits the modified files in two: a file is
    reported claimed exactly when its feature is "shared" or is the
    non-empty feature of some claim, and unclaimed otherwise; no file is
    lost or reported twice. *)
Theorem check_files_claimed_partition :
  forall (file_map : string -> option string) (normalize : string -> string)
         (modified_files : list string) (claims : list Claim),
    let result := check_files_claimed file_map normalize modified_files claims in
    let covered := fun filepath =>
      file_map (normalize filepath) = Some "shared"
      \/ exists feature claim,
           file_map (normalize filepath) = Some feature /\ feature <> ""
           /\ In claim claims /\ claim_feature claim = Some feature in
    (forall f, In f (fst result) <-> In f modified_files /\ covered f)
    /\ (forall f, In f (snd result) <-> In f modified_files /\ ~ covered f)
    /\ (List.length (fst result) + List.length (snd result)
        = List.length modified_files)%nat.
Proof.
  intros file_map normalize files claims result covered.
  subst result; unfold check_files_claimed.
  rewrite coverage_loop_filter; cbn [fst snd app].
  set (test := fun filepath => _ || _).
  assert (Htest : forall f, test f = true <-> covered f).
  { intros f; subst test covered; cbv beta.
    rewrite orb_true_iff, andb_true_iff, eq_str_true, truthy_str_spec.
    split.
    - intros [H | [(feat & Hfeat & Hne) Hex]]; [left; exact H|].
      rewrite Hfeat in Hex; cbn [Py.get_or] in Hex.
      apply existsb_exists in Hex; destruct Hex as (g & Hg & Heq).
      apply String.eqb_eq in Heq; subst g.
      apply claimed_features_in in Hg; destruct Hg as (_ & c & Hin & Hc).
      right; exists feat, c; auto.
    - intros [H | (feat & c & Hfeat & Hne & Hin & Hc)]; [left; exact H|].
      right; split; [exists feat; auto|].
      rewrite Hfeat; cbn [Py.get_or].
      apply existsb_exists; exists feat; split; [|apply String.eqb_refl].
      apply claimed_features_in; split; [exact Hne | exists c; auto]. }
  split; [|split].
  - intros f; rewrite filter_In, Htest; reflexivity.
  - intros f; rewrite filter_In, negb_true_iff, <- Htest.
    split; intros [H1 H2]; (split; [exact H1|]).
    + intros Ht; change (test f = false) in H2; congruence.
    + change (test f = false).
      destruct (test f); [exfalso; apply H2; reflexivity | reflexivity].
  - apply filter_partition_length.
Qed.

(** X27. A claim on a plan covers no file: claims that name no feature
    change nothing to the answer of [check_files_claimed]; only the files of
    "shared" are then reported claimed. *)
Theorem plan_claims_cover_no_file :
  forall (file_map : string -> option string) (normalize : string -> string)
         (modified_files : list string) (claims : list Claim),
    (forall claim, In claim claims -> claim_feature claim = None) ->
    check_files_claimed file_map normalize modified_files claims
    = check_files_claimed file_map normalize modified_files [].
Proof.
  intros file_map normalize files claims H.
  unfold check_files_claimed.
  replace (claimed_features claims) with (@nil string); [reflexivity|].
  induction claims as [|c rest IH]; cbn [claimed_features]; [reflexivity|].
  rewrite (H c) by now left.
  cbn [Py.truthy_str]; apply IH.
  intros c' Hc'; apply H; now right.
Qed.

Lemma plan_claims_cover_no_file_witness :
  check_files_claimed Ex.file_map Ex.normalize
    ["src/world/ledger.py"; "config/schema.yaml"; "README.md"] [Ex.plan5]
  = (["config/schema.yaml"], ["src/world/ledger.py"; "README.md"])
  /\ check_files_claimed Ex.file_map Ex.normalize
       ["src/world/ledger.py"; "config/schema.yaml"; "README.md"] [Ex.plan5]
     = check_files_claimed Ex.file_map Ex.normalize
         ["src/world/ledger.py"; "config/schema.yaml"; "README.md"] [].
Proof.
  split; [reflexivity|].
  apply plan_claims_cover_no_file.
  intros claim [<- | []]; reflexivity.
Defined.

(** ** Pruning the history *)

Lemma data_eta (data : Data) : mkData (claims data) (completed data) = data.
Proof.
  now destruct data.
Qed.

(** X28. [cleanup_old_completed] drops exactly the history entries whose
    timestamp parses and is older than the threshold: the history after the
    call is the history before, filtered by [keep_completion], so the
    entries kept stand in their order and as often as before; entries whose
    timestamp does not parse are kept; the claims are not touched.  It
    returns the number dropped, saves the ledger only when it dropped
    something, and a second run at the same time drops nothing. *)
Theorem cleanup_old_completed_prunes_parsed_old_entries :
  forall (now : Z) (strptime : string -> string -> option Z)
         (strip : string -> string) (text_of : TimeText -> string)
         (data : Data) (hours : Z) (d : Disk),
    let run := cleanup_old_completed now strptime strip text_of data hours d in
    let data' := snd (fst run) in
    claims data' = claims data
    /\ completed data'
       = filter (keep_completion now strptime strip text_of hours)
                (completed data)
    /\ (forall c,
          keep_completion now strptime strip text_of hours c = true
          <-> (forall ts,
                 parse_timestamp strptime strip (text_of (completed_at c))
                 = Some ts ->
                 now - ts <= hours * (3600 * 1000000)))
    /\ (forall c,
          In c (completed data')
          <-> In c (completed data)
              /\ (forall ts,
                    parse_timestamp strptime strip (text_of (completed_at c))
                    = Some ts ->
                    now - ts <= hours * (3600 * 1000000)))
    /\ fst (fst run)
       = (List.length (completed data) - List.length (completed data'))%nat
    /\ (fst (fst run) = O -> data' = data /\ snd run = d)
    /\ ((0 < fst (fst run))%nat -> ledger_file (snd run) = Some data')
    /\ cleanup_old_completed now strptime strip text_of data' hours (snd run)
       = ((O, data'), snd run).
Proof.
  intros now strptime strip text_of data hours d run data'.
  set (keep := keep_completion now strptime strip text_of hours).
  assert (Hrun : run
                 = (let kept := mkData (claims data)
                                       (filter keep (completed data)) in
                    let removed := (List.length (completed data)
                                    - List.length (filter keep (completed data)))%nat in
                    ((removed, kept),
                     if Nat.ltb 0 removed
                     then mkDisk (Some kept) (worktree_claim_files d)
                     else d))).
  { subst run; unfold cleanup_old_completed; cbn [completed]; fold keep.
    destruct (Nat.ltb 0 _); reflexivity. }
  subst data'; rewrite Hrun; clear Hrun run; cbv zeta; cbn [fst snd claims completed].
  pose proof (filter_length_le keep (completed data)) as Hle.
  split; [reflexivity|].
  split; [reflexivity|].
  split.
  { intros c; subst keep; unfold keep_completion.
    unfold Py.microseconds_per_hour.
    destruct (parse_timestamp strptime strip (text_of (completed_at c)))
      as [ts|].
    - rewrite Z.leb_le; split; [intros H ts' [= <-]; exact H | auto].
    - split; [discriminate | reflexivity]. }
  split.
  { intros c; rewrite filter_In; subst keep; unfold keep_completion.
    unfold Py.microseconds_per_hour.
    destruct (parse_timestamp strptime strip (text_of (completed_at c)))
      as [ts|].
    - rewrite Z.leb_le; split; intros [H1 H2]; (split; [exact H1|]).
      + intros ts' [= <-]; exact H2.
      + now apply H2.
    - split; intros [H1 _]; (split; [exact H1|]);
        [discriminate | reflexivity]. }
  split; [reflexivity|].
  split.
  { intros Hz.
    assert (Hall : filter keep (completed data) = completed data)
      by (apply filter_all; lia).
    split; [now rewrite Hall, data_eta | now rewrite Hz]. }
  split.
  { intros Hpos; apply Nat.ltb_lt in Hpos; now rewrite Hpos. }
  unfold cleanup_old_completed; cbn [claims completed]; fold keep.
  rewrite filter_twice, Nat.sub_diag; reflexivity.
Qed.

(** An old entry written by [strftime] is pruned; an entry written by
    [isoformat], which none of the formats reads, stays. *)
Example cleanup_old_completed_run :
  fst (cleanup_old_completed (Ex.t0 + Ex.hours 30) Ex.strptime Ex.strip
         Ex.text_of
         (mkData [Ex.plan5]
            [Ex.done "old";
             mkCompletion "plan-3" None None (Isoformat Ex.t0) None false
                          (Some "auto_released_orphaned")])
         24 Ex.store_disk)
  = (1%nat,
     mkData [Ex.plan5]
       [mkCompletion "plan-3" None None (Isoformat Ex.t0) None false
                     (Some "auto_released_orphaned")]).
Proof.
  reflexivity.
Qed.

(** ** Worktree claim files *)

Lemma find_filter_other (files : list (string * Claim)) (path other : string) :
  other <> path ->
  find (fun e => String.eqb (fst e) other)
       (filter (fun e => negb (String.eqb (fst e) path)) files)
  = find (fun e => String.eqb (fst e) other) files.
Proof.
  intros Hne; induction files as [|[p c] rest IH]; simpl; [reflexivity|].
  destruct (String.eqb_spec p path) as [-> | Hp]; simpl.
  - apply String.eqb_neq in Hne; rewrite String.eqb_sym in Hne.
    now rewrite Hne.
  - destruct (String.eqb p other); [reflexivity | exact IH].
Qed.

(** X29. Write then read of a claim file: when the claim file of a worktree
    can be written, [save_claim_to_worktree] succeeds and
    [load_claim_from_worktree] on that path returns what was written, with
    the path added as [worktree_path] (a plan of 0 and an empty feature are
    not written); the claim files of the other worktrees and the ledger are
    untouched.  When it cannot be written, nothing changes. *)
Theorem claim_file_write_then_read :
  forall (now : Z) (claim_file_writable : string -> bool)
         (worktree_path cc_id task : string) (plan : option Z)
         (feature : option string) (session_id : string) (d : Disk),
    let run :=
      save_claim_to_worktree now claim_file_writable worktree_path cc_id task
        plan feature session_id d in
    (claim_file_writable worktree_path = true ->
     fst run = true
     /\ load_claim_from_worktree (snd run) worktree_path
        = Some (mkClaim (Some cc_id)
                        (if Py.truthy_int plan then plan else None)
                        (if Py.truthy_str feature then feature else None)
                        (Some task) (Some (Strftime now)) (Some session_id)
                        (Some worktree_path) [])
     /\ (forall other,
           other <> worktree_path ->
           load_claim_from_worktree (snd run) other
           = load_claim_from_worktree d other)
     /\ ledger_file (snd run) = ledger_file d)
    /\ (claim_file_writable worktree_path = false -> run = (false, d)).
Proof.
  intros now writable path cc_id task plan feature session_id d run.
  subst run; unfold save_claim_to_worktree.
  split; intros Hw; rewrite Hw; [|reflexivity].
  cbn [fst snd ledger_file].
  split; [reflexivity|].
  split.
  - unfold load_claim_from_worktree; cbn [worktree_claim_files find fst].
    rewrite String.eqb_refl; reflexivity.
  - split; [|reflexivity].
    intros other Hne; unfold load_claim_from_worktree.
    cbn [worktree_claim_files find fst].
    assert (Hp : String.eqb path other = false)
      by (apply String.eqb_neq; congruence).
    rewrite Hp, find_filter_other by exact Hne.
    reflexivity.
Qed.

(** The claims of the worktrees, read back: the main checkout is skipped, a
    worktree without a claim file yields nothing, and the cc_id of a claim
    is the branch of its worktree, whatever the file says. *)
Example load_claims_from_worktrees_run :
  load_claims_from_worktrees
    (mkDisk None
       [("/repo", Ex.plan5); ("/repo/worktrees/live", Ex.plan5)])
    [mkWorktreeEntry (Some "/repo") (Some "main");
     mkWorktreeEntry (Some "/repo/worktrees/empty") (Some "plan-2");
     mkWorktreeEntry (Some "/repo/worktrees/live") (Some "plan-6")]
  = [mkClaim (Some "plan-6") (Some 5) None (Some "task") None
             (Some "session-1") (Some "/repo/worktrees/live") []].
Proof.
  reflexivity.
Qed.

(** ** [verify_has_claim] *)

(** X30. A granted claim verifies: after [add_claim] succeeds,
    [verify_has_claim] on the resulting ledger finds a claim for the cc_id
    and reports the task just claimed. *)
Theorem granted_claim_verifies :
  forall (now : Z) (get_plan_status : Z -> PlanStatus * list Z)
         (get_feature_names : list string) (get_session_id : string)
         (find_worktree_for_branch : string -> option string)
         (claim_file_writable : string -> bool)
         (data : Data) (cc_id : string) (plan : option Z)
         (feature : option string) (task : string) (files : list string)
         (worktree_path : option string) (force : bool)
         (session_id : option string) (d : Disk) (data' : Data) (d' : Disk),
    add_claim now get_plan_status get_feature_names get_session_id
      find_worktree_for_branch claim_file_writable data cc_id plan feature
      task files worktree_path force session_id d
    = ((true, data'), d') ->
    verify_has_claim data' cc_id = (true, ActiveClaim task)
    /\ fst (verify_has_claim data cc_id) = false.
Proof.
  intros now gps names sid fw cw data cc_id plan feature task files wt force
    session_id d data' d' H.
  destruct (add_claim_outcomes now gps names sid fw cw data cc_id plan feature
              task files wt force session_id d)
    as [Hfail | (c & d1 & Hok & _ & Hcc & _ & _ & Htask & _ & _ & _ & Hdup & _)];
    rewrite H in *; [discriminate|].
  injection Hok as -> ->.
  unfold verify_has_claim; cbn [claims]; split.
  - rewrite (find_app_last _ (claims data) c Hdup)
      by (now apply eq_str_true).
    now rewrite Htask.
  - destruct (find _ (claims data)) as [c'|] eqn:E.
    + apply find_some in E; destruct E as [Hin Hc'].
      assert (Ht : existsb (fun claim => Py.eq_str (claim_cc_id claim)
                                           (Some cc_id)) (claims data) = true)
        by (apply existsb_exists; exists c'; split; assumption).
      congruence.
    + now destruct (String.eqb cc_id "main").
Qed.

Lemma granted_claim_verifies_witness :
  verify_has_claim
    (snd (fst
       (add_claim Ex.now45 Ex.get_plan_status Ex.get_feature_names
          Ex.get_session_id Ex.find_worktree_for_branch Ex.claim_file_writable
          Ex.store_data "agent-B" (Some 6) None "fix" [] None false None
          Ex.store_disk)))
    "agent-B"
  = (true, ActiveClaim "fix")
  /\ fst (verify_has_claim Ex.store_data "agent-B") = false.
Proof.
  exact (granted_claim_verifies Ex.now45 Ex.get_plan_status
           Ex.get_feature_names Ex.get_session_id Ex.find_worktree_for_branch
           Ex.claim_file_writable Ex.store_data "agent-B" (Some 6) None "fix"
           [] None false None Ex.store_disk _ _ eq_refl).
Defined.
